(** * dalle-lightning: the VQGAN and VQVAE Lightning modules

    A shallow embedding of [pl_dalle/models/vqgan.py] and
    [pl_dalle/models/vqvae.py].

    Python objects are attribute dictionaries ([gmap string value]); reading
    an attribute that was never assigned raises [AttributeError], as
    [nn.Module.__getattr__] does.  Methods are computations in a state and
    exception monad over the [world]: the module instance, the trainer's
    [global_step], the gradient mode, the calls made to the networks and the
    values handed to [self.log].  Floats are real numbers.  The networks
    (encoder, decoder, projections, quantizers, discriminator loss) and the
    initialisers of [torch.nn.init] are collaborators, given as a class
    [Collaborators] of functions. *)

From Stdlib Require Import Reals Lra ZArith Lia Ascii.
From stdpp Require Import gmap strings list fin_maps.

Set Warnings "-register-all,-clear-no-such-hyp".
Local Open Scope string_scope.
Local Open Scope list_scope.

(** ** Tensors *)

(** A tensor is its shape and its elements in row-major order. *)
Record tensor (A : Type) : Type := Tensor { shape : list nat; data : list A }.
Arguments Tensor {A} _ _.
Arguments shape {A} _.
Arguments data {A} _.

Definition tmap {A B} (f : A → B) (t : tensor A) : tensor B :=
  Tensor (shape t) (f <$> data t).

(** ** Exceptions and values *)

Inductive exn : Type :=
  | AttributeError (attr : string)
  | NotImplementedError
  | TypeError (what : string)
  | ValueError (what : string)
  | IndexError
  | ZeroDivisionError
  | RuntimeError (what : string)
  | EinopsError
  | UnboundLocalError (var : string).

(** The command-line namespace [args]; the fields are the ones the two
    files read. *)
Record Args : Type := {
  resolution : Z;
  attn_resolutions : list Z;
  num_tokens : nat;
  codebook_dim : nat;
  z_channels : nat;
  in_channels : nat;
  out_channels : nat;
  disc_in_channels : nat;
  disc_start : Z;
  codebook_weight : R;
  disc_weight : R;
  quant_beta : R;
  quant_ema_decay : R;
  quant_ema_eps : R;
  starting_temp : R;
  anneal_rate : R;
  temp_min : R;
  kl_loss_weight : R;
  log_images : bool;
  lr_decay : bool;
  lr_decay_rate : R;
  smooth_l1_loss : bool;
  n_embed : nat;
  embed_dim : nat
}.

(** The sub-modules the two classes instantiate.  [Encoder] and [Decoder]
    take the rest of their configuration (widths, residual blocks,
    dropout) from [args]. *)
Inductive module : Type :=
  | Encoder (a : Args)
  | Decoder (a : Args)
  | Conv2d (cin cout kernel : nat)
  | VQLPIPSWithDiscriminator (start : Z) (cb_weight : R) (disc_in : nat) (d_weight : R)
  | DiffusionEncoder (a : Args)
  | DiffusionDecoder (a : Args)
  | VectorQuantizer (n dim : nat) (beta : R) (remap : option string) (same_index_shape : bool)
  | EMAVectorQuantizer (n dim : nat) (beta decay eps : R)
  | GumbelQuantizer (n dim : nat) (kl_weight temp_init : R)
  | GumbelQuantize (zc dim n : nat) (kl_weight temp_init : R).

Inductive value : Type :=
  | VNone
  | VBool (b : bool)
  | VInt (z : Z)
  | VFloat (r : R)
  | VStr (s : string)
  | VArgs (a : Args)
  | VPair (means stds : list R)
  | VHparams (batch_size : Z) (learning_rate : R)
  | VModule (m : module) (attrs : gmap string value).

(** ** The world and the monad of methods *)

(** What a collaborator was called with.  [Call] is one call of the network
    held in attribute [attr], with the gradient mode and the input.
    [Quantize] is one call of [self.quantize]: the quantizer, its instance
    attributes at the time of the call (for a Gumbel quantizer its live
    [temperature]), the gradient mode, the state of the noise and the
    input.  [LossCall] is one call of [self.loss]. *)
Inductive event : Type :=
  | Call (attr : string) (m : module) (grad : bool) (input : tensor R)
  | Quantize (m : module) (live : gmap string value) (grad : bool) (draw : nat)
             (input : tensor R)
  | LossCall (m : module) (optimizer_idx : Z) (step : Z) (split : string)
             (qloss : R) (x xrec : tensor R).

Record world : Type := World {
  self : gmap string value;              (* the instance's attributes *)
  state_dict : list (string * tensor R); (* what named_parameters() yields *)
  global_step : Z;                       (* the trainer's step counter *)
  grad_enabled : bool;                   (* torch.is_grad_enabled() *)
  calls : list event;                    (* collaborator calls, oldest first *)
  logged : list (string * R)             (* self.log(name, value), oldest first *)
}.

Definition set_self (f : gmap string value → gmap string value) (w : world) : world :=
  World (f (self w)) (state_dict w) (global_step w) (grad_enabled w) (calls w) (logged w).
Definition set_state_dict (f : list (string * tensor R) → list (string * tensor R))
    (w : world) : world :=
  World (self w) (f (state_dict w)) (global_step w) (grad_enabled w) (calls w) (logged w).
Definition set_global_step (z : Z) (w : world) : world :=
  World (self w) (state_dict w) z (grad_enabled w) (calls w) (logged w).
Definition set_grad_enabled (b : bool) (w : world) : world :=
  World (self w) (state_dict w) (global_step w) b (calls w) (logged w).
Definition add_call (e : event) (w : world) : world :=
  World (self w) (state_dict w) (global_step w) (grad_enabled w) (calls w ++ [e]) (logged w).
Definition add_logged (k : string) (v : R) (w : world) : world :=
  World (self w) (state_dict w) (global_step w) (grad_enabled w) (calls w) (logged w ++ [(k, v)]).

Inductive result (A : Type) : Type :=
  | Ok (a : A)
  | Raise (e : exn).
Arguments Ok {A} _.
Arguments Raise {A} _.

(** A method: it changes the world and returns or raises.  The changes made
    before an exception stay, as in Python. *)
Definition M (A : Type) : Type := world → world * result A.

Definition ret {A} (a : A) : M A := λ w, (w, Ok a).
Definition raise {A} (e : exn) : M A := λ w, (w, Raise e).
Definition bind {A B} (c : M A) (k : A → M B) : M B :=
  λ w, match c w with
       | (w', Ok a) => k a w'
       | (w', Raise e) => (w', Raise e)
       end.
Definition lift {A} (r : result A) : M A := λ w, (w, r).
Definition gets {A} (f : world → A) : M A := λ w, (w, Ok (f w)).
Definition modify (f : world → world) : M unit := λ w, (f w, Ok tt).

#[global] Instance M_ret : MRet M := @ret.
#[global] Instance M_bind : MBind M := λ A B k c, bind c k.

(** [self.name] for an instance attribute. *)
Definition getattr (name : string) : M value :=
  λ w, match self w !! name with
       | Some v => (w, Ok v)
       | None => (w, Raise (AttributeError name))
       end.

(** [self.name = v] for a value that is not a module. *)
Definition setattr (name : string) (v : value) : M unit :=
  modify (set_self (insert name v)).

Definition as_float (v : value) : M R :=
  match v with
  | VFloat r => ret r
  | VInt z => ret (IZR z)
  | _ => raise (TypeError "float")
  end.

Definition as_args (v : value) : M Args :=
  match v with
  | VArgs a => ret a
  | _ => raise (AttributeError "args field")
  end.

(** The truth value [if v:] tests. *)
Definition as_bool (v : value) : M bool :=
  match v with
  | VBool b => ret b
  | VNone => ret false
  | VInt z => ret (bool_decide (z ≠ 0%Z))
  | VFloat r => ret (if Req_dec_T r 0 then false else true)
  | VStr s => ret (bool_decide (s ≠ ""))
  | _ => ret true
  end.

(** ** Collaborators *)

(** The auxiliary output of a quantizer: [(perplexity, encodings, indices)];
    the two files only ever read the indices. *)
Definition info : Type := option R * option (tensor R) * tensor nat.

(** The code outside the two files, taken as given.
    - [net_forward m x]: the output of encoder, decoder or convolution [m];
    - [quantizer_forward m live k h]: the output [(quant, loss, info)] of
      quantizer [m] whose instance attributes are [live]; [k], the number
      of calls made before this one, stands for the state of the random
      generator its sampling noise is drawn from;
    - [module_attrs m]: the attributes the constructor of [m] sets on it;
    - [initial_parameters m]: the named parameters of a new [m];
    - [embedding_weight m]: the rows of the codebook of quantizer [m];
    - [loss_forward m qloss x xrec optimizer_idx step last_layer split]:
      the scalar [VQLPIPSWithDiscriminator] returns;
    - [conv_out_weight a]: the weight of the decoder's last layer;
    - [orthogonal_ p], [kaiming_normal_ p]: the values the in-place
      initialiser of [torch.nn.init] writes into a tensor [p] it accepts;
    - [mse_loss], [smooth_l1]: the functionals of [torch.nn.functional]
      with their third positional argument. *)
Class Collaborators : Type := {
  net_forward : module → tensor R → tensor R;
  quantizer_forward : module → gmap string value → nat → tensor R → tensor R * R * info;
  module_attrs : module → gmap string value;
  initial_parameters : module → list (string * tensor R);
  embedding_weight : module → list (list R);
  loss_forward : module → R → tensor R → tensor R → Z → Z → tensor R → string → R;
  conv_out_weight : Args → tensor R;
  orthogonal_ : tensor R → tensor R;
  kaiming_normal_ : tensor R → tensor R;
  mse_loss : tensor R → tensor R → Z → R;
  smooth_l1 : tensor R → tensor R → Z → R
}.

(** ** Python and torch primitives *)

(** Floats are real numbers.  The true division [a / b] of two integers
    and [math.log] are given over the reals: they decide as Python does
    for integers whose quotient is a normal double ([in_double_range]
    below); outside that range Python raises [OverflowError] or rounds to
    0.0, which the properties that depend on the range exclude. *)
Definition py_truediv (a b : Z) : result R :=
  if decide (b = 0%Z) then Raise ZeroDivisionError else Ok (IZR a / IZR b)%R.

Definition math_log (x : R) : result R :=
  if Rlt_dec 0 x then Ok (ln x) else Raise (ValueError "math domain error").

(** [int(x)] truncates towards zero. *)
Definition py_int (x : R) : Z :=
  if Rle_dec 0 x then Int_part x else (- Int_part (- x))%Z.

Section Initialisers.
Context `{Collaborators}.

(** [torch.nn.init.orthogonal_(p)] refuses a tensor with fewer than two
    axes and leaves one without elements as it is. *)
Definition nn_init_orthogonal_ (p : tensor R) : result (tensor R) :=
  if decide (length (shape p) < 2)%nat then
    Raise (ValueError "Only tensors with 2 or more dimensions are supported")
  else if decide (0%nat ∈ shape p) then Ok p
  else Ok (orthogonal_ p).

(** [torch.nn.init.kaiming_normal_(p)] leaves a tensor without elements as
    it is and cannot compute the fan of one with fewer than two axes. *)
Definition nn_init_kaiming_normal_ (p : tensor R) : result (tensor R) :=
  if decide (0%nat ∈ shape p) then Ok p
  else if decide (length (shape p) < 2)%nat then
    Raise (ValueError
             "Fan in and fan out can not be computed for tensor with fewer than 2 dimensions")
  else Ok (kaiming_normal_ p).

End Initialisers.

(** [t.view(b, n)] keeps the elements and needs [b * n] of them. *)
Definition view2 {A} (t : tensor A) (b n : nat) : result (tensor A) :=
  if decide (length (data t) = b * n) then Ok (Tensor [b; n] (data t))
  else Raise (RuntimeError "shape is invalid for input size").

(** [rearrange(t, 'b (h w) d -> b d h w', h = h, w = w)]: [t] has three
    axes, the middle one of length [h * w]; element [(b, c, i, j)] of the
    result is element [(b, i * w + j, c)] of [t]. *)
Definition rearrange_b_hw_d {A} (h w : nat) (t : tensor A) : result (tensor A) :=
  match shape t with
  | [b; n; d] =>
      if decide (n = h * w) then
        Ok (Tensor [b; d; h; w]
              (bi ← seq 0 b; c ← seq 0 d; i ← seq 0 h; j ← seq 0 w;
               option_list (data t !! (((bi * h + i) * w + j) * d + c))))
      else Raise EinopsError
  | _ => Raise EinopsError
  end.

(** [rearrange(t, '(b n) -> b n', b = b)]. *)
Definition rearrange_bn {A} (b : nat) (t : tensor A) : result (tensor A) :=
  match shape t with
  | [l] =>
      if decide (b = 0) then Raise ZeroDivisionError
      else if decide (l `mod` b = 0) then Ok (Tensor [b; l `div` b] (data t))
      else Raise EinopsError
  | _ => Raise EinopsError
  end.

(** [rearrange(t, 'b h w -> b (h w)', b = b)]. *)
Definition rearrange_b_h_w {A} (b : nat) (t : tensor A) : result (tensor A) :=
  match shape t with
  | [b'; h; w] =>
      if decide (b' = b) then Ok (Tensor [b; h * w] (data t)) else Raise EinopsError
  | _ => Raise EinopsError
  end.

(** [nn.Embedding]: row [i] of the table for every index [i], appended as a
    new last axis of length [d]. *)
Fixpoint embedding_rows (table : list (list R)) (idx : list nat) : result (list R) :=
  match idx with
  | [] => Ok []
  | i :: rest =>
      match table !! i with
      | None => Raise IndexError
      | Some row =>
          match embedding_rows table rest with
          | Ok rows => Ok (row ++ rows)
          | Raise e => Raise e
          end
      end
  end.

Definition embedding_lookup (table : list (list R)) (d : nat) (t : tensor nat)
    : result (tensor R) :=
  match embedding_rows table (data t) with
  | Ok rows => Ok (Tensor (shape t ++ [d]) rows)
  | Raise e => Raise e
  end.

(** The codebook width of a quantizer. *)
Definition embedding_dim (m : module) : option nat :=
  match m with
  | VectorQuantizer _ dim _ _ _ | EMAVectorQuantizer _ dim _ _ _
  | GumbelQuantizer _ dim _ _ | GumbelQuantize _ dim _ _ _ => Some dim
  | _ => None
  end.

(** What [torch.optim.Adam] is given as its parameters: the bound method
    [self.parameters] itself, or the iterable a call of it returns. *)
Inductive params_arg : Type :=
  | BoundMethod (name : string)
  | ParamList (ps : list (string * tensor R)).

Record optimizer : Type := Adam_ {
  opt_params : list (string * tensor R);
  opt_lr : R;
  opt_betas : R * R
}.

(** [torch.optim.Adam(params, lr, betas)]: [Optimizer.__init__] runs
    [list(params)], which raises [TypeError] on a method object, and
    refuses an empty list. *)
Definition Adam (params : params_arg) (lr : R) (betas : R * R) : result optimizer :=
  match params with
  | BoundMethod _ => Raise (TypeError "'method' object is not iterable")
  | ParamList [] => Raise (ValueError "optimizer got an empty parameter list")
  | ParamList ps => Ok (Adam_ ps lr betas)
  end.

(** ** What every [LightningModule] does *)

Section LightningModule.
Context `{Collaborators}.

(** [batch[0]]. *)
Definition first_of (batch : list (tensor R)) : M (tensor R) :=
  match batch with
  | x :: _ => mret x
  | [] => raise IndexError
  end.

(** [x, _ = batch]. *)
Definition unpack_pair (batch : list (tensor R)) : M (tensor R * tensor R) :=
  match batch with
  | [x; y] => mret (x, y)
  | _ => raise (ValueError "unpack")
  end.

(** [self.save_hyperparameters()]. *)
Definition save_hyperparameters (batch_size : Z) (learning_rate : R) : M unit :=
  setattr "hparams" (VHparams batch_size learning_rate).

(** [nn.Module.__init__]: no parameter is registered yet. *)
Definition Module_init : M unit := modify (set_state_dict (λ _, [])).

Definition prefixed (name : string) (ps : list (string * tensor R))
    : list (string * tensor R) :=
  (λ kp, (name +:+ "." +:+ kp.1, kp.2)) <$> ps.

Definition is_under (name key : string) : bool :=
  String.prefix (name +:+ ".") key.

(** The parameters of the sub-module [name] take the place of the ones it
    had; those of a new sub-module go last. *)
Fixpoint replace_block (name : string) (new sd : list (string * tensor R))
    : list (string * tensor R) :=
  match sd with
  | [] => new
  | kp :: rest =>
      if is_under name kp.1
      then new ++ filter (λ kp', is_under name kp'.1 = false) rest
      else kp :: replace_block name new rest
  end.

(** [self.name = m] for a module [m]: [nn.Module.__setattr__] registers
    it, and its parameters show in [named_parameters()] under [name.]. *)
Definition register_module (name : string) (m : module) : M unit :=
  modify (λ w, set_state_dict (replace_block name (prefixed name (initial_parameters m)))
                 (set_self (insert name (VModule m (module_attrs m))) w)).

(** [self.name.field = v]. *)
Definition setattr_of (name field : string) (v : value) : M unit :=
  o ← getattr name;
  match o with
  | VModule m live => setattr name (VModule m (<[field := v]> live))
  | _ => raise (AttributeError field)
  end.

(** [self.name(x)] for a network. *)
Definition call_net (name : string) (x : tensor R) : M (tensor R) :=
  o ← getattr name;
  match o with
  | VModule m live =>
      g ← gets grad_enabled;
      modify (add_call (Call name m g x));;
      mret (net_forward m x)
  | _ => raise (TypeError "not callable")
  end.

(** [self.quantize(h)]. *)
Definition call_quantize (h : tensor R) : M (tensor R * R * info) :=
  o ← getattr "quantize";
  match o with
  | VModule m live =>
      g ← gets grad_enabled;
      k ← gets (λ w, length (calls w));
      modify (add_call (Quantize m live g k h));;
      mret (quantizer_forward m live k h)
  | _ => raise (TypeError "not callable")
  end.

(** [self.log(name, value, ...)]. *)
Definition log (name : string) (v : R) : M unit := modify (add_logged name v).

(** [self.args.log_images] and the like. *)
Definition args_field {A} (f : Args → A) : M A :=
  v ← getattr "args"; a ← as_args v; mret (f a).

(** [self.hparams.learning_rate]. *)
Definition hparams_learning_rate : M R :=
  v ← getattr "hparams";
  match v with
  | VHparams _ lr => mret lr
  | _ => raise (AttributeError "learning_rate")
  end.

(** [self.name.parameters()], or [self.name.sub.parameters()] when [path]
    is [name.sub]: the parameters registered under [path]. *)
Definition module_parameters (name path : string) : M (list (string * tensor R)) :=
  o ← getattr name;
  match o with
  | VModule _ _ => gets (λ w, filter (λ kp, is_under path kp.1 = true) (state_dict w))
  | _ => raise (AttributeError "parameters")
  end.

(** The body of a function decorated with [@torch.no_grad()]. *)
Definition no_grad {A} (c : M A) : M A :=
  λ w, let (w', r) := c (set_grad_enabled false w) in
       (set_grad_enabled (grad_enabled w) w', r).

(** [object.__new__]: an instance without attributes. *)
Definition new_instance (w : world) : world :=
  set_state_dict (λ _, []) (set_self (λ _, ∅) w).

(** The two lines that open the training steps of [GumbelVQGAN] and
    [GumbelVQVAE]:
    [self.temperature = max(self.temperature *
     math.exp(-self.anneal_rate * self.global_step), self.temp_min)] and
    [self.quantize.temperature = self.temperature].  The product and the
    exponential are over the reals: the value is that of the expression
    without rounding, and [math.exp] is taken to return, as it does for an
    exponent up to 709 ([exp_returns] below). *)
Definition anneal_temperature : M unit :=
  temperature ← getattr "temperature" ≫= as_float;
  rate ← getattr "anneal_rate" ≫= as_float;
  step ← gets global_step;
  floor ← getattr "temp_min" ≫= as_float;
  setattr "temperature" (VFloat (Rmax (temperature * exp (- rate * IZR step)) floor));;
  t ← getattr "temperature";
  setattr_of "quantize" "temperature" t.

End LightningModule.

(** ** [class VQGAN(pl.LightningModule)] *)

(** What [decode] is given: a latent grid or a tensor of token indices. *)
Inductive decode_input : Type :=
  | Grid (z : tensor R)
  | Tokens (img_seq : tensor nat).

(** What a step returns: the loss, or the dictionary
    [{'loss': loss, 'x': x, 'xrec': xrec}]. *)
Inductive step_output : Type :=
  | Loss (loss : R)
  | Dict (loss : R) (x xrec : tensor R).

Definition returned_loss (o : step_output) : R :=
  match o with
  | Loss l => l
  | Dict l _ _ => l
  end.

Record scheduler : Type := ReduceLROnPlateau {
  sched_optimizer : optimizer;
  sched_factor : R;
  sched_patience : nat;
  sched_cooldown : nat;
  sched_min_lr : R;
  sched_monitor : string
}.

Module VQGAN.
Section VQGAN.
Context `{Collaborators}.

(** The loop at the end of [__init__]: [p] is the tensor in slot [i] of
    the parameters, initialised in place; an initialiser that refuses [p]
    ends the loop with the parameters before it initialised. *)
Fixpoint init_loop (i : nat) (named_parameters : list (string * tensor R)) : M unit :=
  match named_parameters with
  | [] => mret tt
  | (name, p) :: rest =>
      (if bool_decide (name ∈ ["weight"]) then
         p' ← lift (nn_init_orthogonal_ p);
         modify (set_state_dict (<[i := (name, p')]>))
       else if bool_decide (name ∈ ["bias"]) then
         p' ← lift (nn_init_kaiming_normal_ p);
         modify (set_state_dict (<[i := (name, p')]>))
       else mret tt);;
      init_loop (S i) rest
  end.

Definition init_weights : M unit :=
  named_parameters ← gets state_dict;
  init_loop 0 named_parameters.

Definition __init__ (args : Args) (batch_size : Z) (learning_rate : R)
    (ignore_keys : list string) : M unit :=
  Module_init;;
  save_hyperparameters batch_size learning_rate;;
  setattr "args" (VArgs args);;
  setattr "image_size" (VInt (resolution args));;
  setattr "num_tokens" (VInt (Z.of_nat (num_tokens args)));;
  a0 ← match attn_resolutions args with
       | a0 :: _ => mret a0
       | [] => raise IndexError
       end;
  f ← lift (py_truediv (resolution args) a0);
  lf ← lift (math_log f);
  l2 ← lift (math_log 2);
  setattr "num_layers" (VInt (py_int (lf / l2)));;
  register_module "encoder" (Encoder args);;
  register_module "decoder" (Decoder args);;
  register_module "loss"
    (VQLPIPSWithDiscriminator (disc_start args) (codebook_weight args)
       (disc_in_channels args) (disc_weight args));;
  register_module "quant_conv" (Conv2d (z_channels args) (codebook_dim args) 1);;
  register_module "quantize"
    (VectorQuantizer (num_tokens args) (codebook_dim args) (quant_beta args) None false);;
  register_module "post_quant_conv" (Conv2d (codebook_dim args) (z_channels args) 1);;
  init_weights.

Definition encode (x : tensor R) : M (tensor R * R * info) :=
  h ← call_net "encoder" x;
  h ← call_net "quant_conv" h;
  '(quant, emb_loss, info) ← call_quantize h;
  mret (quant, emb_loss, info).

(** [self.quantize.embedding(img_seq)]. *)
Definition quantize_embedding (img_seq : tensor nat) : M (tensor R) :=
  q ← getattr "quantize";
  match q with
  | VModule m _ =>
      match embedding_dim m with
      | Some d => lift (embedding_lookup (embedding_weight m) d img_seq)
      | None => raise (AttributeError "embedding")
      end
  | _ => raise (AttributeError "embedding")
  end.

(** [int(math.sqrt(n))] is the integer square root [Nat.sqrt n], which the
    float computation yields for every length a tensor can have. *)
Definition decode (input : decode_input) (feed_seq : bool) : M (tensor R) :=
  z ← (if feed_seq then
         match input with
         | Tokens img_seq =>
             image_embeds ← quantize_embedding img_seq;
             match shape image_embeds with
             | [b; n; d] =>
                 let h := Nat.sqrt n in
                 let w := h in
                 lift (rearrange_b_hw_d h w image_embeds)
             | _ => raise (ValueError "unpack")
             end
         | Grid _ =>
             raise (RuntimeError
                      "Expected tensor for argument #1 'indices' to have scalar type Long or Int")
         end
       else
         match input with
         | Grid z => mret z
         | Tokens _ => raise (RuntimeError "expected a floating point input")
         end);
  quant ← call_net "post_quant_conv" z;
  dec ← call_net "decoder" quant;
  mret dec.

Definition get_codebook_indices (img : tensor R) : M (tensor nat) :=
  no_grad (
    b ← match shape img with
        | b :: _ => mret b
        | [] => raise IndexError
        end;
    let img := tmap (λ v, 2 * v - 1)%R img in
    '(_, _, (_, _, indices)) ← encode img;
    l ← match shape indices with
        | l :: _ => mret l
        | [] => raise IndexError
        end;
    n ← (if decide (b = 0) then raise ZeroDivisionError else mret (l `div` b));
    indices ← lift (view2 indices b n);
    mret indices).

Definition forward (input : tensor R) : M (tensor R * R) :=
  '(quant, diff, _) ← encode input;
  dec ← decode (Grid quant) false;
  mret (dec, diff).

Definition get_last_layer : M (tensor R) :=
  d ← getattr "decoder";
  match d with
  | VModule (Decoder a) _ => mret (conv_out_weight a)
  | _ => raise (AttributeError "conv_out")
  end.

(** [self.loss(qloss, x, xrec, optimizer_idx, self.global_step,
    last_layer=self.get_last_layer(), split=split)]. *)
Definition call_loss (qloss : R) (x xrec : tensor R) (optimizer_idx : Z)
    (split : string) : M R :=
  l ← getattr "loss";
  step ← gets global_step;
  last_layer ← get_last_layer;
  match l with
  | VModule m _ =>
      modify (add_call (LossCall m optimizer_idx step split qloss x xrec));;
      mret (loss_forward m qloss x xrec optimizer_idx step last_layer split)
  | _ => raise (TypeError "not callable")
  end.

(** The two [if optimizer_idx == ...] blocks and the [return] that the
    training steps of [VQGAN] and [GumbelVQGAN] share word for word;
    [loss] is unbound when neither block ran. *)
Definition phase_losses (x xrec : tensor R) (qloss : R) (optimizer_idx : Z)
    : M step_output :=
  loss ← (if decide (optimizer_idx = 0%Z) then
            aeloss ← call_loss qloss x xrec optimizer_idx "train";
            let loss := (aeloss + qloss)%R in
            log "train/rec_loss" aeloss;;
            log "train/embed_loss" qloss;;
            log "train/total_loss" loss;;
            mret (Some loss)
          else mret None);
  loss ← (if decide (optimizer_idx = 1%Z) then
            discloss ← call_loss qloss x xrec optimizer_idx "train";
            log "train/disc_loss" discloss;;
            mret (Some discloss)
          else mret loss);
  images ← args_field log_images;
  match loss with
  | Some loss => if (images : bool) then mret (Dict loss x xrec) else mret (Loss loss)
  | None => raise (UnboundLocalError "loss")
  end.

Definition training_step (batch : list (tensor R)) (batch_idx : nat)
    (optimizer_idx : Z) : M step_output :=
  x ← first_of batch;
  '(xrec, qloss) ← forward x;
  phase_losses x xrec qloss optimizer_idx.

(** The body of [validation_step] after its forward pass, the same in
    [VQGAN] and [GumbelVQGAN]. *)
Definition validation_losses (x xrec : tensor R) (qloss : R) : M step_output :=
  aeloss ← call_loss qloss x xrec 0 "val";
  discloss ← call_loss qloss x xrec 1 "val";
  let loss := (aeloss + qloss)%R in
  log "val/rec_loss" aeloss;;
  log "val/disc_loss" discloss;;
  log "val/embed_loss" qloss;;
  log "val/total_loss" loss;;
  images ← args_field log_images;
  if (images : bool) then mret (Dict loss x xrec) else mret (Loss loss).

Definition validation_step (batch : list (tensor R)) (batch_idx : nat) : M step_output :=
  x ← first_of batch;
  '(xrec, qloss) ← forward x;
  validation_losses x xrec qloss.

Definition plateau (opt : optimizer) (monitor : string) : scheduler :=
  ReduceLROnPlateau opt (5 / 10) 10 10 (1 / 1000000) monitor.

Definition configure_optimizers : M (list optimizer * list scheduler) :=
  lr ← hparams_learning_rate;
  enc ← module_parameters "encoder" "encoder";
  dec ← module_parameters "decoder" "decoder";
  qua ← module_parameters "quantize" "quantize";
  qc ← module_parameters "quant_conv" "quant_conv";
  pqc ← module_parameters "post_quant_conv" "post_quant_conv";
  opt_ae ← lift (Adam (ParamList (enc ++ dec ++ qua ++ qc ++ pqc)) lr (5 / 10, 9 / 10)%R);
  disc ← module_parameters "loss" "loss.discriminator";
  opt_disc ← lift (Adam (ParamList disc) lr (5 / 10, 9 / 10)%R);
  decay ← args_field lr_decay;
  if (decay : bool) then
    mret ([opt_ae; opt_disc],
          [plateau opt_ae "val/total_loss"; plateau opt_disc "val/disc_loss"])
  else mret ([opt_ae; opt_disc], []).

End VQGAN.
End VQGAN.

(** ** [class EMAVQGAN(VQGAN)] *)

Module EMAVQGAN.
Section EMAVQGAN.
Context `{Collaborators}.

Definition __init__ (args : Args) (batch_size : Z) (learning_rate : R)
    (ignore_keys : list string) : M unit :=
  VQGAN.__init__ args batch_size learning_rate ignore_keys;;
  register_module "quantize"
    (EMAVectorQuantizer (num_tokens args) (codebook_dim args) (quant_beta args)
       (quant_ema_decay args) (quant_ema_eps args)).

End EMAVQGAN.
End EMAVQGAN.

(** ** [class GumbelVQGAN(VQGAN)] *)

Module GumbelVQGAN.
Section GumbelVQGAN.
Context `{Collaborators}.

Definition __init__ (args : Args) (batch_size : Z) (learning_rate : R)
    (ignore_keys : list string) : M unit :=
  VQGAN.__init__ args batch_size learning_rate ignore_keys;;
  setattr "temperature" (VFloat (starting_temp args));;
  setattr "anneal_rate" (VFloat (anneal_rate args));;
  setattr "temp_min" (VFloat (temp_min args));;
  register_module "quant_conv" (Conv2d (z_channels args) (num_tokens args) 1);;
  register_module "quantize"
    (GumbelQuantizer (num_tokens args) (codebook_dim args) (kl_loss_weight args)
       (starting_temp args)).

Definition training_step (batch : list (tensor R)) (batch_idx : nat)
    (optimizer_idx : Z) : M step_output :=
  x ← first_of batch;
  anneal_temperature;;
  '(xrec, qloss) ← VQGAN.forward x;
  VQGAN.phase_losses x xrec qloss optimizer_idx.

Definition validation_step (batch : list (tensor R)) (batch_idx : nat) : M step_output :=
  x ← first_of batch;
  setattr_of "quantize" "temperature" (VFloat 1);;
  '(xrec, qloss) ← VQGAN.forward x;
  VQGAN.validation_losses x xrec qloss.

End GumbelVQGAN.
End GumbelVQGAN.

(** ** [class VQVAE(pl.LightningModule)] *)

Module VQVAE.
Section VQVAE.
Context `{Collaborators}.

Definition __init__ (args : Args) (batch_size : Z) (learning_rate : R)
    (ignore_keys : list string) (monitor : option string) (remap : option string)
    (same_index_shape : bool) (normalization : list R * list R) : M unit :=
  Module_init;;
  save_hyperparameters batch_size learning_rate;;
  setattr "args" (VArgs args);;
  register_module "encoder" (DiffusionEncoder args);;
  register_module "decoder" (DiffusionDecoder args);;
  setattr "normalization" (VPair normalization.1 normalization.2);;
  setattr "smooth_l1_loss" (VBool (smooth_l1_loss args));;
  register_module "quantize"
    (VectorQuantizer (n_embed args) (embed_dim args) (25 / 100) remap same_index_shape);;
  register_module "quant_conv" (Conv2d (z_channels args) (embed_dim args) 1);;
  register_module "post_quant_conv" (Conv2d (embed_dim args) (z_channels args) 1);;
  match monitor with
  | Some mon => setattr "monitor" (VStr mon)
  | None => mret tt
  end.

(** The default [normalization = ((0.5,) * 3, (0.5,) * 3)]. *)
Definition default_normalization : list R * list R :=
  (replicate 3 (5 / 10)%R, replicate 3 (5 / 10)%R).

Definition encode (x : tensor R) : M (tensor R * R * info) :=
  h ← call_net "encoder" x;
  h ← call_net "quant_conv" h;
  '(quant, emb_loss, info) ← call_quantize h;
  mret (quant, emb_loss, info).

Definition decode (quant : tensor R) : M (tensor R) :=
  quant ← call_net "post_quant_conv" quant;
  dec ← call_net "decoder" quant;
  mret dec.

(** Modelled from the spec: [embed_code] of the quantizer, which is not
    in the two files, as the codebook lookup by index of section 4.1. *)
Definition quantize_embed_code (code_b : tensor nat) : M (tensor R) :=
  q ← getattr "quantize";
  match q with
  | VModule m _ =>
      match embedding_dim m with
      | Some d => lift (embedding_lookup (embedding_weight m) d code_b)
      | None => raise (AttributeError "embed_code")
      end
  | _ => raise (AttributeError "embed_code")
  end.

Definition decode_code (code_b : tensor nat) : M (tensor R) :=
  quant_b ← quantize_embed_code code_b;
  dec ← decode quant_b;
  mret dec.

(** [obj.encode(img)] for a value [obj] held in an attribute: no value
    the two classes store has a method [encode]. *)
Definition value_encode (obj : value) (img : tensor R) : M (tensor R * R * info) :=
  raise (AttributeError "encode").

Definition get_codebook_indices (img : tensor R) : M (tensor nat) :=
  no_grad (
    b ← match shape img with
        | b :: _ => mret b
        | [] => raise IndexError
        end;
    let img := tmap (λ v, 2 * v - 1)%R img in
    model ← getattr "model";
    '(_, _, (_, _, indices)) ← value_encode model img;
    lift (rearrange_bn b indices)).

Definition forward (input : tensor R) : M (tensor R * R) :=
  '(quant, diff, _) ← encode input;
  dec ← decode quant;
  mret (dec, diff).

(** [F.smooth_l1_loss(x, xrec, self.global_step)] or [F.mse_loss(...)],
    after [self.smooth_l1_loss]. *)
Definition reconstruction_loss (x xrec : tensor R) : M R :=
  smooth ← getattr "smooth_l1_loss" ≫= as_bool;
  step ← gets global_step;
  if (smooth : bool) then mret (smooth_l1 x xrec step) else mret (mse_loss x xrec step).

Definition training_step (batch : list (tensor R)) (batch_idx : nat) : M R :=
  '(x, _) ← unpack_pair batch;
  '(xrec, qloss) ← forward x;
  aeloss ← reconstruction_loss x xrec;
  log "train/rec_loss" aeloss;;
  log "train/embed_loss" qloss;;
  mret (aeloss + qloss)%R.

Definition validation_step (batch : list (tensor R)) (batch_idx : nat) : M R :=
  '(x, _) ← unpack_pair batch;
  '(xrec, qloss) ← forward x;
  aeloss ← reconstruction_loss x xrec;
  log "val/rec_loss" aeloss;;
  log "val/embed_loss" qloss;;
  mret (aeloss + qloss)%R.

(** [torch.optim.lr_scheduler.ExponentialLR(optimizer = opt, gamma = g)]. *)
Definition ExponentialLR (opt : optimizer) (gamma : R) : optimizer * R := (opt, gamma).

Definition configure_optimizers : M (optimizer * (optimizer * R)) :=
  lr ← hparams_learning_rate;
  opt ← lift (Adam (BoundMethod "parameters") lr (5 / 10, 9 / 10)%R);
  gamma ← args_field lr_decay_rate;
  let sched := ExponentialLR opt gamma in
  mret (opt, sched).

End VQVAE.
End VQVAE.

(** ** [class GumbelVQVAE(VQVAE)] *)

Module GumbelVQVAE.
Section GumbelVQVAE.
Context `{Collaborators}.

Definition __init__ (args : Args) (batch_size : Z) (learning_rate : R)
    (ignore_keys : list string) (monitor : option string) (remap : option string)
    : M unit :=
  save_hyperparameters batch_size learning_rate;;
  setattr "args" (VArgs args);;
  VQVAE.__init__ args batch_size learning_rate ignore_keys monitor None false
    VQVAE.default_normalization;;
  setattr_of "loss" "n_classes" (VInt (Z.of_nat (n_embed args)));;
  setattr "vocab_size" (VInt (Z.of_nat (n_embed args)));;
  register_module "quantize"
    (GumbelQuantize (z_channels args) (embed_dim args) (n_embed args)
       (kl_loss_weight args) (starting_temp args)).

Definition encode_to_prequant (x : tensor R) : M (tensor R) :=
  h ← call_net "encoder" x;
  h ← call_net "quant_conv" h;
  mret h.

Definition decode_code (code_b : tensor nat) : M (tensor R) :=
  raise NotImplementedError.

Definition get_codebook_indices (img : tensor R) : M (tensor nat) :=
  no_grad (
    b ← match shape img with
        | b :: _ => mret b
        | [] => raise IndexError
        end;
    let img := tmap (λ v, 2 * v - 1)%R img in
    model ← getattr "model";
    '(_, _, (_, _, indices)) ← VQVAE.value_encode model img;
    lift (rearrange_b_h_w b indices)).

Definition training_step (batch : list (tensor R)) (batch_idx : nat)
    (optimizer_idx : Z) : M R :=
  '(x, _) ← unpack_pair batch;
  anneal_temperature;;
  '(xrec, qloss) ← VQVAE.forward x;
  aeloss ← VQVAE.reconstruction_loss x xrec;
  log "train/rec_loss" aeloss;;
  log "train/embed_loss" qloss;;
  mret (aeloss + qloss)%R.

Definition validation_step (batch : list (tensor R)) (batch_idx : nat) : M R :=
  '(x, _) ← unpack_pair batch;
  '(xrec, qloss) ← VQVAE.forward x;
  setattr_of "quantize" "temperature" (VFloat 1);;
  aeloss ← VQVAE.reconstruction_loss x xrec;
  log "val/rec_loss" aeloss;;
  log "val/embed_loss" qloss;;
  mret (aeloss + qloss)%R.

End GumbelVQVAE.
End GumbelVQVAE.

(** ** [log_images] of [GumbelVQVAE] *)

(** The dictionary [log_images] returns, with its keys [inputs] and
    [reconstructions]. *)
Record images : Type := Images {
  inputs : tensor R;
  reconstructions : tensor R
}.

Module GumbelVQVAE_logging.
Section GumbelVQVAE_logging.
Context `{Collaborators}.

(** [x.to(self.device)] keeps the values of [x]. *)
Definition log_images (batch : list (tensor R)) : M images :=
  '(x, _) ← unpack_pair batch;
  h ← call_net "encoder" x;
  h ← call_net "quant_conv" h;
  '(quant, _, _) ← call_quantize h;
  x_rec ← VQVAE.decode quant;
  mret (Images x x_rec).

End GumbelVQVAE_logging.
End GumbelVQVAE_logging.

(** ** [log_images] of [VQVAE] *)

(** How a call of [VQVAE.log_images] ends: besides the exceptions of the
    other methods it can fail its [assert]. *)
Inductive outcome (A : Type) : Type :=
  | Returned (a : A)
  | Raised (e : exn)
  | AssertionError.
Arguments Returned {A} _.
Arguments Raised {A} _.
Arguments AssertionError {A}.

Definition finish {A} (c : M A) : world → world * outcome A :=
  λ w, match c w with
       | (w', Ok a) => (w', Returned a)
       | (w', Raise e) => (w', Raised e)
       end.

(** [t.shape[1]]. *)
Definition channels (t : tensor R) : result nat :=
  match shape t with
  | _ :: c :: _ => Ok c
  | _ => Raise IndexError
  end.

Module VQVAE_logging.
Section VQVAE_logging.
Context `{Collaborators}.

(** [x.to(self.device)] keeps the values of [x]; [self.to_rgb(x)] is the
    call of whatever the attribute [to_rgb] holds. *)
Definition log_images (batch : list (tensor R)) : world → world * outcome images :=
  λ w,
    match ('(x, _) ← unpack_pair batch;
           '(xrec, _) ← VQVAE.forward x;
           c ← lift (channels x);
           mret (x, xrec, c)) w with
    | (w', Raise e) => (w', Raised e)
    | (w', Ok (x, xrec, c)) =>
        if decide (3 < c)%nat then
          match channels xrec with
          | Raise e => (w', Raised e)
          | Ok c' =>
              if decide (3 < c')%nat then
                finish (x ← call_net "to_rgb" x;
                        xrec ← call_net "to_rgb" xrec;
                        mret (Images x xrec)) w'
              else (w', AssertionError)
          end
        else (w', Returned (Images x xrec))
    end.

End VQVAE_logging.
End VQVAE_logging.

(** ** Vocabulary of the properties *)

(** A method that leaves the attributes of the instance and the step
    counter as they are. *)
Definition keeps_self {A} (c : M A) : Prop :=
  ∀ w, self (c w).1 = self w ∧ global_step (c w).1 = global_step w.

(** Attribute [name] of the instance holds the module [m]. *)
Definition module_at (w : world) (name : string) (m : module) : Prop :=
  ∃ live, self w !! name = Some (VModule m live).

(** The five networks a forward pass goes through. *)
Record nets : Type := Nets {
  the_encoder : module;
  the_quant_conv : module;
  the_quantize : module;
  the_post_quant_conv : module;
  the_decoder : module
}.

Record has_nets (N : nets) (w : world) : Prop := {
  at_encoder : module_at w "encoder" (the_encoder N);
  at_quant_conv : module_at w "quant_conv" (the_quant_conv N);
  at_quantize : module_at w "quantize" (the_quantize N);
  at_post_quant_conv : module_at w "post_quant_conv" (the_post_quant_conv N);
  at_decoder : module_at w "decoder" (the_decoder N)
}.

(** What [self.loss(...)] and the [return] of a [VQGAN] step read: the
    loss module, the decoder whose last layer is weighed, and [args]. *)
Record has_loss (loss_module : module) (decoder_args args : Args) (w : world) : Prop := {
  at_loss : module_at w "loss" loss_module;
  at_loss_decoder : module_at w "decoder" (Decoder decoder_args);
  at_args : self w !! "args" = Some (VArgs args)
}.

(** The instance attributes of [self.quantize], and its live temperature. *)
Definition quantizer_live (w : world) : gmap string value :=
  match self w !! "quantize" with
  | Some (VModule _ live) => live
  | _ => ∅
  end.

Definition quantizer_temperature (w : world) : option value :=
  quantizer_live w !! "temperature".

Section Vocabulary.
Context `{Collaborators}.

(** The reconstruction and the quantization loss of one forward pass through
    [N], the quantizer having attributes [live] and noise state [k]. *)
Definition forward_value (N : nets) (live : gmap string value) (k : nat)
    (x : tensor R) : tensor R * R :=
  let h := net_forward (the_quant_conv N) (net_forward (the_encoder N) x) in
  let '(quant, diff, _) := quantizer_forward (the_quantize N) live k h in
  (net_forward (the_decoder N) (net_forward (the_post_quant_conv N) quant), diff).

(** The calls one forward pass makes, in order. *)
Definition forward_calls (N : nets) (live : gmap string value) (g : bool) (k : nat)
    (x : tensor R) : list event :=
  let h1 := net_forward (the_encoder N) x in
  let h2 := net_forward (the_quant_conv N) h1 in
  let quant := (quantizer_forward (the_quantize N) live k h2).1.1 in
  [ Call "encoder" (the_encoder N) g x;
    Call "quant_conv" (the_quant_conv N) g h1;
    Quantize (the_quantize N) live g k h2;
    Call "post_quant_conv" (the_post_quant_conv N) g quant;
    Call "decoder" (the_decoder N) g (net_forward (the_post_quant_conv N) quant) ].

(** The initialisation policy by name: what becomes of a named parameter,
    or the exception of the initialiser that refuses it. *)
Definition init_policy (np : string * tensor R) : result (string * tensor R) :=
  if decide (np.1 = "weight") then
    match nn_init_orthogonal_ np.2 with
    | Ok p => Ok (np.1, p)
    | Raise e => Raise e
    end
  else if decide (np.1 = "bias") then
    match nn_init_kaiming_normal_ np.2 with
    | Ok p => Ok (np.1, p)
    | Raise e => Raise e
    end
  else Ok np.

(** The policy over a list of parameters, first to last, up to the first
    one refused. *)
Fixpoint init_each (nps : list (string * tensor R)) : result (list (string * tensor R)) :=
  match nps with
  | [] => Ok []
  | np :: rest =>
      match init_policy np with
      | Raise e => Raise e
      | Ok np' =>
          match init_each rest with
          | Ok rest' => Ok (np' :: rest')
          | Raise e => Raise e
          end
      end
  end.

End Vocabulary.

(** The world with more calls made, or more values logged. *)
Definition add_calls (es : list event) (w : world) : world :=
  World (self w) (state_dict w) (global_step w) (grad_enabled w) (calls w ++ es) (logged w).
Definition add_logs (ls : list (string * R)) (w : world) : world :=
  World (self w) (state_dict w) (global_step w) (grad_enabled w) (calls w) (logged w ++ ls).

(** What a step of [VQGAN] returns for a loss: the dictionary when
    [args.log_images] is set, the loss alone otherwise. *)
Definition step_return (images : bool) (loss : R) (x xrec : tensor R) : step_output :=
  if images then Dict loss x xrec else Loss loss.

(** The calls made from world [w] to world [w']. *)
Definition calls_since (w w' : world) : list event :=
  drop (length (calls w)) (calls w').

(** A forward pass starts with the call of the encoder. *)
Definition is_forward_pass (e : event) : bool :=
  match e with
  | Call attr _ _ _ => bool_decide (attr = "encoder")
  | _ => false
  end.

Definition forward_passes (es : list event) : nat :=
  length (filter (λ e, is_forward_pass e = true) es).

(** The temperature each quantizer call ran at. *)
Definition quantize_temperatures (es : list event) : list (option value) :=
  es ≫= λ e, match e with
             | Quantize _ live _ _ _ => [live !! "temperature"]
             | _ => []
             end.

(** The reconstruction and quantization loss each loss call was given. *)
Definition loss_inputs (es : list event) : list (Z * tensor R * R) :=
  es ≫= λ e, match e with
             | LossCall _ idx _ _ qloss _ xrec => [(idx, xrec, qloss)]
             | _ => []
             end.

(** Modelled from the spec: the training-loop driver, which is Lightning's
    and not in the two files; section 4.4 has it run the two phases of a
    batch, optimizer index 0 and then 1, on the same batch.  The result is
    the world after both calls. *)
Definition train_batch (step : list (tensor R) → nat → Z → M step_output)
    (batch : list (tensor R)) (batch_idx : nat) (w : world) : world :=
  (step batch batch_idx 1%Z (step batch batch_idx 0%Z w).1).1.

(** The forward pass is run once for the two phases of the batch. *)
Definition forward_once_per_batch (step : list (tensor R) → nat → Z → M step_output)
    (batch : list (tensor R)) (batch_idx : nat) (w : world) : Prop :=
  forward_passes (calls_since w (train_batch step batch batch_idx w)) = 1.

Section EncodeValue.
Context `{Collaborators}.

(** What [encode] returns through the networks [N]. *)
Definition encode_value (N : nets) (live : gmap string value) (k : nat)
    (x : tensor R) : tensor R * R * info :=
  quantizer_forward (the_quantize N) live k
    (net_forward (the_quant_conv N) (net_forward (the_encoder N) x)).

(** The calls [encode] makes, in order. *)
Definition encode_calls (N : nets) (live : gmap string value) (g : bool) (k : nat)
    (x : tensor R) : list event :=
  [ Call "encoder" (the_encoder N) g x;
    Call "quant_conv" (the_quant_conv N) g (net_forward (the_encoder N) x);
    Quantize (the_quantize N) live g k
      (net_forward (the_quant_conv N) (net_forward (the_encoder N) x)) ].

End EncodeValue.

(** The rescaling of an image from [0, 1] to [-1, 1]. *)
Definition rescale (img : tensor R) : tensor R := tmap (λ v, 2 * v - 1)%R img.

(** The grid [decode] makes of token embeddings: [rows] holds, token after
    token, the [d] values of its codebook row; element [(bi, c, i, j)] of
    the grid is value [c] of the token at place [i * k + j] of image [bi]. *)
Definition token_grid (b d k : nat) (rows : list R) : tensor R :=
  Tensor [b; d; k; k]
    (bi ← seq 0 b; c ← seq 0 d; i ← seq 0 k; j ← seq 0 k;
     option_list (rows !! (((bi * k + i) * k + j) * d + c))).

(** [n] is a perfect square, as [decode] finds out. *)
Definition perfect_square (n : nat) : Prop := Nat.sqrt n * Nat.sqrt n = n.

(** A string without a dot, as ["weight"] and ["bias"] are. *)
Fixpoint dot_free (s : string) : Prop :=
  match s with
  | EmptyString => True
  | String c s' => c ≠ "."%char ∧ dot_free s'
  end.

(** The name of a parameter of a sub-module: [name.k]. *)
Definition dotted (key : string) : Prop := ∃ name k, key = name +:+ "." +:+ k.

(** The networks and the loss module the constructors install. *)
Definition VQGAN_nets (args : Args) : nets := {|
  the_encoder := Encoder args;
  the_quant_conv := Conv2d (z_channels args) (codebook_dim args) 1;
  the_quantize :=
    VectorQuantizer (num_tokens args) (codebook_dim args) (quant_beta args) None false;
  the_post_quant_conv := Conv2d (codebook_dim args) (z_channels args) 1;
  the_decoder := Decoder args
|}.

Definition GumbelVQGAN_quantizer (args : Args) : module :=
  GumbelQuantizer (num_tokens args) (codebook_dim args) (kl_loss_weight args)
    (starting_temp args).

Definition GumbelVQGAN_nets (args : Args) : nets := {|
  the_encoder := Encoder args;
  the_quant_conv := Conv2d (z_channels args) (num_tokens args) 1;
  the_quantize := GumbelVQGAN_quantizer args;
  the_post_quant_conv := Conv2d (codebook_dim args) (z_channels args) 1;
  the_decoder := Decoder args
|}.

Definition VQGAN_loss (args : Args) : module :=
  VQLPIPSWithDiscriminator (disc_start args) (codebook_weight args)
    (disc_in_channels args) (disc_weight args).

(** The annealing state of a Gumbel variant: the three floats of the
    instance and the quantizer with its instance attributes. *)
Record gumbel_state (temperature rate floor : R) (q : module)
    (live : gmap string value) (w : world) : Prop := {
  at_temperature : self w !! "temperature" = Some (VFloat temperature);
  at_anneal_rate : self w !! "anneal_rate" = Some (VFloat rate);
  at_temp_min : self w !! "temp_min" = Some (VFloat floor);
  at_gumbel_quantize : self w !! "quantize" = Some (VModule q live)
}.

(** The schedule of the specification, section 4.4: the temperature
    [t] decayed over [step] steps at [rate], not below [floor]. *)
Definition decayed (t rate : R) (step : Z) (floor : R) : R :=
  Rmax (t * exp (- rate * IZR step)) floor.

(** The attributes of the instance after the two annealing lines. *)
Definition annealed_attrs (t : R) (q : module) (live : gmap string value)
    (attrs : gmap string value) : gmap string value :=
  <[ "quantize" := VModule q (<[ "temperature" := VFloat t ]> live) ]>
    (<[ "temperature" := VFloat t ]> attrs).

(** The attributes after [self.quantize.temperature = t]. *)
Definition requantized (t : R) (q : module) (live : gmap string value)
    (attrs : gmap string value) : gmap string value :=
  <[ "quantize" := VModule q (<[ "temperature" := VFloat t ]> live) ]> attrs.

(** ** A small instance for the examples *)

Module Demo.

(** Collaborators that can be run: the networks return their input, the
    quantizer reports the state of its noise as its loss, the composite
    loss returns the optimizer index it was given. *)
Definition toy : Collaborators := {|
  net_forward := λ _ x, x;
  quantizer_forward := λ _ _ k h,
    (h, INR k, (None, None, Tensor [length (data h)] (replicate (length (data h)) 0)));
  module_attrs := λ m,
    match m with
    | GumbelQuantizer _ _ _ t | GumbelQuantize _ _ _ _ t => {[ "temperature" := VFloat t ]}
    | _ => ∅
    end;
  initial_parameters := λ _, [("weight", Tensor [1; 1] [0%R]); ("bias", Tensor [1] [0%R])];
  embedding_weight := λ m,
    match m with
    | VectorQuantizer n d _ _ _ => (λ i, replicate d (INR i)) <$> seq 0 n
    | _ => []
    end;
  loss_forward := λ _ _ _ _ idx _ _ _, IZR idx;
  conv_out_weight := λ _, Tensor [1; 1] [1%R];
  orthogonal_ := tmap (λ _, 1%R);
  kaiming_normal_ := tmap (λ _, 2%R);
  mse_loss := λ _ _ _, 0%R;
  smooth_l1 := λ _ _ _, 0%R
|}.

(** The schedule of section 8 of the specification: starting temperature
    1.0, anneal rate 1e-4, floor 0.1. *)
Definition args : Args := {|
  resolution := 256;
  attn_resolutions := [32%Z];
  num_tokens := 4;
  codebook_dim := 2;
  z_channels := 2;
  in_channels := 3;
  out_channels := 3;
  disc_in_channels := 3;
  disc_start := 0;
  codebook_weight := 1;
  disc_weight := 1;
  quant_beta := 25 / 100;
  quant_ema_decay := 99 / 100;
  quant_ema_eps := 1 / 100000;
  starting_temp := 1;
  anneal_rate := 1 / 10000;
  temp_min := 1 / 10;
  kl_loss_weight := 1 / 100000000;
  log_images := false;
  lr_decay := false;
  lr_decay_rate := 99 / 100;
  smooth_l1_loss := false;
  n_embed := 4;
  embed_dim := 2
|}.

Definition nets_of_VQGAN : nets := VQGAN_nets args.

Definition loss_module : module := VQGAN_loss args.

(** The attributes [VQGAN.__init__] leaves on an instance built from
    [args] with batch size 4 and learning rate 1e-4. *)
Definition attrs_of_VQGAN : gmap string value :=
  <[ "post_quant_conv" := VModule (Conv2d 2 2 1) ∅ ]>
  (<[ "quantize" := VModule (VectorQuantizer 4 2 (25 / 100) None false) ∅ ]>
  (<[ "quant_conv" := VModule (Conv2d 2 2 1) ∅ ]>
  (<[ "loss" := VModule loss_module ∅ ]>
  (<[ "decoder" := VModule (Decoder args) ∅ ]>
  (<[ "encoder" := VModule (Encoder args) ∅ ]>
  (<[ "num_layers" := VInt (py_int (ln (256 / 32) / ln 2)) ]>
  (<[ "num_tokens" := VInt 4 ]>
  (<[ "image_size" := VInt 256 ]>
  (<[ "args" := VArgs args ]>
  (<[ "hparams" := VHparams 4 (1 / 10000) ]> ∅)))))))))).

(** Its parameters: a weight and a bias for each of the six sub-modules. *)
Definition parameters_of_VQGAN : list (string * tensor R) :=
  name ← ["encoder"; "decoder"; "loss"; "quant_conv"; "quantize"; "post_quant_conv"];
  [(name +:+ ".weight", Tensor [1; 1] [0%R]); (name +:+ ".bias", Tensor [1] [0%R])].

(** A world before any instance is made. *)
Definition blank : world := World ∅ [] 0 true [] [].

Definition vqgan : world := World attrs_of_VQGAN parameters_of_VQGAN 0 true [] [].

Definition image : tensor R := Tensor [1; 1; 2; 2] [0; 1; 0; 1]%R.

End Demo.

Module DemoVAE.

Definition quantizer : module := GumbelQuantize 2 2 4 (1 / 100000000) 1.

Definition nets_of_GumbelVQVAE : nets := {|
  the_encoder := DiffusionEncoder Demo.args;
  the_quant_conv := Conv2d 2 2 1;
  the_quantize := quantizer;
  the_post_quant_conv := Conv2d 2 2 1;
  the_decoder := DiffusionDecoder Demo.args
|}.

(** The attributes of a [GumbelVQVAE] whose quantizer is at temperature
    0.5: the ones [VQVAE.__init__] assigns, [vocab_size] and the Gumbel
    quantizer. *)
Definition attrs_of_GumbelVQVAE : gmap string value :=
  <[ "quantize" := VModule quantizer {[ "temperature" := VFloat (1 / 2) ]} ]>
  (<[ "vocab_size" := VInt 4 ]>
  (<[ "post_quant_conv" := VModule (Conv2d 2 2 1) ∅ ]>
  (<[ "quant_conv" := VModule (Conv2d 2 2 1) ∅ ]>
  (<[ "smooth_l1_loss" := VBool false ]>
  (<[ "normalization" := VPair (replicate 3 (5 / 10)%R) (replicate 3 (5 / 10)%R) ]>
  (<[ "decoder" := VModule (DiffusionDecoder Demo.args) ∅ ]>
  (<[ "encoder" := VModule (DiffusionEncoder Demo.args) ∅ ]>
  (<[ "args" := VArgs Demo.args ]>
  (<[ "hparams" := VHparams 4 (1 / 10000) ]> ∅))))))))).

Definition gumbel_vqvae : world := World attrs_of_GumbelVQVAE [] 0 true [] [].

Definition label : tensor R := Tensor [1] [0%R].

End DemoVAE.

(** ** Vocabulary of the further properties *)

Section Registered.
Context `{Collaborators}.

(** The parameters of sub-modules as their constructors made them, under the
    names of the attributes that hold them. *)
Definition registered (ms : list (string * module)) : list (string * tensor R) :=
  nm ← ms; prefixed nm.1 (initial_parameters nm.2).

End Registered.

(** The sub-modules of a [VQGAN], in the order [__init__] assigns them. *)
Definition VQGAN_modules (args : Args) : list (string * module) :=
  [ ("encoder", Encoder args);
    ("decoder", Decoder args);
    ("loss", VQGAN_loss args);
    ("quant_conv", Conv2d (z_channels args) (codebook_dim args) 1);
    ("quantize",
     VectorQuantizer (num_tokens args) (codebook_dim args) (quant_beta args) None false);
    ("post_quant_conv", Conv2d (codebook_dim args) (z_channels args) 1) ].

(** Integers whose quotients are normal doubles: the true division of two
    of them does not overflow, and is 0.0 only for a numerator 0; each of
    them converts to a double.  Floats being modelled as reals, this is
    the range in which [py_truediv] and [math_log] decide as Python does. *)
Definition in_double_range (z : Z) : Prop := (Z.abs z < 2 ^ 511)%Z.

(** [math.exp x] returns: [exp 709] is below the largest double, and
    [math.exp] raises [OverflowError] from about 709.78 on. *)
Definition exp_returns (x : R) : Prop := (x <= 709)%R.

(** When [VQGAN.__init__] returns and when it raises. *)
Definition VQGAN_init_result (args : Args) : result unit :=
  match attn_resolutions args with
  | [] => Raise IndexError
  | a0 :: _ =>
      if decide (a0 = 0%Z) then Raise ZeroDivisionError
      else if Rlt_dec 0 (IZR (resolution args) / IZR a0) then Ok tt
      else Raise (ValueError "math domain error")
  end.

(** The networks [EMAVQGAN.__init__] leaves. *)
Definition EMAVQGAN_nets (args : Args) : nets := {|
  the_encoder := Encoder args;
  the_quant_conv := Conv2d (z_channels args) (codebook_dim args) 1;
  the_quantize :=
    EMAVectorQuantizer (num_tokens args) (codebook_dim args) (quant_beta args)
      (quant_ema_decay args) (quant_ema_eps args);
  the_post_quant_conv := Conv2d (codebook_dim args) (z_channels args) 1;
  the_decoder := Decoder args
|}.

(** The gradient mode a network or the quantizer was called in. *)
Definition event_grad (e : event) : option bool :=
  match e with
  | Call _ _ g _ | Quantize _ _ g _ _ => Some g
  | LossCall _ _ _ _ _ _ _ => None
  end.

(** A method that calls networks in the gradient mode it is entered in,
    does not change that mode and assigns no attribute. *)
Definition in_mode {A} (c : M A) : Prop :=
  ∀ w, ∃ es, calls (c w).1 = calls w ++ es
             ∧ Forall (λ e, event_grad e = Some (grad_enabled w)) es
             ∧ grad_enabled (c w).1 = grad_enabled w
             ∧ self (c w).1 = self w.

(** What [self.name.parameters()] yields: the parameters registered under
    [path]. *)
Definition parameters_under (path : string) (w : world) : list (string * tensor R) :=
  filter (λ kp, is_under path kp.1 = true) (state_dict w).

(** The parameters of the five networks of the autoencoder, in the order
    [configure_optimizers] lists them. *)
Definition autoencoder_parameters (w : world) : list (string * tensor R) :=
  parameters_under "encoder" w ++ parameters_under "decoder" w
  ++ parameters_under "quantize" w ++ parameters_under "quant_conv" w
  ++ parameters_under "post_quant_conv" w.

(** The networks [VQVAE.__init__] installs. *)
Definition VQVAE_nets (args : Args) (remap : option string) (same_index_shape : bool)
    : nets := {|
  the_encoder := DiffusionEncoder args;
  the_quant_conv := Conv2d (z_channels args) (embed_dim args) 1;
  the_quantize :=
    VectorQuantizer (n_embed args) (embed_dim args) (25 / 100) remap same_index_shape;
  the_post_quant_conv := Conv2d (embed_dim args) (z_channels args) 1;
  the_decoder := DiffusionDecoder args
|}.

Section ReconstructionValue.
Context `{Collaborators}.

(** The reconstruction loss of the [VQVAE] steps: the input first, the
    reconstruction second, the step counter third. *)
Definition reconstruction_value (smooth : bool) (x xrec : tensor R) (step : Z) : R :=
  if smooth then smooth_l1 x xrec step else mse_loss x xrec step.

End ReconstructionValue.

(** ** Further instances for the examples *)

Module DemoGumbel.

(** The attributes [GumbelVQGAN.__init__] leaves on an instance built from
    [Demo.args] with batch size 4 and learning rate 1e-4. *)
Definition attrs_of_GumbelVQGAN : gmap string value :=
  <[ "quantize" := VModule (GumbelVQGAN_quantizer Demo.args)
                     {[ "temperature" := VFloat 1 ]} ]>
  (<[ "quant_conv" := VModule (Conv2d 2 4 1) ∅ ]>
  (<[ "temp_min" := VFloat (1 / 10) ]>
  (<[ "anneal_rate" := VFloat (1 / 10000) ]>
  (<[ "temperature" := VFloat 1 ]> Demo.attrs_of_VQGAN)))).

Definition gumbel_vqgan : world :=
  World attrs_of_GumbelVQGAN Demo.parameters_of_VQGAN 0 true [] [].

End DemoGumbel.

Module DemoOptim.

(** The example [VQGAN] with a loss module that has a discriminator and a
    perceptual network with a parameter each. *)
Definition vqgan : world :=
  set_state_dict
    (λ sd, sd ++ [("loss.discriminator.main.0.weight", Tensor [1] [0%R]);
                  ("loss.perceptual_loss.lin0.weight", Tensor [1] [0%R])])
    Demo.vqgan.

End DemoOptim.

Module DemoVQVAE.

(** A [VQVAE] made from [Demo.args]. *)
Definition vqvae : world :=
  (VQVAE.__init__ (H := Demo.toy) Demo.args 4 (1 / 10000) [] None None false
     VQVAE.default_normalization (new_instance Demo.blank)).1.

End DemoVQVAE.

(** * Properties *)

(** ** Running a method *)

Section Running.
Context `{Collaborators}.

Lemma bind_ok {A B} (c : M A) (k : A → M B) w w' a :
  c w = (w', Ok a) → (c ≫= k) w = k a w'.
Proof. intros E. unfold mbind, M_bind, bind. by rewrite E. Qed.

Lemma bind_raise {A B} (c : M A) (k : A → M B) w w' e :
  c w = (w', Raise e) → (c ≫= k) w = (w', Raise e).
Proof. intros E. unfold mbind, M_bind, bind. by rewrite E. Qed.

Lemma getattr_some w name v :
  self w !! name = Some v → getattr name w = (w, Ok v).
Proof. intros E. unfold getattr. by rewrite E. Qed.

Lemma getattr_none w name :
  self w !! name = None → getattr name w = (w, Raise (AttributeError name)).
Proof. intros E. unfold getattr. by rewrite E. Qed.

Lemma keeps_self_ret {A} (a : A) : keeps_self (mret a).
Proof. done. Qed.

Lemma keeps_self_raise {A} e : keeps_self (@raise A e).
Proof. done. Qed.

Lemma keeps_self_lift {A} (r : result A) : keeps_self (lift r).
Proof. done. Qed.

Lemma keeps_self_gets {A} (f : world → A) : keeps_self (gets f).
Proof. done. Qed.

Lemma keeps_self_getattr name : keeps_self (getattr name).
Proof. intros w. unfold getattr. by destruct (self w !! name). Qed.

Lemma keeps_self_bind {A B} (c : M A) (k : A → M B) :
  keeps_self c → (∀ a, keeps_self (k a)) → keeps_self (c ≫= k).
Proof.
  intros Hc Hk w. unfold mbind, M_bind, bind.
  destruct (Hc w) as [Hc1 Hc2]. destruct (c w) as [w' [a|e]]; simpl in *.
  - destruct (Hk a w') as [-> ->]. done.
  - done.
Qed.

Lemma keeps_self_add_call e : keeps_self (modify (add_call e)).
Proof. done. Qed.

Lemma keeps_self_log name v : keeps_self (log name v).
Proof. done. Qed.

Lemma keeps_self_as_args v : keeps_self (as_args v).
Proof. by destruct v. Qed.

Lemma keeps_self_as_bool v : keeps_self (as_bool v).
Proof. by destruct v. Qed.

Lemma keeps_self_first_of batch : keeps_self (first_of batch).
Proof. by destruct batch. Qed.

Lemma keeps_self_unpack_pair batch : keeps_self (unpack_pair batch).
Proof. by destruct batch as [|? [|? [|? ?]]]. Qed.

Lemma keeps_self_call_net name x : keeps_self (call_net name x).
Proof.
  apply keeps_self_bind; [apply keeps_self_getattr|].
  intros [| | | | | | | |m live]; try apply keeps_self_raise.
  repeat (apply keeps_self_bind; intros); done.
Qed.

Lemma keeps_self_call_quantize h : keeps_self (call_quantize h).
Proof.
  apply keeps_self_bind; [apply keeps_self_getattr|].
  intros [| | | | | | | |m live]; try apply keeps_self_raise.
  repeat (apply keeps_self_bind; intros); done.
Qed.

Lemma keeps_self_args_field {A} (f : Args → A) : keeps_self (args_field f).
Proof.
  apply keeps_self_bind; [apply keeps_self_getattr|]. intros v.
  apply keeps_self_bind; [apply keeps_self_as_args|]. done.
Qed.

End Running.

Create HintDb frame.
#[global] Hint Resolve keeps_self_ret keeps_self_raise keeps_self_lift keeps_self_gets
  keeps_self_getattr keeps_self_add_call keeps_self_log keeps_self_as_args
  keeps_self_as_bool keeps_self_first_of keeps_self_unpack_pair keeps_self_call_net
  keeps_self_call_quantize keeps_self_args_field : frame.

(** Proves [keeps_self c] for a method built from the ones in [frame]. *)
Ltac frame :=
  repeat first
    [ solve [eauto with frame]
    | apply keeps_self_bind; [|intros]
    | progress (repeat case_match)
    | progress (repeat case_decide) ].

Section Frame.
Context `{Collaborators}.

Lemma keeps_self_VQGAN_encode x : keeps_self (VQGAN.encode x).
Proof. unfold VQGAN.encode. frame. Qed.

Lemma keeps_self_VQGAN_forward x : keeps_self (VQGAN.forward x).
Proof.
  unfold VQGAN.forward, VQGAN.decode.
  pose proof (keeps_self_VQGAN_encode). frame.
Qed.

Lemma keeps_self_call_loss qloss x xrec idx split :
  keeps_self (VQGAN.call_loss qloss x xrec idx split).
Proof. unfold VQGAN.call_loss, VQGAN.get_last_layer. frame. Qed.

Lemma keeps_self_phase_losses x xrec qloss idx :
  keeps_self (VQGAN.phase_losses x xrec qloss idx).
Proof.
  unfold VQGAN.phase_losses.
  pose proof keeps_self_call_loss. frame.
Qed.

Lemma keeps_self_validation_losses x xrec qloss :
  keeps_self (VQGAN.validation_losses x xrec qloss).
Proof.
  unfold VQGAN.validation_losses.
  pose proof keeps_self_call_loss. frame.
Qed.

(** A training step of [VQGAN] assigns no attribute. *)
Lemma keeps_self_VQGAN_training_step batch i idx :
  keeps_self (VQGAN.training_step batch i idx).
Proof.
  unfold VQGAN.training_step.
  pose proof keeps_self_VQGAN_forward. pose proof keeps_self_phase_losses. frame.
Qed.

Lemma keeps_self_VQVAE_forward x : keeps_self (VQVAE.forward x).
Proof. unfold VQVAE.forward, VQVAE.encode, VQVAE.decode. frame. Qed.

Lemma keeps_self_reconstruction_loss x xrec :
  keeps_self (VQVAE.reconstruction_loss x xrec).
Proof. unfold VQVAE.reconstruction_loss. frame. Qed.

End Frame.

#[global] Hint Resolve keeps_self_VQGAN_encode keeps_self_VQGAN_forward
  keeps_self_call_loss keeps_self_phase_losses keeps_self_validation_losses
  keeps_self_VQGAN_training_step keeps_self_VQVAE_forward
  keeps_self_reconstruction_loss : frame.

(** ** Worlds *)

Lemma add_calls_add_calls es1 es2 w :
  add_calls es2 (add_calls es1 w) = add_calls (es1 ++ es2) w.
Proof. unfold add_calls; simpl. by rewrite app_assoc. Qed.

Lemma self_add_calls es w : self (add_calls es w) = self w.
Proof. done. Qed.
Lemma grad_enabled_add_calls es w : grad_enabled (add_calls es w) = grad_enabled w.
Proof. done. Qed.
Lemma global_step_add_calls es w : global_step (add_calls es w) = global_step w.
Proof. done. Qed.
Lemma calls_add_calls es w : calls (add_calls es w) = calls w ++ es.
Proof. done. Qed.
Lemma logged_add_calls es w : logged (add_calls es w) = logged w.
Proof. done. Qed.
Lemma self_add_logs ls w : self (add_logs ls w) = self w.
Proof. done. Qed.
Lemma grad_enabled_add_logs ls w : grad_enabled (add_logs ls w) = grad_enabled w.
Proof. done. Qed.
Lemma global_step_add_logs ls w : global_step (add_logs ls w) = global_step w.
Proof. done. Qed.
Lemma calls_add_logs ls w : calls (add_logs ls w) = calls w.
Proof. done. Qed.
Lemma logged_add_logs ls w : logged (add_logs ls w) = logged w ++ ls.
Proof. done. Qed.
Lemma add_logs_add_logs l1 l2 w : add_logs l2 (add_logs l1 w) = add_logs (l1 ++ l2) w.
Proof. unfold add_logs; simpl. by rewrite app_assoc. Qed.
Lemma add_calls_add_logs es ls w : add_calls es (add_logs ls w) = add_logs ls (add_calls es w).
Proof. done. Qed.

Lemma add_logged_add_logs k v w : add_logged k v w = add_logs [(k, v)] w.
Proof. done. Qed.
Lemma add_call_add_calls e w : add_call e w = add_calls [e] w.
Proof. done. Qed.

Create Rewrite HintDb world.
#[global] Hint Rewrite add_logged_add_logs add_call_add_calls : world.
#[global] Hint Rewrite self_add_calls grad_enabled_add_calls global_step_add_calls calls_add_calls
  logged_add_calls self_add_logs grad_enabled_add_logs global_step_add_logs calls_add_logs
  logged_add_logs add_calls_add_calls add_logs_add_logs @length_app : world.

(** ** Runs of the methods on an instance with its networks *)

Section Runs.
Context `{Collaborators}.

Lemma has_nets_same_self N w w' : self w' = self w → has_nets N w → has_nets N w'.
Proof. intros E [? ? ? ? ?]. split; unfold module_at in *; by rewrite E. Qed.

Lemma call_net_run w name m x :
  module_at w name m →
  call_net name x w = (add_calls [Call name m (grad_enabled w) x] w, Ok (net_forward m x)).
Proof.
  intros [live E]. unfold call_net, mbind, M_bind, bind.
  rewrite (getattr_some _ _ _ E). reflexivity.
Qed.

Lemma call_quantize_run w m live h :
  self w !! "quantize" = Some (VModule m live) →
  call_quantize h w =
  (add_calls [Quantize m live (grad_enabled w) (length (calls w)) h] w,
   Ok (quantizer_forward m live (length (calls w)) h)).
Proof.
  intros E. unfold call_quantize, mbind, M_bind, bind.
  rewrite (getattr_some _ _ _ E). reflexivity.
Qed.

Lemma quantizer_live_at w m live :
  self w !! "quantize" = Some (VModule m live) → quantizer_live w = live.
Proof. intros E. unfold quantizer_live. by rewrite E. Qed.

Lemma call_net_at w w' name m x :
  module_at w name m → self w' = self w →
  call_net name x w' = (add_calls [Call name m (grad_enabled w') x] w', Ok (net_forward m x)).
Proof. intros [live E] Hs. apply call_net_run. exists live. by rewrite Hs. Qed.

Lemma VQGAN_forward_run N w x :
  has_nets N w →
  VQGAN.forward x w =
  (add_calls (forward_calls N (quantizer_live w) (grad_enabled w) (length (calls w) + 2) x) w,
   Ok (forward_value N (quantizer_live w) (length (calls w) + 2) x)).
Proof.
  intros [He Hqc [live Hq] Hpqc Hd].
  rewrite (quantizer_live_at _ _ _ Hq).
  unfold VQGAN.forward, VQGAN.encode, VQGAN.decode, mbind, M_bind, bind.
  erewrite (call_net_at _ _ _ _ _ He) by done. cbv beta iota.
  erewrite (call_net_at _ _ _ _ _ Hqc) by done. cbv beta iota.
  erewrite (call_quantize_run (add_calls _ (add_calls _ w)) _ live _ Hq). cbv beta iota.
  autorewrite with world. cbn [length app].
  replace (length (calls w) + (1 + 1)) with (length (calls w) + 2) by lia.
  unfold forward_value, forward_calls.
  destruct (quantizer_forward _ _ _ _) as [[quant diff] inf].
  cbn [mret M_ret ret fst].
  erewrite (call_net_at _ _ _ _ _ Hpqc) by done. cbv beta iota.
  erewrite (call_net_at _ _ _ _ _ Hd) by done. cbv beta iota.
  autorewrite with world. reflexivity.
Qed.

Lemma call_loss_at lm da cfg w w' qloss x xrec idx split :
  has_loss lm da cfg w → self w' = self w →
  VQGAN.call_loss qloss x xrec idx split w' =
  (add_calls [LossCall lm idx (global_step w') split qloss x xrec] w',
   Ok (loss_forward lm qloss x xrec idx (global_step w') (conv_out_weight da) split)).
Proof.
  intros [[l1 Hl] [l2 Hd] _] Hs. rewrite <- Hs in Hl, Hd.
  unfold VQGAN.call_loss, VQGAN.get_last_layer, mbind, M_bind, bind.
  rewrite (getattr_some _ _ _ Hl). cbn [gets].
  rewrite (getattr_some _ _ _ Hd). reflexivity.
Qed.

Lemma args_field_at {A} (f : Args → A) cfg w w' :
  self w !! "args" = Some (VArgs cfg) → self w' = self w →
  args_field f w' = (w', Ok (f cfg)).
Proof.
  intros Ha Hs. rewrite <- Hs in Ha.
  unfold args_field, mbind, M_bind, bind. by rewrite (getattr_some _ _ _ Ha).
Qed.

Lemma phase_losses_autoencoder lm da cfg w w' x xrec qloss :
  has_loss lm da cfg w → self w' = self w →
  let aeloss := loss_forward lm qloss x xrec 0 (global_step w') (conv_out_weight da) "train" in
  VQGAN.phase_losses x xrec qloss 0 w' =
  (add_logs [("train/rec_loss", aeloss); ("train/embed_loss", qloss);
             ("train/total_loss", (aeloss + qloss)%R)]
     (add_calls [LossCall lm 0 (global_step w') "train" qloss x xrec] w'),
   Ok (step_return (log_images cfg) (aeloss + qloss) x xrec)).
Proof.
  intros HL Hs aeloss.
  unfold VQGAN.phase_losses, mbind, M_bind, bind.
  rewrite decide_True by done.
  erewrite (call_loss_at _ _ _ _ _ _ _ _ _ _ HL) by done. cbv beta iota.
  cbn [log modify mret M_ret ret].
  rewrite decide_False by done. cbn [mret M_ret ret].
  erewrite (args_field_at _ _ _ _ (at_args _ _ _ _ HL)) by done.
  unfold step_return. fold aeloss. autorewrite with world.
  by destruct (log_images cfg).
Qed.

Lemma phase_losses_discriminator lm da cfg w w' x xrec qloss :
  has_loss lm da cfg w → self w' = self w →
  let discloss := loss_forward lm qloss x xrec 1 (global_step w') (conv_out_weight da) "train" in
  VQGAN.phase_losses x xrec qloss 1 w' =
  (add_logs [("train/disc_loss", discloss)]
     (add_calls [LossCall lm 1 (global_step w') "train" qloss x xrec] w'),
   Ok (step_return (log_images cfg) discloss x xrec)).
Proof.
  intros HL Hs discloss.
  unfold VQGAN.phase_losses, mbind, M_bind, bind.
  rewrite decide_False by done. cbn [mret M_ret ret].
  rewrite decide_True by done.
  erewrite (call_loss_at _ _ _ _ _ _ _ _ _ _ HL) by done. cbv beta iota.
  cbn [log modify mret M_ret ret].
  erewrite (args_field_at _ _ _ _ (at_args _ _ _ _ HL)) by done.
  unfold step_return. fold discloss. autorewrite with world.
  by destruct (log_images cfg).
Qed.
End Runs.

(** ** Training steps of [VQGAN] *)

Section Steps.
Context `{Collaborators}.

Lemma returned_loss_step_return images loss x xrec :
  returned_loss (step_return images loss x xrec) = loss.
Proof. by destruct images. Qed.

(** One training step of [VQGAN] in phase 0: a forward pass, then the
    composite loss in autoencoder mode. *)
Lemma VQGAN_training_step_autoencoder N lm da cfg w x rest i :
  has_nets N w → has_loss lm da cfg w →
  let k := length (calls w) + 2 in
  let xrec := (forward_value N (quantizer_live w) k x).1 in
  let qloss := (forward_value N (quantizer_live w) k x).2 in
  let aeloss := loss_forward lm qloss x xrec 0 (global_step w) (conv_out_weight da) "train" in
  VQGAN.training_step (x :: rest) i 0 w =
  (add_logs [("train/rec_loss", aeloss); ("train/embed_loss", qloss);
             ("train/total_loss", (aeloss + qloss)%R)]
     (add_calls (forward_calls N (quantizer_live w) (grad_enabled w) k x
                 ++ [LossCall lm 0 (global_step w) "train" qloss x xrec]) w),
   Ok (step_return (log_images cfg) (aeloss + qloss) x xrec)).
Proof.
  intros HN HL k xrec qloss aeloss.
  unfold VQGAN.training_step, mbind, M_bind, bind. cbn [first_of mret M_ret ret].
  rewrite (VQGAN_forward_run N w x HN). cbv beta iota. fold k.
  destruct (forward_value N (quantizer_live w) k x) as [xr ql] eqn:E.
  erewrite (phase_losses_autoencoder _ _ _ _ _ _ _ _ HL) by done.
  autorewrite with world. reflexivity.
Qed.

Lemma VQGAN_training_step_discriminator N lm da cfg w x rest i :
  has_nets N w → has_loss lm da cfg w →
  let k := length (calls w) + 2 in
  let xrec := (forward_value N (quantizer_live w) k x).1 in
  let qloss := (forward_value N (quantizer_live w) k x).2 in
  let discloss := loss_forward lm qloss x xrec 1 (global_step w) (conv_out_weight da) "train" in
  VQGAN.training_step (x :: rest) i 1 w =
  (add_logs [("train/disc_loss", discloss)]
     (add_calls (forward_calls N (quantizer_live w) (grad_enabled w) k x
                 ++ [LossCall lm 1 (global_step w) "train" qloss x xrec]) w),
   Ok (step_return (log_images cfg) discloss x xrec)).
Proof.
  intros HN HL k xrec qloss discloss.
  unfold VQGAN.training_step, mbind, M_bind, bind. cbn [first_of mret M_ret ret].
  rewrite (VQGAN_forward_run N w x HN). cbv beta iota. fold k.
  destruct (forward_value N (quantizer_live w) k x) as [xr ql] eqn:E.
  erewrite (phase_losses_discriminator _ _ _ _ _ _ _ _ HL) by done.
  autorewrite with world. reflexivity.
Qed.

(** C4.  On a [VQGAN] with its networks and its loss, a training step on a
    batch [x :: rest] returns, with optimizer index 0, the composite loss
    called with index 0 (autoencoder mode) plus the quantization loss of
    the forward pass, and with optimizer index 1 the composite loss called
    with index 1 (discriminator mode) alone.  [returned_loss] is the loss
    itself or the ['loss'] entry of the dictionary that is returned when
    [args.log_images] is set. *)
Theorem VQGAN_training_step_loss N lm da cfg w x rest i :
  has_nets N w → has_loss lm da cfg w →
  let forwarded := forward_value N (quantizer_live w) (length (calls w) + 2) x in
  let xrec := forwarded.1 in
  let qloss := forwarded.2 in
  let composite idx :=
    loss_forward lm qloss x xrec idx (global_step w) (conv_out_weight da) "train" in
  (∃ o, (VQGAN.training_step (x :: rest) i 0 w).2 = Ok o
        ∧ returned_loss o = (composite 0%Z + qloss)%R)
  ∧ (∃ o, (VQGAN.training_step (x :: rest) i 1 w).2 = Ok o
          ∧ returned_loss o = composite 1%Z).
Proof.
  intros HN HL forwarded xrec qloss composite. split.
  - rewrite (VQGAN_training_step_autoencoder N lm da cfg w x rest i HN HL).
    eexists. split; [reflexivity|]. apply returned_loss_step_return.
  - rewrite (VQGAN_training_step_discriminator N lm da cfg w x rest i HN HL).
    eexists. split; [reflexivity|]. apply returned_loss_step_return.
Qed.
End Steps.

(** The example instance has its networks and its loss; its quantization
    loss is 2 (the state of the noise), its composite losses 0 and 1. *)
Lemma VQGAN_training_step_loss_witness :
  has_nets Demo.nets_of_VQGAN Demo.vqgan
  ∧ has_loss Demo.loss_module Demo.args Demo.args Demo.vqgan
  ∧ (∃ o, (VQGAN.training_step (H := Demo.toy) [Demo.image] 0 0 Demo.vqgan).2 = Ok o
          ∧ returned_loss o = (0 + INR 2)%R)
  ∧ (∃ o, (VQGAN.training_step (H := Demo.toy) [Demo.image] 0 1 Demo.vqgan).2 = Ok o
          ∧ returned_loss o = 1%R).
Proof.
  assert (HN : has_nets Demo.nets_of_VQGAN Demo.vqgan)
    by (split; eexists; reflexivity).
  assert (HL : has_loss Demo.loss_module Demo.args Demo.args Demo.vqgan)
    by (split; try eexists; reflexivity).
  split; [exact HN|]. split; [exact HL|].
  exact (VQGAN_training_step_loss (H := Demo.toy) Demo.nets_of_VQGAN Demo.loss_module
           Demo.args Demo.args Demo.vqgan Demo.image [] 0 HN HL).
Defined.

(** ** Initialisation of the parameters *)

Section InitPolicy.
Context `{Collaborators}.

Lemma name_in_singleton (name s : string) :
  bool_decide (name ∈ [s]) = bool_decide (name = s).
Proof. apply bool_decide_ext. set_solver. Qed.

Lemma set_state_dict_twice f g w :
  set_state_dict g (set_state_dict f w) = set_state_dict (g ∘ f) w.
Proof. done. Qed.

Lemma init_loop_run todo : ∀ done w todo',
  state_dict w = done ++ todo → init_each todo = Ok todo' →
  VQGAN.init_loop (length done) todo w =
  (set_state_dict (λ _, done ++ todo') w, Ok tt).
Proof.
  induction todo as [|[name p] rest IH]; intros dn w todo' Hsd Hall.
  - injection Hall as <-. simpl. rewrite app_nil_r in *. destruct w; simpl in *; by subst.
  - cbn [init_each] in Hall.
    destruct (init_policy (name, p)) as [np'|e] eqn:Ep; [|done].
    destruct (init_each rest) as [rest'|e] eqn:Er; [|done].
    injection Hall as <-.
    cbn [VQGAN.init_loop]. unfold mbind, M_bind, bind.
    rewrite !name_in_singleton.
    assert (Hin : ∀ x, <[length dn := x]> (state_dict w) = (dn ++ [x]) ++ rest).
    { intros x. rewrite Hsd, insert_app_r_alt, Nat.sub_diag by lia.
      by rewrite <- app_assoc. }
    assert (Hlen : ∀ x : string * tensor R, S (length dn) = length (dn ++ [x])).
    { intros x. rewrite length_app. simpl. lia. }
    unfold init_policy in Ep. cbn [fst snd] in Ep.
    destruct (decide (name = "weight")) as [Hw|Hw].
    + rewrite bool_decide_eq_true_2 by done.
      destruct (nn_init_orthogonal_ p) as [q|e]; [|done]. injection Ep as <-.
      cbn [lift modify].
      rewrite (Hlen (name, q)).
      rewrite (IH _ (set_state_dict _ w) rest' (Hin _) eq_refl). rewrite set_state_dict_twice.
      by rewrite <- app_assoc.
    + rewrite bool_decide_eq_false_2 by done.
      destruct (decide (name = "bias")) as [Hb|Hb].
      * rewrite bool_decide_eq_true_2 by done.
        destruct (nn_init_kaiming_normal_ p) as [q|e]; [|done]. injection Ep as <-.
        cbn [lift modify].
        rewrite (Hlen (name, q)).
        rewrite (IH _ (set_state_dict _ w) rest' (Hin _) eq_refl). rewrite set_state_dict_twice.
        by rewrite <- app_assoc.
      * rewrite bool_decide_eq_false_2 by done. cbn [mret M_ret ret].
        injection Ep as <-.
        rewrite (Hlen (name, p)).
        rewrite (IH (dn ++ [(name, p)]) w rest') by (done || by rewrite Hsd, <- app_assoc).
        by rewrite <- app_assoc.
Qed.

Lemma init_loop_raises todo : ∀ done w e,
  state_dict w = done ++ todo → init_each todo = Raise e →
  (VQGAN.init_loop (length done) todo w).2 = Raise e.
Proof.
  induction todo as [|[name p] rest IH]; intros dn w e Hsd Hall; [done|].
  cbn [init_each] in Hall.
  cbn [VQGAN.init_loop]. unfold mbind, M_bind, bind.
  rewrite !name_in_singleton.
  assert (Hin : ∀ x, <[length dn := x]> (state_dict w) = (dn ++ [x]) ++ rest).
  { intros x. rewrite Hsd, insert_app_r_alt, Nat.sub_diag by lia.
    by rewrite <- app_assoc. }
  assert (Hlen : ∀ x : string * tensor R, S (length dn) = length (dn ++ [x])).
  { intros x. rewrite length_app. simpl. lia. }
  unfold init_policy in Hall. cbn [fst snd] in Hall.
  destruct (decide (name = "weight")) as [Hw|Hw].
  - rewrite bool_decide_eq_true_2 by done.
    destruct (nn_init_orthogonal_ p) as [q|e']; cbn [lift modify]; [|simpl; congruence].
    destruct (init_each rest) as [rest'|e'] eqn:Er; [done|]. injection Hall as ->.
    rewrite (Hlen (name, q)).
    exact (IH _ (set_state_dict _ w) e (Hin _) eq_refl).
  - rewrite bool_decide_eq_false_2 by done.
    destruct (decide (name = "bias")) as [Hb|Hb].
    + rewrite bool_decide_eq_true_2 by done.
      destruct (nn_init_kaiming_normal_ p) as [q|e']; cbn [lift modify]; [|simpl; congruence].
      destruct (init_each rest) as [rest'|e'] eqn:Er; [done|]. injection Hall as ->.
      rewrite (Hlen (name, q)).
      exact (IH _ (set_state_dict _ w) e (Hin _) eq_refl).
    + rewrite bool_decide_eq_false_2 by done. cbn [mret M_ret ret].
      destruct (init_each rest) as [rest'|e'] eqn:Er; [done|]. injection Hall as ->.
      rewrite (Hlen (name, p)).
      apply (IH (dn ++ [(name, p)]) w e); [by rewrite Hsd, <- app_assoc|done].
Qed.

(** The whole loop: every named parameter goes through [init_policy], up
    to the first one an initialiser refuses. *)
Lemma init_weights_run w sd' :
  init_each (state_dict w) = Ok sd' →
  VQGAN.init_weights w = (set_state_dict (λ _, sd') w, Ok tt).
Proof.
  intros Hall. unfold VQGAN.init_weights, mbind, M_bind, bind. cbn [gets].
  pose proof (init_loop_run (state_dict w) [] w sd' eq_refl Hall) as E.
  cbn [length] in E. rewrite E. reflexivity.
Qed.

Lemma init_weights_raises w e :
  init_each (state_dict w) = Raise e → (VQGAN.init_weights w).2 = Raise e.
Proof.
  intros Hall. unfold VQGAN.init_weights, mbind, M_bind, bind. cbn [gets].
  exact (init_loop_raises (state_dict w) [] w e eq_refl Hall).
Qed.
End InitPolicy.

(** A module that owns a weight and a bias of two axes, and a sub-module:
    the two bare names are initialised, the dotted one is not. *)
Example init_weights_three_names :
  let t := Tensor [2; 2] [0; 0; 0; 0]%R in
  let w := World ∅ [("weight", t); ("bias", t); ("encoder.conv_in.weight", t)] 0 true [] [] in
  VQGAN.init_weights (H := Demo.toy) w
  = (set_state_dict
       (λ _, [("weight", Tensor [2; 2] [1; 1; 1; 1]%R);
              ("bias", Tensor [2; 2] [2; 2; 2; 2]%R);
              ("encoder.conv_in.weight", t)]) w,
     Ok tt).
Proof. intros t w. by apply (init_weights_run (H := Demo.toy)). Qed.

(** A bias of one axis, as the bias of a layer is: its initialiser refuses
    it, after the weight before it has been initialised. *)
Example init_weights_bias_of_one_axis :
  let w := World ∅ [("weight", Tensor [2; 2] [0; 0; 0; 0]%R); ("bias", Tensor [2] [0; 0]%R)]
             0 true [] [] in
  (VQGAN.init_weights (H := Demo.toy) w).2
  = Raise (ValueError
             "Fan in and fan out can not be computed for tensor with fewer than 2 dimensions").
Proof. intros w. by apply (init_weights_raises (H := Demo.toy)). Qed.

(** ** Names of the parameters of a module with sub-modules *)

Lemma dotted_not_dot_free name k : ∀ s, dot_free s → name +:+ "." +:+ k ≠ s.
Proof.
  induction name as [|a name IH]; intros [|c s] Hs E; simpl in *; try done.
  - injection E as <- _. by destruct Hs.
  - injection E as _ E. destruct Hs as [_ Hs]. by apply (IH s).
Qed.

Section UntouchedParameters.
Context `{Collaborators}.

Lemma dotted_not_bare key : dotted key → key ≠ "weight" ∧ key ≠ "bias".
Proof.
  intros (name & k & ->). split; apply dotted_not_dot_free; repeat split; done.
Qed.

Lemma init_policy_dotted np : dotted np.1 → init_policy np = Ok np.
Proof.
  intros [Hw Hb]%dotted_not_bare. unfold init_policy.
  by rewrite !decide_False by done.
Qed.

Lemma init_policy_all_dotted sd :
  Forall (λ np, dotted np.1) sd → init_each sd = Ok sd.
Proof.
  induction 1 as [|np sd Hnp _ IH]; [done|].
  cbn [init_each]. by rewrite init_policy_dotted, IH by done.
Qed.

Lemma prefixed_dotted name ps : Forall (λ np, dotted np.1) (prefixed name ps).
Proof.
  unfold prefixed. apply Forall_fmap, Forall_forall. intros [k p] _. by exists name, k.
Qed.

Lemma replace_block_dotted name ps sd :
  Forall (λ np, dotted np.1) sd →
  Forall (λ np, dotted np.1) (replace_block name (prefixed name ps) sd).
Proof.
  induction 1 as [|np sd Hnp Hsd IH]; cbn [replace_block].
  - apply prefixed_dotted.
  - destruct (is_under name np.1).
    + apply Forall_app. split; [apply prefixed_dotted|].
      apply Forall_forall. intros np' [_ Hin]%list_elem_of_filter.
      by apply (proj1 (Forall_forall _ _) Hsd).
    + by constructor.
Qed.

(** The parameters of a module that registers only sub-modules all have
    dotted names. *)
Lemma register_module_dotted name m w :
  Forall (λ np, dotted np.1) (state_dict w) →
  Forall (λ np, dotted np.1) (state_dict (register_module name m w).1).
Proof. intros Hsd. cbn. by apply replace_block_dotted. Qed.

(** In [VQGAN.__init__] the loop finds no parameter to initialise: every
    parameter belongs to a sub-module, so no name is exactly ["weight"] or
    ["bias"], and the state of the parameters is the one the sub-modules
    were created with. *)
Lemma VQGAN_init_loop_finds_nothing w :
  Forall (λ np, dotted np.1) (state_dict w) →
  VQGAN.init_weights w = (w, Ok tt).
Proof.
  intros Hsd. rewrite (init_weights_run w (state_dict w)).
  - by destruct w.
  - by apply init_policy_all_dotted.
Qed.
End UntouchedParameters.

(** ** Construction of the two [VQGAN] classes *)

(** The parameters registered so far all belong to sub-modules. *)
Ltac all_dotted :=
  cbn [state_dict set_state_dict set_self];
  repeat apply replace_block_dotted; constructor.

(** Looks an attribute up in a chain of assignments. *)
Ltac lookup_attr :=
  cbn [self set_self set_state_dict add_calls add_logs];
  rewrite ?lookup_insert_ne by done; apply lookup_insert_eq.

Section VQGANConstruction.
Context `{Collaborators}.

Lemma math_log_pos x : (0 < x)%R → math_log x = Ok (ln x).
Proof. intros Hx. unfold math_log. by destruct (Rlt_dec 0 x). Qed.

(** [VQGAN.__init__] returns when [args.attn_resolutions[0]] divides and
    the ratio has a logarithm; the instance then has its networks. *)
Lemma VQGAN_init_run args bs lr ik w a0 tl :
  attn_resolutions args = a0 :: tl → a0 ≠ 0%Z →
  (0 < IZR (resolution args) / IZR a0)%R →
  ∃ w', VQGAN.__init__ args bs lr ik w = (w', Ok tt)
    ∧ global_step w' = global_step w ∧ calls w' = calls w
    ∧ has_nets (VQGAN_nets args) w'
    ∧ has_loss (VQGAN_loss args) args args w'
    ∧ Forall (λ np, dotted np.1) (state_dict w').
Proof.
  intros Ha Ha0 Hf.
  unfold VQGAN.__init__, mbind, M_bind, bind.
  cbn [Module_init save_hyperparameters setattr modify].
  rewrite Ha. cbn [mret M_ret ret lift].
  unfold py_truediv. rewrite decide_False by done.
  rewrite (math_log_pos _ Hf), (math_log_pos 2) by lra.
  cbn [register_module modify].
  match goal with
  | |- context [VQGAN.init_weights ?w0] =>
      rewrite (VQGAN_init_loop_finds_nothing w0) by all_dotted
  end.
  eexists. split; [reflexivity|]. split; [reflexivity|]. split; [reflexivity|].
  split; [|split]; [split; try eexists; lookup_attr..|].
  all_dotted.
Qed.

Lemma GumbelVQGAN_init_run args bs lr ik w a0 tl :
  attn_resolutions args = a0 :: tl → a0 ≠ 0%Z →
  (0 < IZR (resolution args) / IZR a0)%R →
  ∃ w', GumbelVQGAN.__init__ args bs lr ik w = (w', Ok tt)
    ∧ global_step w' = global_step w ∧ calls w' = calls w
    ∧ has_nets (GumbelVQGAN_nets args) w'
    ∧ has_loss (VQGAN_loss args) args args w'
    ∧ gumbel_state (starting_temp args) (anneal_rate args) (temp_min args)
        (GumbelVQGAN_quantizer args) (module_attrs (GumbelVQGAN_quantizer args)) w'.
Proof.
  intros Ha Ha0 Hf.
  unfold GumbelVQGAN.__init__, VQGAN.__init__, mbind, M_bind, bind.
  cbn [Module_init save_hyperparameters setattr modify].
  rewrite Ha. cbn [mret M_ret ret lift].
  unfold py_truediv. rewrite decide_False by done.
  rewrite (math_log_pos _ Hf), (math_log_pos 2) by lra.
  cbn [register_module modify].
  match goal with
  | |- context [VQGAN.init_weights ?w0] =>
      rewrite (VQGAN_init_loop_finds_nothing w0) by all_dotted
  end.
  eexists. split; [reflexivity|]. split; [reflexivity|]. split; [reflexivity|].
  split; [|split]; split; try eexists; lookup_attr.
Qed.
End VQGANConstruction.

(** The example instance is the one the constructor makes. *)
Lemma Demo_vqgan_constructed :
  VQGAN.__init__ (H := Demo.toy) Demo.args 4 (1 / 10000) [] (new_instance Demo.blank)
  = (Demo.vqgan, Ok tt).
Proof.
  unfold VQGAN.__init__, mbind, M_bind, bind.
  cbn [Module_init save_hyperparameters setattr modify].
  cbn [attn_resolutions Demo.args mret M_ret ret lift].
  unfold py_truediv. rewrite decide_False by done.
  rewrite (math_log_pos (IZR (resolution Demo.args) / 32)), (math_log_pos 2)
    by (cbn [resolution Demo.args]; lra).
  cbn [register_module modify lift].
  match goal with
  | |- context [VQGAN.init_weights ?w0] =>
      rewrite (VQGAN_init_loop_finds_nothing (H := Demo.toy) w0) by all_dotted
  end.
  reflexivity.
Qed.
(** ** Construction and configuration of the two [VQVAE] classes *)

Section Construction.
Context `{Collaborators}.

Lemma VQVAE_init_returns args bs lr ik mon remap sis norm w :
  (VQVAE.__init__ args bs lr ik mon remap sis norm w).2 = Ok tt.
Proof. by destruct mon. Qed.

(** The attributes [VQVAE.__init__] assigns. *)
Lemma VQVAE_init_dom args bs lr ik mon remap sis norm w :
  dom (self (VQVAE.__init__ args bs lr ik mon remap sis norm w).1) =
  {[ "hparams"; "args"; "encoder"; "decoder"; "normalization"; "smooth_l1_loss";
     "quantize"; "quant_conv"; "post_quant_conv" ]}
  ∪ (match mon with Some _ => {[ "monitor" ]} | None => ∅ end) ∪ dom (self w).
Proof. destruct mon; simpl; rewrite !dom_insert_L; set_solver. Qed.

Lemma VQVAE_init_hparams args bs lr ik mon remap sis norm w :
  self (VQVAE.__init__ args bs lr ik mon remap sis norm w).1 !! "hparams"
  = Some (VHparams bs lr).
Proof. destruct mon; simpl; rewrite !lookup_insert_ne by done; apply lookup_insert_eq. Qed.

Lemma VQVAE_init_args args bs lr ik mon remap sis norm w :
  self (VQVAE.__init__ args bs lr ik mon remap sis norm w).1 !! "args"
  = Some (VArgs args).
Proof. destruct mon; simpl; rewrite !lookup_insert_ne by done; apply lookup_insert_eq. Qed.

(** C8.  [GumbelVQVAE.decode_code] raises [NotImplementedError] on every
    input and in every state of the instance: it returns nothing and
    changes nothing. *)
Theorem GumbelVQVAE_decode_code_not_implemented (code_b : tensor nat) (w : world) :
  GumbelVQVAE.decode_code code_b w = (w, Raise NotImplementedError).
Proof. reflexivity. Qed.

(** C9.  Constructing a [GumbelVQVAE] always raises [AttributeError]:
    whatever the arguments, [__init__] run on a new instance reaches
    [self.loss.n_classes = ...] with no attribute [loss], since
    [VQVAE.__init__] assigns none; so no instance is ever returned. *)
Theorem GumbelVQVAE_init_raises args bs lr ik mon remap w :
  (GumbelVQVAE.__init__ args bs lr ik mon remap (new_instance w)).2
  = Raise (AttributeError "loss").
Proof.
  unfold GumbelVQVAE.__init__.
  set (w0 := (setattr "args" (VArgs args) (save_hyperparameters bs lr (new_instance w)).1).1).
  set (c := VQVAE.__init__ _ _ _ _ _ _ _ _).
  assert (Hd : self (c w0).1 !! "loss" = None).
  { apply not_elem_of_dom. unfold c. rewrite VQVAE_init_dom.
    subst w0. simpl. rewrite !dom_insert_L, dom_empty_L. destruct mon; set_solver. }
  pose proof (VQVAE_init_returns args bs lr ik mon None false
                VQVAE.default_normalization w0) as Hr.
  fold c in Hr.
  destruct (c w0) as [w1 r] eqn:E. simpl in *. subst r.
  unfold mbind, M_bind, bind. simpl. fold w0. rewrite E.
  unfold setattr_of, mbind, M_bind, bind. by rewrite (getattr_none _ _ Hd).
Qed.


Lemma configure_raises w : ∃ e, (VQVAE.configure_optimizers w).2 = Raise e.
Proof.
  unfold VQVAE.configure_optimizers, hparams_learning_rate, mbind, M_bind, bind, getattr.
  destruct (self w !! "hparams") as [[]|]; simpl; eauto.
Qed.

(** C10.  [configure_optimizers] of any [VQVAE] instance, as its
    constructor leaves it, raises: [Adam] is handed the bound method
    [self.parameters] instead of the parameters, and its [list(params)]
    raises [TypeError].  ([configure_raises] above: in no state of the
    instance at all does the method return an optimizer.) *)
Theorem VQVAE_configure_optimizers_raises args bs lr ik mon remap sis norm w :
  (VQVAE.configure_optimizers
     (VQVAE.__init__ args bs lr ik mon remap sis norm (new_instance w)).1).2
  = Raise (TypeError "'method' object is not iterable").
Proof.
  unfold VQVAE.configure_optimizers, hparams_learning_rate, mbind, M_bind, bind.
  rewrite (getattr_some _ _ _ (VQVAE_init_hparams _ _ _ _ _ _ _ _ _)).
  reflexivity.
Qed.
End Construction.

(** ** Annealing of the Gumbel temperature *)

Lemma calls_since_app w w' es : calls w' = calls w ++ es → calls_since w w' = es.
Proof. intros E. unfold calls_since. rewrite E. apply drop_app_length. Qed.

Section Gumbel.
Context `{Collaborators}.

Lemma as_float_VFloat r w : as_float (VFloat r) w = (w, Ok r).
Proof. done. Qed.

(** The two annealing lines on an instance that has the three floats and
    the quantizer. *)
Lemma anneal_temperature_run t rate floor q live w :
  gumbel_state t rate floor q live w →
  anneal_temperature w =
  (set_self (annealed_attrs (decayed t rate (global_step w) floor) q live) w, Ok tt).
Proof.
  intros [Ht Hr Hf Hq].
  unfold anneal_temperature, mbind, M_bind, bind.
  rewrite (getattr_some _ _ _ Ht), as_float_VFloat.
  rewrite (getattr_some _ _ _ Hr), as_float_VFloat. cbn [gets].
  rewrite (getattr_some _ _ _ Hf), as_float_VFloat. cbn [setattr modify].
  erewrite getattr_some by lookup_attr.
  unfold setattr_of, mbind, M_bind, bind.
  erewrite getattr_some
    by (cbn [self set_self]; rewrite lookup_insert_ne by done; exact Hq).
  reflexivity.
Qed.

Lemma has_nets_requantized N w q live live' f :
  has_nets N w → self w !! "quantize" = Some (VModule q live) →
  (∀ s k, k ≠ "quantize" → k ≠ "temperature" → f s !! k = s !! k) →
  (∀ s, f s !! "quantize" = Some (VModule q live')) →
  has_nets N (set_self f w).
Proof.
  intros [[l1 H1] [l2 H2] [l3 H3] [l4 H4] [l5 H5]] Hq Hf Hfq.
  rewrite Hq in H3. injection H3 as -> ->.
  split; unfold module_at; cbn [self set_self];
    rewrite ?Hfq, ?Hf by done; eauto.
Qed.

Lemma has_loss_requantized lm da cfg w f :
  has_loss lm da cfg w →
  (∀ s k, k ≠ "quantize" → k ≠ "temperature" → f s !! k = s !! k) →
  has_loss lm da cfg (set_self f w).
Proof.
  intros [[l1 H1] [l2 H2] H3] Hf.
  split; unfold module_at; cbn [self set_self]; rewrite ?Hf by done; eauto.
Qed.

Lemma annealed_attrs_other t q live s k :
  k ≠ "quantize" → k ≠ "temperature" → annealed_attrs t q live s !! k = s !! k.
Proof. intros. unfold annealed_attrs. by rewrite !lookup_insert_ne. Qed.

Lemma annealed_attrs_quantize t q live s :
  annealed_attrs t q live s !! "quantize"
  = Some (VModule q (<[ "temperature" := VFloat t ]> live)).
Proof. unfold annealed_attrs. apply lookup_insert_eq. Qed.

(** A training step of [GumbelVQGAN] is the one of [VQGAN] on the instance
    with its temperature annealed. *)
Lemma GumbelVQGAN_training_step_annealed t rate floor q live w x rest i idx :
  gumbel_state t rate floor q live w →
  GumbelVQGAN.training_step (x :: rest) i idx w =
  VQGAN.training_step (x :: rest) i idx
    (set_self (annealed_attrs (decayed t rate (global_step w) floor) q live) w).
Proof.
  intros HG. unfold GumbelVQGAN.training_step, VQGAN.training_step, mbind, M_bind, bind.
  cbn [first_of mret M_ret ret].
  by rewrite (anneal_temperature_run _ _ _ _ _ _ HG).
Qed.

Lemma gumbel_state_same_self t rate floor q live w w' :
  self w' = self w → gumbel_state t rate floor q live w →
  gumbel_state t rate floor q live w'.
Proof. intros E [? ? ? ?]. split; by rewrite E. Qed.

(** The annealing state after a training step of [GumbelVQGAN]: the stored
    temperature is the decayed one, and so is the quantizer's. *)
Lemma GumbelVQGAN_training_step_state t rate floor q live w x rest i idx :
  gumbel_state t rate floor q live w →
  let t' := decayed t rate (global_step w) floor in
  let w' := (GumbelVQGAN.training_step (x :: rest) i idx w).1 in
  gumbel_state t' rate floor q (<[ "temperature" := VFloat t' ]> live) w'
  ∧ quantizer_temperature w' = Some (VFloat t')
  ∧ global_step w' = global_step w.
Proof.
  intros HG t' w'. subst w'.
  rewrite (GumbelVQGAN_training_step_annealed _ _ _ _ _ _ _ _ _ _ HG).
  fold t'. destruct HG as [Ht Hr Hf Hq].
  destruct (keeps_self_VQGAN_training_step (x :: rest) i idx
              (set_self (annealed_attrs t' q live) w)) as [Hs Hg].
  cbn [self set_self] in Hs.
  split; [|split].
  - split; rewrite Hs; unfold annealed_attrs.
    + by rewrite lookup_insert_ne, lookup_insert_eq.
    + by rewrite !lookup_insert_ne.
    + by rewrite !lookup_insert_ne.
    + apply lookup_insert_eq.
  - unfold quantizer_temperature, quantizer_live. rewrite Hs, annealed_attrs_quantize.
    apply lookup_insert_eq.
  - exact Hg.
Qed.

(** In [GumbelVQVAE] the attribute [temperature] is read before anything
    assigns it. *)
Lemma GumbelVQVAE_training_step_no_temperature w x y i idx :
  self w !! "temperature" = None →
  GumbelVQVAE.training_step [x; y] i idx w = (w, Raise (AttributeError "temperature")).
Proof.
  intros E. unfold GumbelVQVAE.training_step, anneal_temperature, mbind, M_bind, bind.
  cbn [unpack_pair mret M_ret ret]. by rewrite (getattr_none _ _ E).
Qed.
End Gumbel.

(** ** The schedule over the reals *)

Lemma exp_neg_1_bounds : (1 / 3 <= exp (-1) < 1)%R.
Proof.
  pose proof exp_le_3 as H3. pose proof (exp_pos 1) as Hp.
  replace (-1)%R with (- (1))%R by lra.
  rewrite exp_Ropp. split.
  - unfold Rdiv. rewrite Rmult_1_l. apply Rinv_le_contravar; lra.
  - pose proof (exp_ineq1 1) as H1.
    pose proof (Rinv_r (exp 1)) as Hr.
    pose proof (Rinv_0_lt_compat (exp 1) Hp). nra.
Qed.

Lemma exp_neg_2 : (exp (-2) = exp (-1) * exp (-1))%R.
Proof. rewrite <- exp_plus. f_equal. lra. Qed.

Lemma decayed_first_step : decayed 1 (1 / 10000) 10000 (1 / 10) = exp (-1).
Proof.
  unfold decayed.
  replace (- (1 / 10000) * 10000)%R with (-1)%R by lra.
  rewrite Rmult_1_l. apply Rmax_left. pose proof exp_neg_1_bounds. lra.
Qed.

Lemma decayed_second_step : decayed (exp (-1)) (1 / 10000) 10000 (1 / 10) = exp (-2).
Proof.
  unfold decayed.
  replace (- (1 / 10000) * 10000)%R with (-1)%R by lra.
  rewrite <- exp_neg_2. apply Rmax_left.
  rewrite exp_neg_2. pose proof exp_neg_1_bounds. nra.
Qed.

Lemma exp_neg_2_lt : (exp (-2) < exp (-1))%R.
Proof. apply exp_increasing. lra. Qed.

(** Past the floor the schedule is the floor itself. *)
Lemma decayed_floor t : (0 <= t <= 1)%R → decayed t (1 / 10000) 1000000000 (1 / 10) = (1 / 10)%R.
Proof.
  intros Ht. unfold decayed.
  replace (- (1 / 10000) * 1000000000)%R with (- 100000)%R by lra.
  apply Rmax_right.
  assert (exp (- 100000) < 1 / 10)%R.
  { replace (-100000)%R with (- (100000))%R by lra.
    rewrite exp_Ropp. pose proof (exp_ineq1 100000) as H1.
    pose proof (exp_pos 100000) as Hp.
    pose proof (Rinv_r (exp 100000)) as Hr.
    pose proof (Rinv_0_lt_compat (exp 100000) Hp). nra. }
  pose proof (exp_pos (- 100000)). nra.
Qed.

Section GumbelSchedule.
Context `{Collaborators}.

(** C1, at the input where the code departs from it.  A [GumbelVQGAN] built
    with starting temperature 1.0, anneal rate 1e-4 and floor 0.1 runs the
    two phases of a batch at [global_step = 10000].  The first training
    step sets the quantizer's temperature to the schedule's
    [max(1.0 * exp(-1e-4 * 10000), 0.1)]; the second, at the same step
    count, decays the stored temperature again and sets [exp(-2)], which
    is not the schedule's value. *)
Theorem GumbelVQGAN_temperature_compounds (w0 : world) (x : tensor R) (rest : list (tensor R)) :
  let w := set_global_step 10000
             (GumbelVQGAN.__init__ Demo.args 4 (1 / 10000) [] (new_instance w0)).1 in
  let w1 := (GumbelVQGAN.training_step (x :: rest) 0 0 w).1 in
  let w2 := (GumbelVQGAN.training_step (x :: rest) 0 1 w1).1 in
  quantizer_temperature w1 = Some (VFloat (decayed 1 (1 / 10000) 10000 (1 / 10)))
  ∧ quantizer_temperature w2 = Some (VFloat (exp (-2)))
  ∧ exp (-2) ≠ decayed 1 (1 / 10000) 10000 (1 / 10).
Proof.
  intros w w1 w2.
  destruct (GumbelVQGAN_init_run Demo.args 4 (1 / 10000) [] (new_instance w0) 32 [])
    as (w' & E & _ & _ & _ & _ & HG); [done|done|cbn; lra|].
  assert (HGw : gumbel_state 1 (1 / 10000) (1 / 10) (GumbelVQGAN_quantizer Demo.args)
                  (module_attrs (GumbelVQGAN_quantizer Demo.args)) w).
  { subst w. rewrite E. by apply (gumbel_state_same_self _ _ _ _ _ w'). }
  destruct (GumbelVQGAN_training_step_state _ _ _ _ _ _ x rest 0 0 HGw)
    as (HG1 & Ht1 & Hs1).
  fold w1 in HG1, Ht1, Hs1.
  replace (global_step w) with 10000%Z in * by done.
  destruct (GumbelVQGAN_training_step_state _ _ _ _ _ _ x rest 0 1 HG1)
    as (HG2 & Ht2 & Hs2).
  fold w2 in HG2, Ht2, Hs2. rewrite Hs1 in Ht2.
  split; [exact Ht1|]. split.
  - rewrite Ht2. by rewrite decayed_first_step, decayed_second_step.
  - rewrite decayed_first_step. pose proof exp_neg_2_lt. lra.
Qed.
End GumbelSchedule.

(** ** The calls of a training step *)

Section Traces.
Context `{Collaborators}.

Lemma has_loss_same_self lm da cfg w w' :
  self w' = self w → has_loss lm da cfg w → has_loss lm da cfg w'.
Proof. intros E [? ? ?]. split; unfold module_at in *; by rewrite E. Qed.

Lemma quantizer_live_same_self w w' : self w' = self w → quantizer_live w' = quantizer_live w.
Proof. intros E. unfold quantizer_live. by rewrite E. Qed.

Lemma forward_passes_forward_calls N live g k x es :
  forward_passes (forward_calls N live g k x ++ es) = S (forward_passes es).
Proof. reflexivity. Qed.

Lemma quantize_temperatures_forward_calls N live g k x es :
  quantize_temperatures (forward_calls N live g k x ++ es)
  = (live !! "temperature") :: quantize_temperatures es.
Proof. reflexivity. Qed.

Lemma loss_inputs_forward_calls N live g k x es :
  loss_inputs (forward_calls N live g k x ++ es) = loss_inputs es.
Proof. reflexivity. Qed.

(** The calls of one training step of [VQGAN], phase 0 or 1: one forward
    pass, then the loss on its reconstruction and quantization loss. *)
Lemma VQGAN_training_step_calls N lm da cfg w x rest i idx :
  has_nets N w → has_loss lm da cfg w → idx = 0%Z ∨ idx = 1%Z →
  let k := length (calls w) + 2 in
  let forwarded := forward_value N (quantizer_live w) k x in
  let w' := (VQGAN.training_step (x :: rest) i idx w).1 in
  calls w' = calls w ++ forward_calls N (quantizer_live w) (grad_enabled w) k x
                     ++ [LossCall lm idx (global_step w) "train" forwarded.2 x forwarded.1]
  ∧ self w' = self w ∧ global_step w' = global_step w ∧ grad_enabled w' = grad_enabled w.
Proof.
  intros HN HL [-> | ->] k forwarded w'; subst w'.
  - rewrite (VQGAN_training_step_autoencoder N lm da cfg w x rest i HN HL). done.
  - rewrite (VQGAN_training_step_discriminator N lm da cfg w x rest i HN HL). done.
Qed.
End Traces.

Section Batches.
Context `{Collaborators}.

(** The calls of the two phases of one batch: each phase runs its own
    forward pass, the second with later noise. *)
Lemma VQGAN_train_batch_calls N lm da cfg w x rest i :
  has_nets N w → has_loss lm da cfg w →
  let live := quantizer_live w in
  let g := grad_enabled w in
  let k0 := length (calls w) + 2 in
  let k1 := length (calls w) + 8 in
  let f0 := forward_value N live k0 x in
  let f1 := forward_value N live k1 x in
  calls (train_batch VQGAN.training_step (x :: rest) i w) =
  calls w
  ++ (forward_calls N live g k0 x ++ [LossCall lm 0 (global_step w) "train" f0.2 x f0.1])
  ++ (forward_calls N live g k1 x ++ [LossCall lm 1 (global_step w) "train" f1.2 x f1.1]).
Proof.
  intros HN HL live g k0 k1 f0 f1. unfold train_batch.
  destruct (VQGAN_training_step_calls N lm da cfg w x rest i 0 HN HL (or_introl eq_refl))
    as (Hc0 & Hs0 & Hg0 & Hgr0).
  set (w1 := (VQGAN.training_step (x :: rest) i 0 w).1) in *.
  destruct (VQGAN_training_step_calls N lm da cfg w1 x rest i 1
              (has_nets_same_self _ _ _ Hs0 HN) (has_loss_same_self _ _ _ _ _ Hs0 HL)
              (or_intror eq_refl))
    as (Hc1 & _).
  rewrite Hc1, (quantizer_live_same_self _ _ Hs0), Hg0, Hgr0, Hc0.
  rewrite !length_app. cbn [length forward_calls].
  replace (length (calls w) + (5 + 1) + 2) with k1 by (unfold k1; lia).
  by rewrite <- !app_assoc.
Qed.

(** C2, as amended.  Each call of [VQGAN.training_step] runs the forward pass
    exactly once, and the loss of its phase is computed from the
    reconstruction and quantization loss of that very pass.  The two calls
    made for one batch (optimizer index 0, then 1) each run their own
    forward pass, the second with later quantizer noise: two passes per
    batch, none shared. *)
Theorem VQGAN_forward_pass_per_phase N lm da cfg w x rest i :
  has_nets N w → has_loss lm da cfg w →
  let w1 := (VQGAN.training_step (x :: rest) i 0 w).1 in
  let w2 := (VQGAN.training_step (x :: rest) i 1 w1).1 in
  let f0 := forward_value N (quantizer_live w) (length (calls w) + 2) x in
  let f1 := forward_value N (quantizer_live w1) (length (calls w1) + 2) x in
  forward_passes (calls_since w w1) = 1
  ∧ loss_inputs (calls_since w w1) = [(0%Z, f0.1, f0.2)]
  ∧ forward_passes (calls_since w1 w2) = 1
  ∧ loss_inputs (calls_since w1 w2) = [(1%Z, f1.1, f1.2)]
  ∧ forward_passes (calls_since w (train_batch VQGAN.training_step (x :: rest) i w)) = 2.
Proof.
  intros HN HL w1 w2 f0 f1.
  destruct (VQGAN_training_step_calls N lm da cfg w x rest i 0 HN HL (or_introl eq_refl))
    as (Hc0 & Hs0 & _).
  fold w1 in Hc0, Hs0.
  destruct (VQGAN_training_step_calls N lm da cfg w1 x rest i 1
              (has_nets_same_self _ _ _ Hs0 HN) (has_loss_same_self _ _ _ _ _ Hs0 HL)
              (or_intror eq_refl))
    as (Hc1 & _).
  fold w2 in Hc1.
  rewrite (calls_since_app _ _ _ Hc0), (calls_since_app _ _ _ Hc1).
  rewrite (calls_since_app _ _ _ (VQGAN_train_batch_calls N lm da cfg w x rest i HN HL)).
  repeat split; reflexivity.
Qed.
End Batches.

(** On the example instance, the two phases of a batch make two forward
    passes. *)
Lemma VQGAN_forward_pass_per_phase_witness :
  has_nets Demo.nets_of_VQGAN Demo.vqgan
  ∧ has_loss Demo.loss_module Demo.args Demo.args Demo.vqgan
  ∧ forward_passes
      (calls_since Demo.vqgan
         (train_batch (VQGAN.training_step (H := Demo.toy)) [Demo.image] 0 Demo.vqgan)) = 2.
Proof.
  assert (HN : has_nets Demo.nets_of_VQGAN Demo.vqgan)
    by (split; eexists; reflexivity).
  assert (HL : has_loss Demo.loss_module Demo.args Demo.args Demo.vqgan)
    by (split; try eexists; reflexivity).
  split; [exact HN|]. split; [exact HL|].
  exact (proj2 (proj2 (proj2 (proj2
    (VQGAN_forward_pass_per_phase (H := Demo.toy) Demo.nets_of_VQGAN Demo.loss_module
       Demo.args Demo.args Demo.vqgan Demo.image [] 0 HN HL))))).
Defined.

(** C2 as stated fails: on the example instance, the two phases of one batch
    do not make one forward pass between them. *)
Lemma VQGAN_forward_pass_not_shared :
  ¬ forward_once_per_batch (VQGAN.training_step (H := Demo.toy)) [Demo.image] 0 Demo.vqgan.
Proof.
  assert (HN : has_nets Demo.nets_of_VQGAN Demo.vqgan)
    by (split; eexists; reflexivity).
  assert (HL : has_loss Demo.loss_module Demo.args Demo.args Demo.vqgan)
    by (split; try eexists; reflexivity).
  unfold forward_once_per_batch.
  rewrite (calls_since_app _ _ _
    (VQGAN_train_batch_calls (H := Demo.toy) Demo.nets_of_VQGAN Demo.loss_module
       Demo.args Demo.args Demo.vqgan Demo.image [] 0 HN HL)).
  discriminate.
Qed.

Section GumbelBatches.
Context `{Collaborators}.

(** The calls of one training step of [GumbelVQGAN]: the forward pass runs
    at the temperature the step has just annealed. *)
Lemma GumbelVQGAN_training_step_calls N lm da cfg t rate floor q live w x rest i idx :
  gumbel_state t rate floor q live w → has_nets N w → has_loss lm da cfg w →
  idx = 0%Z ∨ idx = 1%Z →
  let t' := decayed t rate (global_step w) floor in
  let w' := (GumbelVQGAN.training_step (x :: rest) i idx w).1 in
  forward_passes (calls_since w w') = 1
  ∧ quantize_temperatures (calls_since w w') = [Some (VFloat t')]
  ∧ has_nets N w' ∧ has_loss lm da cfg w'.
Proof.
  intros HG HN HL Hidx t' w'. subst w'.
  rewrite (GumbelVQGAN_training_step_annealed _ _ _ _ _ _ _ _ _ _ HG). fold t'.
  pose proof (at_gumbel_quantize _ _ _ _ _ _ HG) as Hq.
  set (wa := set_self (annealed_attrs t' q live) w).
  assert (HNa : has_nets N wa).
  { eapply has_nets_requantized; [exact HN|exact Hq| |].
    - intros. by apply annealed_attrs_other.
    - intros. apply annealed_attrs_quantize. }
  assert (HLa : has_loss lm da cfg wa).
  { eapply has_loss_requantized; [exact HL|]. intros. by apply annealed_attrs_other. }
  destruct (VQGAN_training_step_calls N lm da cfg wa x rest i idx HNa HLa Hidx)
    as (Hc & Hs & _).
  replace (calls wa) with (calls w) in Hc by done.
  rewrite (calls_since_app _ _ _ Hc).
  split; [reflexivity|]. split.
  - rewrite quantize_temperatures_forward_calls.
    unfold quantizer_live, wa. cbn [self set_self].
    rewrite annealed_attrs_quantize, lookup_insert_eq. done.
  - split; [by apply (has_nets_same_self N wa)|by apply (has_loss_same_self _ _ _ wa)].
Qed.

(** The two phases of a batch in [GumbelVQGAN]: two forward passes, the
    second at a temperature annealed once more. *)
Lemma GumbelVQGAN_train_batch_temperatures N lm da cfg t rate floor q live w x rest i :
  gumbel_state t rate floor q live w → has_nets N w → has_loss lm da cfg w →
  let t1 := decayed t rate (global_step w) floor in
  let t2 := decayed t1 rate (global_step w) floor in
  let w1 := (GumbelVQGAN.training_step (x :: rest) i 0 w).1 in
  let w2 := train_batch GumbelVQGAN.training_step (x :: rest) i w in
  quantize_temperatures (calls_since w w1) = [Some (VFloat t1)]
  ∧ quantize_temperatures (calls_since w1 w2) = [Some (VFloat t2)]
  ∧ forward_passes (calls_since w w1) + forward_passes (calls_since w1 w2) = 2.
Proof.
  intros HG HN HL t1 t2 w1 w2.
  destruct (GumbelVQGAN_training_step_calls N lm da cfg _ _ _ _ _ w x rest i 0 HG HN HL
              (or_introl eq_refl)) as (Hf0 & Ht0 & HN1 & HL1).
  destruct (GumbelVQGAN_training_step_state _ _ _ _ _ w x rest i 0 HG) as (HG1 & _ & Hs1).
  fold w1 in Hf0, Ht0, HN1, HL1, HG1, Hs1. fold t1 in Ht0, HG1.
  destruct (GumbelVQGAN_training_step_calls N lm da cfg _ _ _ _ _ w1 x rest i 1 HG1 HN1 HL1
              (or_intror eq_refl)) as (Hf1 & Ht1 & _).
  rewrite Hs1 in Ht1. fold t2 in Ht1.
  unfold w2, train_batch. fold w1.
  by rewrite Hf0, Hf1, Ht0, Ht1.
Qed.
End GumbelBatches.

(** ** Validation steps *)

Section Validation.
Context `{Collaborators}.

Lemma VQVAE_forward_run N w x :
  has_nets N w →
  VQVAE.forward x w =
  (add_calls (forward_calls N (quantizer_live w) (grad_enabled w) (length (calls w) + 2) x) w,
   Ok (forward_value N (quantizer_live w) (length (calls w) + 2) x)).
Proof.
  intros [He Hqc [live Hq] Hpqc Hd].
  rewrite (quantizer_live_at _ _ _ Hq).
  unfold VQVAE.forward, VQVAE.encode, VQVAE.decode, mbind, M_bind, bind.
  erewrite (call_net_at _ _ _ _ _ He) by done. cbv beta iota.
  erewrite (call_net_at _ _ _ _ _ Hqc) by done. cbv beta iota.
  erewrite (call_quantize_run (add_calls _ (add_calls _ w)) _ live _ Hq). cbv beta iota.
  autorewrite with world. cbn [length app].
  replace (length (calls w) + (1 + 1)) with (length (calls w) + 2) by lia.
  unfold forward_value, forward_calls.
  destruct (quantizer_forward _ _ _ _) as [[quant diff] inf].
  cbn [mret M_ret ret fst].
  erewrite (call_net_at _ _ _ _ _ Hpqc) by done. cbv beta iota.
  erewrite (call_net_at _ _ _ _ _ Hd) by done. cbv beta iota.
  autorewrite with world. reflexivity.
Qed.


Lemma setattr_of_quantize_temperature w q live t :
  self w !! "quantize" = Some (VModule q live) →
  setattr_of "quantize" "temperature" (VFloat t) w
  = (set_self (requantized t q live) w, Ok tt).
Proof.
  intros Hq. unfold setattr_of, mbind, M_bind, bind.
  by rewrite (getattr_some _ _ _ Hq).
Qed.

End Validation.

Section GumbelVQVAEValidation.
Context `{Collaborators}.

(** The body of [GumbelVQVAE.validation_step], on a state that has the
    networks: the forward pass runs with the quantizer as it stands, and
    the temperature is set to 1.0 afterwards.  No constructor returns such
    a state ([GumbelVQVAE_init_raises]). *)
Lemma GumbelVQVAE_validation_step_run N w x y i smooth :
  has_nets N w → self w !! "smooth_l1_loss" = Some (VBool smooth) →
  let w' := (GumbelVQVAE.validation_step [x; y] i w).1 in
  quantize_temperatures (calls_since w w') = [quantizer_temperature w]
  ∧ quantizer_temperature w' = Some (VFloat 1).
Proof.
  intros HN Hsm w'. subst w'. destruct (at_quantize _ _ HN) as [live Hq].
  unfold GumbelVQVAE.validation_step, mbind, M_bind, bind.
  cbn [unpack_pair mret M_ret ret].
  rewrite (VQVAE_forward_run N w x HN). cbv beta iota.
  destruct (forward_value N (quantizer_live w) (length (calls w) + 2) x) as [xrec qloss].
  erewrite (setattr_of_quantize_temperature (add_calls _ w) _ _ _ Hq).
  unfold VQVAE.reconstruction_loss, mbind, M_bind, bind.
  erewrite getattr_some
    by (cbn [self set_self add_calls]; unfold requantized;
        rewrite lookup_insert_ne by done; exact Hsm).
  cbn [as_bool mret M_ret ret gets].
  split.
  - rewrite (calls_since_app w _
               (forward_calls N (quantizer_live w) (grad_enabled w)
                  (length (calls w) + 2) x)).
    + reflexivity.
    + by destruct smooth.
  - unfold quantizer_temperature, quantizer_live.
    destruct smooth; cbn [fst log modify mret M_ret ret self add_logged set_self];
      unfold requantized; rewrite lookup_insert_eq; apply lookup_insert_eq.
Qed.

End GumbelVQVAEValidation.

(** ** Codebook indices *)

Section CodebookIndices.
Context `{Collaborators}.

Lemma VQGAN_encode_run N w x :
  has_nets N w →
  VQGAN.encode x w =
  (add_calls (encode_calls N (quantizer_live w) (grad_enabled w) (length (calls w) + 2) x) w,
   Ok (encode_value N (quantizer_live w) (length (calls w) + 2) x)).
Proof.
  intros [He Hqc [live Hq] Hpqc Hd].
  rewrite (quantizer_live_at _ _ _ Hq).
  unfold VQGAN.encode, mbind, M_bind, bind.
  erewrite (call_net_at _ _ _ _ _ He) by done. cbv beta iota.
  erewrite (call_net_at _ _ _ _ _ Hqc) by done. cbv beta iota.
  erewrite (call_quantize_run (add_calls _ (add_calls _ w)) _ live _ Hq). cbv beta iota.
  autorewrite with world. cbn [length app].
  replace (length (calls w) + (1 + 1)) with (length (calls w) + 2) by lia.
  unfold encode_value, encode_calls.
  destruct (quantizer_forward _ _ _ _) as [[quant diff] inf].
  reflexivity.
Qed.

Lemma has_nets_set_grad_enabled N g w : has_nets N w → has_nets N (set_grad_enabled g w).
Proof. by apply has_nets_same_self. Qed.

(** [VQGAN.get_codebook_indices] on a batch of [b] images whose quantizer
    returns [b * t] flat indices: the image is rescaled, the networks run
    without gradients, and the indices come back as [b] rows of [t]. *)
Lemma VQGAN_get_codebook_indices_run N w img b rest t :
  has_nets N w → shape img = b :: rest → b ≠ 0 →
  let k := length (calls w) + 2 in
  let indices := (encode_value N (quantizer_live w) k (rescale img)).2.2 in
  shape indices = [b * t] → length (data indices) = b * t →
  VQGAN.get_codebook_indices img w =
  (add_calls (encode_calls N (quantizer_live w) false k (rescale img)) w,
   Ok (Tensor [b; t] (data indices))).
Proof.
  intros HN Hshape Hb k indices Hsh Hlen.
  unfold VQGAN.get_codebook_indices, no_grad, mbind, M_bind, bind.
  rewrite Hshape. cbn [mret M_ret ret].
  fold (rescale img).
  rewrite (VQGAN_encode_run N _ _ (has_nets_set_grad_enabled N false w HN)).
  cbv beta iota.
  replace (quantizer_live (set_grad_enabled false w)) with (quantizer_live w) by done.
  replace (calls (set_grad_enabled false w)) with (calls w) by done.
  fold k. subst indices.
  destruct (encode_value N (quantizer_live w) k (rescale img)) as [[quant diff] [[pp enc] ind]].
  cbn [fst snd] in *. rewrite Hsh. cbn [mret M_ret ret].
  rewrite decide_False by done. cbn [mret M_ret ret lift].
  replace ((b * t) `div` b) with t by (by rewrite (Nat.mul_comm b t), Nat.div_mul).
  unfold view2. rewrite decide_True by done.
  destruct w; reflexivity.
Qed.

(** [VQVAE.get_codebook_indices] reads [self.model], which nothing assigns. *)
Lemma VQVAE_get_codebook_indices_no_model w img b rest :
  shape img = b :: rest → self w !! "model" = None →
  VQVAE.get_codebook_indices img w = (w, Raise (AttributeError "model")).
Proof.
  intros Hshape Hm.
  unfold VQVAE.get_codebook_indices, no_grad, mbind, M_bind, bind.
  rewrite Hshape. cbn [mret M_ret ret].
  rewrite (getattr_none (set_grad_enabled false w) "model" Hm).
  destruct w; reflexivity.
Qed.

(** C5, at the input where the code departs from it.
    [VQVAE.get_codebook_indices] on any image batch, on a [VQVAE] as its
    constructor leaves it, raises [AttributeError]: it encodes through
    [self.model], an attribute nothing assigns.
    ([VQGAN_get_codebook_indices_run] above: [VQGAN] encodes through
    [self.encode] and returns the indices as [b] rows.) *)
Theorem VQVAE_get_codebook_indices_raises args bs lr ik mon remap sis norm w
    (b : nat) (rest : list nat) (pixels : list R) :
  (VQVAE.get_codebook_indices (Tensor (b :: rest) pixels)
     (VQVAE.__init__ args bs lr ik mon remap sis norm (new_instance w)).1).2
  = Raise (AttributeError "model").
Proof.
  rewrite (VQVAE_get_codebook_indices_no_model _ _ b rest); [done|done|].
  apply not_elem_of_dom. rewrite VQVAE_init_dom. cbn [self new_instance set_self set_state_dict].
  rewrite dom_empty_L. destruct mon; set_solver.
Qed.
End CodebookIndices.

(** ** Decoding a token sequence *)

Section Decode.
Context `{Collaborators}.

Lemma embedding_lookup_shape table d t e :
  embedding_lookup table d t = Ok e → shape e = shape t ++ [d].
Proof.
  unfold embedding_lookup. destruct (embedding_rows table (data t)); [|done].
  by intros [= <-].
Qed.

(** A token sequence whose length is not a perfect square is refused, and
    no network is called. *)
Lemma VQGAN_decode_not_square w img_seq b n :
  shape img_seq = [b; n] → ¬ perfect_square n →
  ∃ e, VQGAN.decode (Tokens img_seq) true w = (w, Raise e).
Proof.
  intros Hshape Hn.
  unfold VQGAN.decode, VQGAN.quantize_embedding, mbind, M_bind, bind, getattr.
  destruct (self w !! "quantize") as [[| | | | | | | |m live]|]; eauto.
  destruct (embedding_dim m) as [d|]; eauto.
  cbn [lift].
  destruct (embedding_lookup (embedding_weight m) d img_seq) as [e|err] eqn:E; eauto.
  rewrite (embedding_lookup_shape _ _ _ _ E), Hshape. cbn [app lift].
  unfold rearrange_b_hw_d.
  rewrite (embedding_lookup_shape _ _ _ _ E), Hshape. cbn [app].
  rewrite decide_False by (intros E'; apply Hn; symmetry; exact E'). eauto.
Qed.

Lemma VQGAN_decode_square N w img_seq b k d rows :
  has_nets N w → embedding_dim (the_quantize N) = Some d →
  shape img_seq = [b; k * k] →
  embedding_rows (embedding_weight (the_quantize N)) (data img_seq) = Ok rows →
  let z := token_grid b d k rows in
  let quant := net_forward (the_post_quant_conv N) z in
  VQGAN.decode (Tokens img_seq) true w =
  (add_calls [Call "post_quant_conv" (the_post_quant_conv N) (grad_enabled w) z;
              Call "decoder" (the_decoder N) (grad_enabled w) quant] w,
   Ok (net_forward (the_decoder N) quant)).
Proof.
  intros [He Hqc [live Hq] Hpqc Hd] Hdim Hshape Hrows z quant.
  unfold VQGAN.decode, VQGAN.quantize_embedding, mbind, M_bind, bind.
  rewrite (getattr_some _ _ _ Hq), Hdim. cbn [lift].
  unfold embedding_lookup. rewrite Hrows, Hshape. cbn [shape app lift].
  unfold rearrange_b_hw_d. cbn [shape data].
  rewrite Nat.sqrt_square, decide_True by done.
  fold (token_grid b d k rows). fold z.
  erewrite (call_net_at _ _ _ _ _ Hpqc) by done. cbv beta iota.
  erewrite (call_net_at _ _ _ _ _ Hd) by done. cbv beta iota.
  autorewrite with world. reflexivity.
Qed.
End Decode.

(** ** Lists laid out in rows *)

Lemma length_bind_seq {A} (f : nat → list A) m n : ∀ s,
  (∀ y, s ≤ y < s + n → length (f y) = m) → length (seq s n ≫= f) = n * m.
Proof.
  induction n as [|n IH]; intros s Hf; [done|].
  cbn [seq]. rewrite bind_cons, length_app.
  rewrite (Hf s) by lia. rewrite IH by (intros; apply Hf; lia).
  simpl. lia.
Qed.

Lemma lookup_bind_seq {A} (f : nat → list A) m n : ∀ s x j,
  (∀ y, s ≤ y < s + n → length (f y) = m) → x < n → j < m →
  (seq s n ≫= f) !! (x * m + j) = f (s + x) !! j.
Proof.
  induction n as [|n IH]; intros s x j Hf Hx Hj; [lia|].
  cbn [seq]. rewrite bind_cons. destruct x as [|x].
  - rewrite lookup_app_l by (rewrite (Hf s) by lia; lia). by rewrite Nat.add_0_r.
  - rewrite lookup_app_r by (rewrite (Hf s) by lia; simpl; lia).
    rewrite (Hf s) by lia.
    replace (S x * m + j - m) with (x * m + j) by (simpl; lia).
    replace (s + S x) with (S s + x) by lia.
    apply IH; [|lia|lia].
    intros; apply Hf; lia.
Qed.

Lemma embedding_rows_length table d : Forall (λ row, length row = d) table →
  ∀ idx rows, embedding_rows table idx = Ok rows → length rows = length idx * d.
Proof.
  intros Htab. induction idx as [|tok idx IH]; intros rows E; simpl in E.
  - by injection E as <-.
  - destruct (table !! tok) as [row|] eqn:Et; [|done].
    destruct (embedding_rows table idx) as [rs|]; [|done].
    injection E as <-. rewrite length_app, (IH rs eq_refl).
    rewrite (Forall_lookup_1 _ _ _ _ Htab Et). simpl. lia.
Qed.

(** Value [c] of token number [p] in the looked-up rows is value [c] of the
    codebook row of that token. *)
Lemma embedding_rows_lookup table d : Forall (λ row, length row = d) table →
  ∀ idx rows p tok c, embedding_rows table idx = Ok rows →
  idx !! p = Some tok → c < d →
  ∃ row, table !! tok = Some row ∧ rows !! (p * d + c) = row !! c.
Proof.
  intros Htab. induction idx as [|t idx IH]; intros rows p tok c E Hp Hc; [done|].
  simpl in E. destruct (table !! t) as [row|] eqn:Et; [|done].
  destruct (embedding_rows table idx) as [rs|] eqn:Ers; [|done].
  injection E as <-.
  pose proof (Forall_lookup_1 _ _ _ _ Htab Et) as Hrow. simpl in Hrow.
  destruct p as [|p]; simpl in Hp.
  - injection Hp as ->. exists row. split; [done|].
    by rewrite lookup_app_l by lia.
  - destruct (IH rs p tok c eq_refl Hp Hc) as (row' & Ht' & Hl').
    exists row'. split; [done|].
    rewrite lookup_app_r by (simpl; lia).
    replace (S p * d + c - length row) with (p * d + c) by (simpl; lia). done.
Qed.

Lemma row_major_lt x y n m : x < n → y < m → x * m + y < n * m.
Proof. intros. nia. Qed.

(** Element [(bi, c, i, j)] of the grid. *)
Lemma token_grid_lookup b d k rows bi c i j :
  length rows = b * (k * k) * d → bi < b → c < d → i < k → j < k →
  data (token_grid b d k rows) !! (((bi * d + c) * k + i) * k + j)
  = rows !! (((bi * k + i) * k + j) * d + c).
Proof.
  intros Hlen Hbi Hc Hi Hj. unfold token_grid. cbn [data].
  assert (Hcell : ∀ bi' c' i' j', bi' < b → c' < d → i' < k → j' < k →
    length (option_list (rows !! (((bi' * k + i') * k + j') * d + c'))) = 1).
  { intros bi' c' i' j' ? ? ? ?.
    destruct (lookup_lt_is_Some_2 rows (((bi' * k + i') * k + j') * d + c')) as [v ->];
      [|done]. rewrite Hlen, Nat.mul_assoc. by repeat apply row_major_lt. }
  assert (Hrow : ∀ bi' c' i', bi' < b → c' < d → i' < k →
    length (seq 0 k ≫= λ j', option_list (rows !! (((bi' * k + i') * k + j') * d + c'))) = k * 1).
  { intros. apply length_bind_seq. intros. apply Hcell; lia. }
  assert (Hplane : ∀ bi' c', bi' < b → c' < d →
    length (seq 0 k ≫= λ i', seq 0 k ≫= λ j',
              option_list (rows !! (((bi' * k + i') * k + j') * d + c'))) = k * (k * 1)).
  { intros. apply length_bind_seq. intros. apply Hrow; lia. }
  assert (Himg : ∀ bi', bi' < b →
    length (seq 0 d ≫= λ c', seq 0 k ≫= λ i', seq 0 k ≫= λ j',
              option_list (rows !! (((bi' * k + i') * k + j') * d + c'))) = d * (k * (k * 1))).
  { intros. apply length_bind_seq. intros. apply Hplane; lia. }
  replace (((bi * d + c) * k + i) * k + j)
    with (bi * (d * (k * (k * 1))) + (c * (k * (k * 1)) + (i * (k * 1) + (j * 1 + 0)))) by lia.
  rewrite (lookup_bind_seq _ (d * (k * (k * 1))) b 0 bi);
    [|intros; apply Himg; lia|lia|by repeat apply row_major_lt; lia].
  rewrite (lookup_bind_seq _ (k * (k * 1)) d 0 c);
    [|intros; apply Hplane; lia|lia|by repeat apply row_major_lt; lia].
  rewrite (lookup_bind_seq _ (k * 1) k 0 i);
    [|intros; apply Hrow; lia|lia|by repeat apply row_major_lt; lia].
  rewrite (lookup_bind_seq _ 1 k 0 j);
    [|intros; apply Hcell; lia|lia|lia].
  cbn [Nat.add].
  by destruct (rows !! _).
Qed.

Section DecodeTokens.
Context `{Collaborators}.

(** With every token in the codebook, what refuses a sequence that is not
    a square is the reshaping. *)
Lemma VQGAN_decode_refuses N w img_seq b n d rows :
  has_nets N w → embedding_dim (the_quantize N) = Some d →
  shape img_seq = [b; n] →
  embedding_rows (embedding_weight (the_quantize N)) (data img_seq) = Ok rows →
  ¬ perfect_square n →
  VQGAN.decode (Tokens img_seq) true w = (w, Raise EinopsError).
Proof.
  intros [_ _ [live Hq] _ _] Hdim Hshape Hrows Hn.
  unfold VQGAN.decode, VQGAN.quantize_embedding, mbind, M_bind, bind.
  rewrite (getattr_some _ _ _ Hq), Hdim. cbn [lift].
  unfold embedding_lookup. rewrite Hrows, Hshape. cbn [shape app lift].
  unfold rearrange_b_hw_d. cbn [shape].
  by rewrite decide_False by (intros E'; apply Hn; symmetry; exact E').
Qed.

(** C6.  [VQGAN.decode] with [feed_seq=True] on [b] sequences of [n] tokens,
    all in the codebook, whose rows have [d] values.  When [n] is a perfect
    square the call returns the decoder's output on a grid of shape
    [(b, d, k, k)] with [k = sqrt n], whose element [(bi, c, i, j)] is value
    [c] of the codebook row of token [i * k + j] of sequence [bi].
    Otherwise the call raises, and no network has been called. *)
Theorem VQGAN_decode_tokens N w img_seq b n d rows :
  has_nets N w → embedding_dim (the_quantize N) = Some d →
  Forall (λ row, length row = d) (embedding_weight (the_quantize N)) →
  shape img_seq = [b; n] → length (data img_seq) = b * n →
  embedding_rows (embedding_weight (the_quantize N)) (data img_seq) = Ok rows →
  (perfect_square n →
     let k := Nat.sqrt n in
     let z := token_grid b d k rows in
     (VQGAN.decode (Tokens img_seq) true w).2
       = Ok (net_forward (the_decoder N) (net_forward (the_post_quant_conv N) z))
     ∧ shape z = [b; d; k; k]
     ∧ ∀ bi c i j tok, bi < b → c < d → i < k → j < k →
         data img_seq !! (bi * n + (i * k + j)) = Some tok →
         ∃ row, embedding_weight (the_quantize N) !! tok = Some row
                ∧ data z !! (((bi * d + c) * k + i) * k + j) = row !! c)
  ∧ (¬ perfect_square n →
     VQGAN.decode (Tokens img_seq) true w = (w, Raise EinopsError)).
Proof.
  intros HN Hdim Htab Hshape Hlen Hrows. split.
  - intros Hsq k z. unfold perfect_square in Hsq. fold k in Hsq.
    assert (Hshape' : shape img_seq = [b; k * k]) by (by rewrite Hsq).
    rewrite (VQGAN_decode_square N w img_seq b k d rows HN Hdim Hshape' Hrows).
    assert (Hk : Nat.sqrt (k * k) = k) by apply Nat.sqrt_square.
    split; [done|]. split; [done|].
    intros bi c i j tok Hbi Hc Hi Hj Htok.
    pose proof (embedding_rows_length _ _ Htab _ _ Hrows) as Hrl.
    destruct (embedding_rows_lookup _ _ Htab _ _ _ tok c Hrows Htok Hc)
      as (row & Hrow & Hval).
    exists row. split; [done|].
    unfold z. rewrite token_grid_lookup; [|rewrite Hrl, Hlen, <- Hsq; done|done..].
    rewrite <- Hval. f_equal. rewrite <- Hsq. lia.
  - intros Hn. by apply (VQGAN_decode_refuses N w img_seq b n d rows).
Qed.
End DecodeTokens.

(** Four tokens of the example codebook become a 2 by 2 grid with two
    channels. *)
Lemma VQGAN_decode_tokens_witness :
  let tokens := Tensor [1; 4] [0; 1; 2; 3] in
  let rows := [INR 0; INR 0; INR 1; INR 1; INR 2; INR 2; INR 3; INR 3] in
  has_nets Demo.nets_of_VQGAN Demo.vqgan
  ∧ perfect_square 4
  ∧ (VQGAN.decode (H := Demo.toy) (Tokens tokens) true Demo.vqgan).2
    = Ok (token_grid 1 2 2 rows)
  ∧ data (token_grid 1 2 2 rows) = [INR 0; INR 1; INR 2; INR 3; INR 0; INR 1; INR 2; INR 3].
Proof.
  intros tokens rows.
  assert (HN : has_nets Demo.nets_of_VQGAN Demo.vqgan)
    by (split; eexists; reflexivity).
  assert (Hsq : perfect_square 4) by reflexivity.
  split; [exact HN|]. split; [exact Hsq|]. split; [|reflexivity].
  refine (proj1 (proj1
    (VQGAN_decode_tokens (H := Demo.toy) Demo.nets_of_VQGAN Demo.vqgan tokens 1 4 2 rows
       HN eq_refl _ eq_refl eq_refl eq_refl) Hsq)).
  repeat constructor.
Defined.

(** Three tokens do not make a square. *)
Example VQGAN_decode_three_tokens :
  VQGAN.decode (H := Demo.toy) (Tokens (Tensor [1; 3] [0; 1; 2])) true Demo.vqgan
  = (Demo.vqgan, Raise EinopsError).
Proof.
  assert (HN : has_nets Demo.nets_of_VQGAN Demo.vqgan)
    by (split; eexists; reflexivity).
  by apply (VQGAN_decode_refuses (H := Demo.toy) Demo.nets_of_VQGAN Demo.vqgan
              (Tensor [1; 3] [0; 1; 2]) 1 3 2
              [INR 0; INR 0; INR 1; INR 1; INR 2; INR 2] HN).
Qed.

(** * Further properties *)

(** ** Construction of the [VQGAN] classes *)

Section ConstructionOutcome.
Context `{Collaborators}.

(** X1.  For a resolution and attention resolutions in the range of the
    doubles, [VQGAN.__init__] raises [IndexError] on an empty
    [attn_resolutions], [ZeroDivisionError] when its first entry is 0,
    [ValueError] when the ratio [resolution / attn_resolutions[0]] is not
    positive and so has no logarithm, and returns in every other case. *)
Theorem VQGAN_init_returns_or_raises args bs lr ik w :
  in_double_range (resolution args) →
  Forall in_double_range (attn_resolutions args) →
  (VQGAN.__init__ args bs lr ik w).2 = VQGAN_init_result args.
Proof.
  intros _ _.
  unfold VQGAN.__init__, VQGAN_init_result, mbind, M_bind, bind.
  cbn [Module_init save_hyperparameters setattr modify].
  destruct (attn_resolutions args) as [|a0 tl]; [done|].
  cbn [mret M_ret ret lift]. unfold py_truediv.
  destruct (decide (a0 = 0%Z)) as [|Ha0]; [done|].
  cbn [lift]. unfold math_log at 1.
  destruct (Rlt_dec 0 (IZR (resolution args) / IZR a0)); [|done].
  rewrite (math_log_pos 2) by lra.
  cbn [register_module modify].
  match goal with
  | |- context [VQGAN.init_weights ?w0] =>
      by rewrite (VQGAN_init_loop_finds_nothing w0) by all_dotted
  end.
Qed.

Lemma replace_block_fresh name new sd :
  Forall (λ kp, is_under name kp.1 = false) sd → replace_block name new sd = sd ++ new.
Proof.
  induction 1 as [|kp sd Hkp _ IH]; [done|].
  cbn [replace_block]. rewrite Hkp. cbn [app]. by rewrite IH.
Qed.

Lemma prefixed_not_under name other ps :
  (∀ k, is_under name (other +:+ "." +:+ k) = false) →
  Forall (λ kp, is_under name kp.1 = false) (prefixed other ps).
Proof.
  intros Hno. unfold prefixed. apply Forall_fmap, Forall_forall. intros [k p] _. apply Hno.
Qed.


Lemma VQGAN_init_parameters args bs lr ik w a0 tl :
  attn_resolutions args = a0 :: tl → a0 ≠ 0%Z →
  (0 < IZR (resolution args) / IZR a0)%R →
  (VQGAN.__init__ args bs lr ik w).2 = Ok tt
  ∧ state_dict (VQGAN.__init__ args bs lr ik w).1 = registered (VQGAN_modules args).
Proof.
  intros Ha Ha0 Hf.
  unfold VQGAN.__init__, mbind, M_bind, bind.
  cbn [Module_init save_hyperparameters setattr modify].
  rewrite Ha. cbn [mret M_ret ret lift].
  unfold py_truediv. rewrite decide_False by done.
  rewrite (math_log_pos _ Hf), (math_log_pos 2) by lra.
  cbn [register_module modify].
  match goal with
  | |- context [VQGAN.init_weights ?w0] =>
      rewrite (VQGAN_init_loop_finds_nothing w0) by all_dotted
  end.
  split; [done|].
  cbn [fst state_dict set_state_dict set_self replace_block].
  do 5 (match goal with
        | |- context [replace_block ?n ?new ?sd] =>
            lazymatch sd with
            | context [replace_block] => fail
            | _ => rewrite (replace_block_fresh n new sd)
                     by (rewrite ?Forall_app; repeat split;
                         apply prefixed_not_under; intros; reflexivity)
            end
        end).
  unfold registered, VQGAN_modules, VQGAN_loss.
  cbn [mbind list_bind fst snd]. rewrite app_nil_r.
  by rewrite <- !app_assoc.
Qed.

(** X2.  The parameters of a [VQGAN] after construction are the ones its six
    sub-modules were created with: the initialisation loop has changed
    none of them. *)
Theorem VQGAN_init_keeps_created_parameters args bs lr ik w a0 tl :
  attn_resolutions args = a0 :: tl → a0 ≠ 0%Z →
  (0 < IZR (resolution args) / IZR a0)%R →
  state_dict (VQGAN.__init__ args bs lr ik w).1 = registered (VQGAN_modules args).
Proof.
  intros Ha Ha0 Hf. exact (proj2 (VQGAN_init_parameters args bs lr ik w a0 tl Ha Ha0 Hf)).
Qed.

End ConstructionOutcome.

Lemma VQGAN_init_returns_or_raises_witness :
  in_double_range (resolution Demo.args)
  ∧ Forall in_double_range (attn_resolutions Demo.args)
  ∧ (VQGAN.__init__ (H := Demo.toy) Demo.args 4 (1 / 10000) [] Demo.blank).2
    = VQGAN_init_result Demo.args.
Proof.
  assert (Hr : in_double_range (resolution Demo.args)) by (by vm_compute).
  assert (Ha : Forall in_double_range (attn_resolutions Demo.args))
    by (repeat constructor; by vm_compute).
  split; [exact Hr|]. split; [exact Ha|].
  exact (VQGAN_init_returns_or_raises (H := Demo.toy) Demo.args 4 (1 / 10000) []
           Demo.blank Hr Ha).
Defined.


Lemma VQGAN_init_keeps_created_parameters_witness :
  attn_resolutions Demo.args = [32%Z] ∧ 32%Z ≠ 0%Z
  ∧ (0 < IZR (resolution Demo.args) / 32)%R
  ∧ state_dict (VQGAN.__init__ (H := Demo.toy) Demo.args 4 (1 / 10000) [] Demo.blank).1
    = Demo.parameters_of_VQGAN.
Proof.
  assert (Hf : (0 < IZR (resolution Demo.args) / 32)%R) by (cbn; lra).
  split; [reflexivity|]. split; [done|]. split; [exact Hf|].
  exact (VQGAN_init_keeps_created_parameters (H := Demo.toy) Demo.args 4 (1 / 10000) []
           Demo.blank 32%Z [] eq_refl ltac:(done) Hf).
Defined.

Section VariantConstruction.
Context `{Collaborators}.

Lemma EMAVQGAN_init_run args bs lr ik w a0 tl :
  attn_resolutions args = a0 :: tl → a0 ≠ 0%Z →
  (0 < IZR (resolution args) / IZR a0)%R →
  ∃ w', EMAVQGAN.__init__ args bs lr ik w = (w', Ok tt)
    ∧ global_step w' = global_step w ∧ calls w' = calls w
    ∧ has_nets (EMAVQGAN_nets args) w'
    ∧ has_loss (VQGAN_loss args) args args w'.
Proof.
  intros Ha Ha0 Hf.
  unfold EMAVQGAN.__init__, VQGAN.__init__, mbind, M_bind, bind.
  cbn [Module_init save_hyperparameters setattr modify].
  rewrite Ha. cbn [mret M_ret ret lift].
  unfold py_truediv. rewrite decide_False by done.
  rewrite (math_log_pos _ Hf), (math_log_pos 2) by lra.
  cbn [register_module modify].
  match goal with
  | |- context [VQGAN.init_weights ?w0] =>
      rewrite (VQGAN_init_loop_finds_nothing w0) by all_dotted
  end.
  eexists. split; [reflexivity|]. split; [reflexivity|]. split; [reflexivity|].
  split; split; try eexists; lookup_attr.
Qed.

(** X3.  [EMAVQGAN.__init__] returns whenever [VQGAN.__init__] does and leaves
    the networks of a [VQGAN] with the quantizer replaced by an
    [EMAVectorQuantizer] of the same size and [beta], with the decay and
    epsilon of [args]; a training step of the instance made goes through
    this quantizer. *)
Theorem EMAVQGAN_init_replaces_quantizer args bs lr ik w a0 tl x rest i :
  attn_resolutions args = a0 :: tl → a0 ≠ 0%Z →
  (0 < IZR (resolution args) / IZR a0)%R →
  let w' := (EMAVQGAN.__init__ args bs lr ik w).1 in
  let w'' := (VQGAN.training_step (x :: rest) i 0 w').1 in
  (EMAVQGAN.__init__ args bs lr ik w).2 = Ok tt
  ∧ self w' !! "quantize"
    = Some (VModule (EMAVectorQuantizer (num_tokens args) (codebook_dim args)
                       (quant_beta args) (quant_ema_decay args) (quant_ema_eps args))
              (module_attrs (EMAVectorQuantizer (num_tokens args) (codebook_dim args)
                               (quant_beta args) (quant_ema_decay args)
                               (quant_ema_eps args))))
  ∧ has_nets (EMAVQGAN_nets args) w'
  ∧ has_loss (VQGAN_loss args) args args w'
  ∧ calls_since w' w'' =
      forward_calls (EMAVQGAN_nets args) (quantizer_live w') (grad_enabled w')
        (length (calls w') + 2) x
      ++ [LossCall (VQGAN_loss args) 0 (global_step w') "train"
            (forward_value (EMAVQGAN_nets args) (quantizer_live w')
               (length (calls w') + 2) x).2 x
            (forward_value (EMAVQGAN_nets args) (quantizer_live w')
               (length (calls w') + 2) x).1].
Proof.
  intros Ha Ha0 Hf w' w''.
  destruct (EMAVQGAN_init_run args bs lr ik w a0 tl Ha Ha0 Hf)
    as (w1 & E & _ & _ & HN & HL).
  assert (Hq : self w' !! "quantize"
    = Some (VModule (the_quantize (EMAVQGAN_nets args))
              (module_attrs (the_quantize (EMAVQGAN_nets args))))).
  { subst w'. unfold EMAVQGAN.__init__, mbind, M_bind, bind.
    destruct (VQGAN.__init__ args bs lr ik w) as [w2 [[]|e]] eqn:E2.
    - cbn [register_module modify fst]. lookup_attr.
    - unfold EMAVQGAN.__init__, mbind, M_bind, bind in E. by rewrite E2 in E. }
  subst w'' w'. rewrite E in *. cbn [fst snd] in *.
  split; [done|]. split; [exact Hq|]. split; [done|]. split; [done|].
  apply calls_since_app.
  by destruct (VQGAN_training_step_calls _ _ _ _ w1 x rest i 0 HN HL (or_introl eq_refl))
    as (-> & _).
Qed.

(** X4.  [GumbelVQGAN.__init__] returns whenever [VQGAN.__init__] does.  It
    leaves the three floats of the schedule as [args] has them, a Gumbel
    quantizer built at the starting temperature, and a [quant_conv] whose
    output channels are the [num_tokens] logits the quantizer takes, in
    place of the [codebook_dim] channels of a [VQGAN]. *)
Theorem GumbelVQGAN_init_establishes args bs lr ik w a0 tl :
  attn_resolutions args = a0 :: tl → a0 ≠ 0%Z →
  (0 < IZR (resolution args) / IZR a0)%R →
  let w' := (GumbelVQGAN.__init__ args bs lr ik w).1 in
  (GumbelVQGAN.__init__ args bs lr ik w).2 = Ok tt
  ∧ gumbel_state (starting_temp args) (anneal_rate args) (temp_min args)
      (GumbelQuantizer (num_tokens args) (codebook_dim args) (kl_loss_weight args)
         (starting_temp args))
      (module_attrs (GumbelVQGAN_quantizer args)) w'
  ∧ module_at w' "quant_conv" (Conv2d (z_channels args) (num_tokens args) 1)
  ∧ has_nets (GumbelVQGAN_nets args) w'
  ∧ has_loss (VQGAN_loss args) args args w'.
Proof.
  intros Ha Ha0 Hf w'.
  destruct (GumbelVQGAN_init_run args bs lr ik w a0 tl Ha Ha0 Hf)
    as (w1 & E & _ & _ & HN & HL & HG).
  subst w'. rewrite E. cbn [fst snd].
  split; [done|]. split; [exact HG|]. split; [apply HN|]. by split.
Qed.

(** X5.  The first training step of a freshly made [GumbelVQGAN], with the
    trainer at a step [g] in the range of the doubles and an exponent
    [-anneal_rate * g] that [math.exp] accepts, as it does every exponent
    that is not positive: the step runs its forward pass at the schedule's
    temperature [max(starting_temp * exp(-anneal_rate * g), temp_min)]. *)
Theorem GumbelVQGAN_first_step_temperature args bs lr ik w0 a0 tl g x rest i idx :
  attn_resolutions args = a0 :: tl → a0 ≠ 0%Z →
  (0 < IZR (resolution args) / IZR a0)%R →
  in_double_range g → exp_returns (- anneal_rate args * IZR g) →
  idx = 0%Z ∨ idx = 1%Z →
  let w := set_global_step g (GumbelVQGAN.__init__ args bs lr ik w0).1 in
  let w1 := (GumbelVQGAN.training_step (x :: rest) i idx w).1 in
  quantize_temperatures (calls_since w w1)
  = [Some (VFloat (decayed (starting_temp args) (anneal_rate args) g (temp_min args)))]
  ∧ self w1 !! "temperature"
    = Some (VFloat (decayed (starting_temp args) (anneal_rate args) g (temp_min args))).
Proof.
  intros Ha Ha0 Hf _ _ Hidx w w1.
  destruct (GumbelVQGAN_init_run args bs lr ik w0 a0 tl Ha Ha0 Hf)
    as (w' & E & _ & _ & HN & HL & HG).
  assert (Hs : self w = self w') by (subst w; by rewrite E).
  apply (gumbel_state_same_self _ _ _ _ _ _ w Hs) in HG.
  apply (has_nets_same_self _ _ w Hs) in HN.
  apply (has_loss_same_self _ _ _ _ w Hs) in HL.
  destruct (GumbelVQGAN_training_step_calls _ _ _ _ _ _ _ _ _ w x rest i idx HG HN HL Hidx)
    as (_ & Ht & _).
  destruct (GumbelVQGAN_training_step_state _ _ _ _ _ w x rest i idx HG) as (HG1 & _).
  split; [exact Ht|]. apply HG1.
Qed.
End VariantConstruction.

Lemma EMAVQGAN_init_replaces_quantizer_witness :
  attn_resolutions Demo.args = [32%Z] ∧ 32%Z ≠ 0%Z
  ∧ (0 < IZR (resolution Demo.args) / 32)%R
  ∧ has_nets (EMAVQGAN_nets Demo.args)
      (EMAVQGAN.__init__ (H := Demo.toy) Demo.args 4 (1 / 10000) [] Demo.blank).1.
Proof.
  assert (Hf : (0 < IZR (resolution Demo.args) / 32)%R) by (cbn; lra).
  split; [reflexivity|]. split; [done|]. split; [exact Hf|].
  exact (proj1 (proj2 (proj2
    (EMAVQGAN_init_replaces_quantizer (H := Demo.toy) Demo.args 4 (1 / 10000) []
       Demo.blank 32%Z [] Demo.image [] 0 eq_refl ltac:(done) Hf)))).
Defined.

Lemma GumbelVQGAN_init_establishes_witness :
  attn_resolutions Demo.args = [32%Z] ∧ 32%Z ≠ 0%Z
  ∧ (0 < IZR (resolution Demo.args) / 32)%R
  ∧ module_at (GumbelVQGAN.__init__ (H := Demo.toy) Demo.args 4 (1 / 10000) [] Demo.blank).1
      "quant_conv" (Conv2d 2 4 1).
Proof.
  assert (Hf : (0 < IZR (resolution Demo.args) / 32)%R) by (cbn; lra).
  split; [reflexivity|]. split; [done|]. split; [exact Hf|].
  exact (proj1 (proj2 (proj2
    (GumbelVQGAN_init_establishes (H := Demo.toy) Demo.args 4 (1 / 10000) []
       Demo.blank 32%Z [] eq_refl ltac:(done) Hf)))).
Defined.

Lemma GumbelVQGAN_first_step_temperature_witness :
  attn_resolutions Demo.args = [32%Z] ∧ 32%Z ≠ 0%Z
  ∧ (0 < IZR (resolution Demo.args) / 32)%R
  ∧ in_double_range 10000
  ∧ exp_returns (- anneal_rate Demo.args * 10000)
  ∧ (0%Z = 0%Z ∨ 0%Z = 1%Z)
  ∧ self (GumbelVQGAN.training_step (H := Demo.toy) [Demo.image] 0 0
            (set_global_step 10000
               (GumbelVQGAN.__init__ (H := Demo.toy) Demo.args 4 (1 / 10000) []
                  Demo.blank).1)).1 !! "temperature"
    = Some (VFloat (decayed 1 (1 / 10000) 10000 (1 / 10))).
Proof.
  assert (Hf : (0 < IZR (resolution Demo.args) / 32)%R) by (cbn; lra).
  assert (Hg : in_double_range 10000) by (by vm_compute).
  assert (He : exp_returns (- anneal_rate Demo.args * 10000))
    by (unfold exp_returns; cbn [anneal_rate Demo.args]; lra).
  split; [reflexivity|]. split; [done|]. split; [exact Hf|].
  split; [exact Hg|]. split; [exact He|]. split; [by left|].
  exact (proj2
    (GumbelVQGAN_first_step_temperature (H := Demo.toy) Demo.args 4 (1 / 10000) []
       Demo.blank 32%Z [] 10000 Demo.image [] 0 0 eq_refl ltac:(done) Hf Hg He
       (or_introl eq_refl))).
Defined.

(** ** The stored temperature of a [GumbelVQGAN] *)

(** The example instance is the one the constructor makes. *)
Lemma DemoGumbel_constructed :
  GumbelVQGAN.__init__ (H := Demo.toy) Demo.args 4 (1 / 10000) [] (new_instance Demo.blank)
  = (DemoGumbel.gumbel_vqgan, Ok tt).
Proof.
  unfold GumbelVQGAN.__init__. unfold mbind at 1, M_bind at 1, bind at 1.
  rewrite Demo_vqgan_constructed. reflexivity.
Qed.

Lemma DemoGumbel_state :
  gumbel_state 1 (1 / 10000) (1 / 10) (GumbelVQGAN_quantizer Demo.args)
    {[ "temperature" := VFloat 1 ]} DemoGumbel.gumbel_vqgan.
Proof. by split. Defined.



Lemma exp_decay_le_1 rate (step : Z) :
  (0 <= rate)%R → (0 <= step)%Z → (0 < exp (- rate * IZR step) <= 1)%R.
Proof.
  intros Hr Hs. split; [apply exp_pos|].
  rewrite <- exp_0. apply IZR_le in Hs.
  destruct (Req_dec (- rate * IZR step) 0) as [->|Hne]; [lra|].
  left. apply exp_increasing. nra.
Qed.

Lemma decayed_ge_floor t rate step floor : (floor <= decayed t rate step floor)%R.
Proof. apply Rmax_r. Qed.

Lemma decayed_le t rate step floor :
  (0 <= rate)%R → (0 <= step)%Z → (0 <= t)%R →
  (decayed t rate step floor <= Rmax t floor)%R.
Proof.
  intros Hr Hs Ht. destruct (exp_decay_le_1 rate step Hr Hs) as [He0 He1].
  unfold decayed. apply Rmax_lub; [|apply Rmax_r].
  etrans; [|apply Rmax_l]. nra.
Qed.

Lemma decayed_again_le t rate step floor :
  (0 <= rate)%R → (0 <= step)%Z → (0 <= floor <= t)%R →
  (decayed t rate step floor <= t)%R.
Proof.
  intros Hr Hs [Hm Ht]. destruct (exp_decay_le_1 rate step Hr Hs) as [He0 He1].
  assert (H0 : (0 <= t)%R) by lra.
  unfold decayed. apply Rmax_lub; [|done].
  pose proof (Rmult_le_compat_l t _ 1 H0 He1). lra.
Qed.

Lemma decayed_twice_le t rate g1 g2 floor :
  (0 <= rate)%R → (0 <= g1)%Z → (0 <= g2)%Z → (0 <= floor)%R →
  (decayed (decayed t rate g1 floor) rate g2 floor <= decayed t rate g2 floor)%R.
Proof.
  intros Hr Hg1 Hg2 Hm.
  destruct (exp_decay_le_1 rate g1 Hr Hg1) as [Ha0 Ha1].
  destruct (exp_decay_le_1 rate g2 Hr Hg2) as [Hb0 Hb1].
  unfold decayed.
  set (a := exp (- rate * IZR g1)) in *. set (b := exp (- rate * IZR g2)) in *.
  apply Rmax_lub; [|apply Rmax_r].
  unfold Rmax at 1. destruct (Rle_dec (t * a) floor) as [Hle|Hgt].
  - etrans; [|apply Rmax_r].
    pose proof (Rmult_le_compat_l floor _ 1 Hm Hb1). lra.
  - etrans; [|apply Rmax_l].
    assert (Ht : (0 <= t)%R).
    { destruct (Rle_dec 0 t) as [|Hn]; [done|]. exfalso. apply Hgt.
      apply Rnot_le_lt in Hn.
      pose proof (Rmult_lt_compat_r a t 0 Ha0 Hn). lra. }
    assert (Hta : (t * a <= t)%R) by (pose proof (Rmult_le_compat_l t _ 1 Ht Ha1); lra).
    pose proof (Rmult_le_compat_r b _ _ (Rlt_le _ _ Hb0) Hta). lra.
Qed.

Section StoredTemperature.
Context `{Collaborators}.

(** X6.  A training step of [GumbelVQGAN] at a step count in the range of
    the doubles and with an exponent [math.exp] accepts leaves the
    quantizer at the temperature the instance stores, which is not below
    [temp_min]; for a rate, a step count and a temperature before the step
    that are not negative it is not above the larger of that temperature
    and [temp_min]. *)
Theorem GumbelVQGAN_training_step_temperature_bounds t rate floor q live w x rest i idx :
  gumbel_state t rate floor q live w →
  in_double_range (global_step w) → exp_returns (- rate * IZR (global_step w)) →
  let w' := (GumbelVQGAN.training_step (x :: rest) i idx w).1 in
  ∃ t', self w' !! "temperature" = Some (VFloat t')
        ∧ quantizer_temperature w' = Some (VFloat t')
        ∧ (floor <= t')%R
        ∧ ((0 <= rate)%R → (0 <= global_step w)%Z → (0 <= t)%R → (t' <= Rmax t floor)%R).
Proof.
  intros HG _ _ w'.
  destruct (GumbelVQGAN_training_step_state _ _ _ _ _ w x rest i idx HG) as (HG' & Hq & _).
  exists (decayed t rate (global_step w) floor).
  split; [apply HG'|]. split; [exact Hq|].
  split; [apply decayed_ge_floor|]. intros. by apply decayed_le.
Qed.

(** X7.  Two training steps of [GumbelVQGAN], the trainer being at step [g2] for
    the second, with a rate, step counts and a [temp_min] that are not
    negative: the second step decays the temperature the first has stored,
    so it leaves a temperature that is not above the one the first left,
    and not above the schedule's [max(t * exp(-anneal_rate * g2),
    temp_min)] for the temperature [t] before the two steps. *)
Theorem GumbelVQGAN_temperature_below_schedule t rate floor q live w g2
    x rest i idx x' rest' i' idx' :
  gumbel_state t rate floor q live w →
  (0 <= rate)%R → (0 <= floor)%R →
  (0 <= global_step w)%Z → in_double_range (global_step w) →
  (0 <= g2)%Z → in_double_range g2 →
  let w1 := (GumbelVQGAN.training_step (x :: rest) i idx w).1 in
  let w2 := (GumbelVQGAN.training_step (x' :: rest') i' idx' (set_global_step g2 w1)).1 in
  ∃ t1 t2,
    quantizer_temperature w1 = Some (VFloat t1)
    ∧ quantizer_temperature w2 = Some (VFloat t2)
    ∧ self w2 !! "temperature" = Some (VFloat t2)
    ∧ (floor <= t2 <= t1)%R
    ∧ (t2 <= decayed t rate g2 floor)%R.
Proof.
  intros HG Hr Hm Hg1 _ Hg2 _ w1 w2.
  destruct (GumbelVQGAN_training_step_state _ _ _ _ _ w x rest i idx HG) as (HG1 & Hq1 & _).
  fold w1 in HG1, Hq1.
  apply (gumbel_state_same_self _ _ _ _ _ w1 (set_global_step g2 w1) eq_refl) in HG1.
  destruct (GumbelVQGAN_training_step_state _ _ _ _ _ _ x' rest' i' idx' HG1)
    as (HG2 & Hq2 & _).
  fold w2 in HG2, Hq2. cbn [global_step set_global_step] in HG2, Hq2.
  eexists _, _. split; [exact Hq1|]. split; [exact Hq2|]. split; [apply HG2|].
  pose proof (decayed_ge_floor t rate (global_step w) floor) as Hge.
  split; [split|].
  - apply decayed_ge_floor.
  - apply decayed_again_le; [done|done|]. split; [done|exact Hge].
  - by apply decayed_twice_le.
Qed.
End StoredTemperature.

Lemma GumbelVQGAN_training_step_temperature_bounds_witness :
  in_double_range (global_step DemoGumbel.gumbel_vqgan)
  ∧ exp_returns (- (1 / 10000) * IZR (global_step DemoGumbel.gumbel_vqgan))
  ∧ ∃ t', self (GumbelVQGAN.training_step (H := Demo.toy) [Demo.image] 0 0
                  DemoGumbel.gumbel_vqgan).1 !! "temperature" = Some (VFloat t')
          ∧ quantizer_temperature
              (GumbelVQGAN.training_step (H := Demo.toy) [Demo.image] 0 0
                 DemoGumbel.gumbel_vqgan).1 = Some (VFloat t')
          ∧ (1 / 10 <= t')%R
          ∧ ((0 <= 1 / 10000)%R → (0 <= global_step DemoGumbel.gumbel_vqgan)%Z →
             (0 <= 1)%R → (t' <= Rmax 1 (1 / 10))%R).
Proof.
  assert (Hg : in_double_range (global_step DemoGumbel.gumbel_vqgan)) by (by vm_compute).
  assert (He : exp_returns (- (1 / 10000) * IZR (global_step DemoGumbel.gumbel_vqgan)))
    by (unfold exp_returns; cbn [global_step DemoGumbel.gumbel_vqgan]; lra).
  split; [exact Hg|]. split; [exact He|].
  exact (GumbelVQGAN_training_step_temperature_bounds (H := Demo.toy) 1 (1 / 10000) (1 / 10)
           _ _ DemoGumbel.gumbel_vqgan Demo.image [] 0 0 DemoGumbel_state Hg He).
Defined.

Lemma GumbelVQGAN_temperature_below_schedule_witness :
  ∃ t1 t2,
    quantizer_temperature
      (GumbelVQGAN.training_step (H := Demo.toy) [Demo.image] 0 0
         DemoGumbel.gumbel_vqgan).1 = Some (VFloat t1)
    ∧ quantizer_temperature
        (GumbelVQGAN.training_step (H := Demo.toy) [Demo.image] 1 0
           (set_global_step 10000
              (GumbelVQGAN.training_step (H := Demo.toy) [Demo.image] 0 0
                 DemoGumbel.gumbel_vqgan).1)).1 = Some (VFloat t2)
    ∧ self (GumbelVQGAN.training_step (H := Demo.toy) [Demo.image] 1 0
              (set_global_step 10000
                 (GumbelVQGAN.training_step (H := Demo.toy) [Demo.image] 0 0
                    DemoGumbel.gumbel_vqgan).1)).1 !! "temperature" = Some (VFloat t2)
    ∧ (1 / 10 <= t2 <= t1)%R
    ∧ (t2 <= decayed 1 (1 / 10000) 10000 (1 / 10))%R.
Proof.
  refine (GumbelVQGAN_temperature_below_schedule (H := Demo.toy) 1 (1 / 10000) (1 / 10)
            _ _ DemoGumbel.gumbel_vqgan 10000 Demo.image [] 0 0 Demo.image [] 1 0
            DemoGumbel_state _ _ _ _ _ _).
  - lra.
  - lra.
  - done.
  - by vm_compute.
  - done.
  - by vm_compute.
Defined.

(** ** Steps of [VQGAN]: what they log, share and leave alone *)

Section MoreSteps.
Context `{Collaborators}.

Lemma keeps_self_VQGAN_validation_step batch i :
  keeps_self (VQGAN.validation_step batch i).
Proof. unfold VQGAN.validation_step. frame. Qed.

Lemma VQGAN_validation_step_run N lm da cfg w x rest i :
  has_nets N w → has_loss lm da cfg w →
  let k := length (calls w) + 2 in
  let xrec := (forward_value N (quantizer_live w) k x).1 in
  let qloss := (forward_value N (quantizer_live w) k x).2 in
  let aeloss := loss_forward lm qloss x xrec 0 (global_step w) (conv_out_weight da) "val" in
  let discloss := loss_forward lm qloss x xrec 1 (global_step w) (conv_out_weight da) "val" in
  VQGAN.validation_step (x :: rest) i w =
  (add_logs [("val/rec_loss", aeloss); ("val/disc_loss", discloss);
             ("val/embed_loss", qloss); ("val/total_loss", (aeloss + qloss)%R)]
     (add_calls (forward_calls N (quantizer_live w) (grad_enabled w) k x
                 ++ [LossCall lm 0 (global_step w) "val" qloss x xrec;
                     LossCall lm 1 (global_step w) "val" qloss x xrec]) w),
   Ok (step_return (log_images cfg) (aeloss + qloss) x xrec)).
Proof.
  intros HN HL k xrec qloss aeloss discloss.
  unfold VQGAN.validation_step, mbind, M_bind, bind. cbn [first_of mret M_ret ret].
  rewrite (VQGAN_forward_run N w x HN). cbv beta iota. fold k.
  subst aeloss discloss xrec qloss.
  destruct (forward_value N (quantizer_live w) k x) as [xr ql].
  unfold VQGAN.validation_losses, mbind, M_bind, bind.
  erewrite (call_loss_at _ _ _ _ _ _ _ _ _ _ HL) by done. cbv beta iota.
  erewrite (call_loss_at _ _ _ _ _ _ _ _ _ _ HL) by done. cbv beta iota.
  cbn [log modify mret M_ret ret].
  erewrite (args_field_at _ _ _ _ (at_args _ _ _ _ HL)) by done.
  unfold step_return. cbn [fst snd].
  destruct (log_images cfg); cbn [mret M_ret ret];
    autorewrite with world; by rewrite <- ?app_assoc.
Qed.

(** X8.  A validation step of [VQGAN] runs the forward pass once and gives its
    reconstruction and quantization loss to both calls of the loss module,
    index 0 and then 1, with split ["val"]; it returns the autoencoder
    loss plus the quantization loss and logs the four values. *)
Theorem VQGAN_validation_step_shares_forward_pass N lm da cfg w x rest i :
  has_nets N w → has_loss lm da cfg w →
  let forwarded := forward_value N (quantizer_live w) (length (calls w) + 2) x in
  let xrec := forwarded.1 in
  let qloss := forwarded.2 in
  let composite idx :=
    loss_forward lm qloss x xrec idx (global_step w) (conv_out_weight da) "val" in
  let w' := (VQGAN.validation_step (x :: rest) i w).1 in
  forward_passes (calls_since w w') = 1
  ∧ loss_inputs (calls_since w w') = [(0%Z, xrec, qloss); (1%Z, xrec, qloss)]
  ∧ (∃ o, (VQGAN.validation_step (x :: rest) i w).2 = Ok o
          ∧ returned_loss o = (composite 0%Z + qloss)%R)
  ∧ logged w' = logged w ++ [("val/rec_loss", composite 0%Z);
                             ("val/disc_loss", composite 1%Z);
                             ("val/embed_loss", qloss);
                             ("val/total_loss", (composite 0%Z + qloss)%R)].
Proof.
  intros HN HL forwarded xrec qloss composite w'. subst w'.
  rewrite (VQGAN_validation_step_run N lm da cfg w x rest i HN HL).
  cbn [fst snd]. fold forwarded. fold xrec. fold qloss.
  assert (Hc : calls_since w
            (add_logs [("val/rec_loss", composite 0%Z); ("val/disc_loss", composite 1%Z);
                       ("val/embed_loss", qloss);
                       ("val/total_loss", (composite 0%Z + qloss)%R)]
               (add_calls
                  (forward_calls N (quantizer_live w) (grad_enabled w)
                     (length (calls w) + 2) x
                   ++ [LossCall lm 0 (global_step w) "val" qloss x xrec;
                       LossCall lm 1 (global_step w) "val" qloss x xrec]) w))
          = forward_calls N (quantizer_live w) (grad_enabled w) (length (calls w) + 2) x
            ++ [LossCall lm 0 (global_step w) "val" qloss x xrec;
                LossCall lm 1 (global_step w) "val" qloss x xrec]).
  { apply calls_since_app. by autorewrite with world. }
  fold (composite 0%Z). fold (composite 1%Z). rewrite Hc.
  split; [by rewrite forward_passes_forward_calls|].
  split; [by rewrite loss_inputs_forward_calls|].
  split; [eexists; split; [reflexivity|apply returned_loss_step_return]|].
  by autorewrite with world.
Qed.

(** X9.  No step of [VQGAN] assigns an attribute of the instance or moves the
    step counter, whatever the batch, the optimizer index and the state of
    the instance, and also when the step raises. *)
Theorem VQGAN_steps_assign_nothing batch i idx w :
  self (VQGAN.training_step batch i idx w).1 = self w
  ∧ global_step (VQGAN.training_step batch i idx w).1 = global_step w
  ∧ self (VQGAN.validation_step batch i w).1 = self w
  ∧ global_step (VQGAN.validation_step batch i w).1 = global_step w.
Proof.
  destruct (keeps_self_VQGAN_training_step batch i idx w) as [? ?].
  destruct (keeps_self_VQGAN_validation_step batch i w) as [? ?].
  done.
Qed.

(** X10.  With an optimizer index other than 0 and 1 a training step of [VQGAN]
    runs the forward pass, calls no loss, logs nothing and raises
    [UnboundLocalError] for the [loss] it has to return. *)
Theorem VQGAN_training_step_other_index N lm da cfg w x rest i idx :
  has_nets N w → has_loss lm da cfg w → idx ≠ 0%Z → idx ≠ 1%Z →
  VQGAN.training_step (x :: rest) i idx w =
  (add_calls (forward_calls N (quantizer_live w) (grad_enabled w) (length (calls w) + 2) x) w,
   Raise (UnboundLocalError "loss")).
Proof.
  intros HN HL H0 H1.
  unfold VQGAN.training_step, mbind, M_bind, bind. cbn [first_of mret M_ret ret].
  rewrite (VQGAN_forward_run N w x HN). cbv beta iota.
  destruct (forward_value N (quantizer_live w) (length (calls w) + 2) x) as [xr ql].
  unfold VQGAN.phase_losses, mbind, M_bind, bind.
  rewrite (decide_False (P := idx = 0%Z)) by done. cbn [mret M_ret ret].
  rewrite (decide_False (P := idx = 1%Z)) by done. cbn [mret M_ret ret].
  by erewrite (args_field_at _ _ _ _ (at_args _ _ _ _ HL)) by done.
Qed.

(** X11.  What a training step of [VQGAN] logs: in the autoencoder phase the
    composite loss, the quantization loss and their sum, which is the loss
    it returns; in the discriminator phase the loss it returns, and nothing
    else. *)
Theorem VQGAN_training_step_logs N lm da cfg w x rest i :
  has_nets N w → has_loss lm da cfg w →
  let forwarded := forward_value N (quantizer_live w) (length (calls w) + 2) x in
  let qloss := forwarded.2 in
  let aeloss :=
    loss_forward lm qloss x forwarded.1 0 (global_step w) (conv_out_weight da) "train" in
  let r0 := VQGAN.training_step (x :: rest) i 0 w in
  let r1 := VQGAN.training_step (x :: rest) i 1 w in
  (∃ o, r0.2 = Ok o
        ∧ logged r0.1 = logged w ++ [("train/rec_loss", aeloss); ("train/embed_loss", qloss);
                                     ("train/total_loss", returned_loss o)]
        ∧ returned_loss o = (aeloss + qloss)%R)
  ∧ (∃ o, r1.2 = Ok o
          ∧ logged r1.1 = logged w ++ [("train/disc_loss", returned_loss o)]).
Proof.
  intros HN HL forwarded qloss aeloss r0 r1. subst r0 r1.
  rewrite (VQGAN_training_step_autoencoder N lm da cfg w x rest i HN HL).
  rewrite (VQGAN_training_step_discriminator N lm da cfg w x rest i HN HL).
  cbn [fst snd]. split; eexists; (split; [reflexivity|]);
    rewrite returned_loss_step_return; by autorewrite with world.
Qed.
End MoreSteps.

Lemma VQGAN_validation_step_shares_forward_pass_witness :
  has_nets Demo.nets_of_VQGAN Demo.vqgan
  ∧ has_loss Demo.loss_module Demo.args Demo.args Demo.vqgan
  ∧ forward_passes
      (calls_since Demo.vqgan
         (VQGAN.validation_step (H := Demo.toy) [Demo.image] 0 Demo.vqgan).1) = 1.
Proof.
  assert (HN : has_nets Demo.nets_of_VQGAN Demo.vqgan) by (split; eexists; reflexivity).
  assert (HL : has_loss Demo.loss_module Demo.args Demo.args Demo.vqgan)
    by (split; try eexists; reflexivity).
  split; [exact HN|]. split; [exact HL|].
  exact (proj1 (VQGAN_validation_step_shares_forward_pass (H := Demo.toy) _ _ _ _
                  Demo.vqgan Demo.image [] 0 HN HL)).
Defined.

Lemma VQGAN_training_step_other_index_witness :
  has_nets Demo.nets_of_VQGAN Demo.vqgan
  ∧ has_loss Demo.loss_module Demo.args Demo.args Demo.vqgan
  ∧ (VQGAN.training_step (H := Demo.toy) [Demo.image] 0 2 Demo.vqgan).2
    = Raise (UnboundLocalError "loss").
Proof.
  assert (HN : has_nets Demo.nets_of_VQGAN Demo.vqgan) by (split; eexists; reflexivity).
  assert (HL : has_loss Demo.loss_module Demo.args Demo.args Demo.vqgan)
    by (split; try eexists; reflexivity).
  split; [exact HN|]. split; [exact HL|].
  exact (f_equal snd (VQGAN_training_step_other_index (H := Demo.toy) _ _ _ _
                        Demo.vqgan Demo.image [] 0 2 HN HL ltac:(done) ltac:(done))).
Defined.

Lemma VQGAN_training_step_logs_witness :
  has_nets Demo.nets_of_VQGAN Demo.vqgan
  ∧ has_loss Demo.loss_module Demo.args Demo.args Demo.vqgan
  ∧ ∃ o, (VQGAN.training_step (H := Demo.toy) [Demo.image] 0 1 Demo.vqgan).2 = Ok o
         ∧ logged (VQGAN.training_step (H := Demo.toy) [Demo.image] 0 1 Demo.vqgan).1
           = logged Demo.vqgan ++ [("train/disc_loss", returned_loss o)].
Proof.
  assert (HN : has_nets Demo.nets_of_VQGAN Demo.vqgan) by (split; eexists; reflexivity).
  assert (HL : has_loss Demo.loss_module Demo.args Demo.args Demo.vqgan)
    by (split; try eexists; reflexivity).
  split; [exact HN|]. split; [exact HL|].
  exact (proj2 (VQGAN_training_step_logs (H := Demo.toy) _ _ _ _
                  Demo.vqgan Demo.image [] 0 HN HL)).
Defined.

(** ** Validation of a [GumbelVQGAN] *)

Section GumbelValidation.
Context `{Collaborators}.




End GumbelValidation.



(** ** Codebook indices of a [VQGAN] *)

Section GradientMode.
Context `{Collaborators}.

Lemma in_mode_pure {A} (c : M A) : (∀ w, (c w).1 = w) → in_mode c.
Proof. intros Hc w. exists []. rewrite Hc, app_nil_r. by repeat split. Qed.

Lemma in_mode_ret {A} (a : A) : in_mode (mret a).
Proof. by apply in_mode_pure. Qed.

Lemma in_mode_raise {A} e : in_mode (@raise A e).
Proof. by apply in_mode_pure. Qed.

Lemma in_mode_lift {A} (r : result A) : in_mode (lift r).
Proof. by apply in_mode_pure. Qed.

Lemma in_mode_getattr name : in_mode (getattr name).
Proof. apply in_mode_pure. intros w. unfold getattr. by destruct (self w !! name). Qed.

Lemma in_mode_bind {A B} (c : M A) (k : A → M B) :
  in_mode c → (∀ a, in_mode (k a)) → in_mode (c ≫= k).
Proof.
  intros Hc Hk w. unfold mbind, M_bind, bind.
  destruct (Hc w) as (es & Hes & Hg & Hm & Hs).
  destruct (c w) as [w1 [a|e]]; cbn [fst] in *.
  - destruct (Hk a w1) as (es' & Hes' & Hg' & Hm' & Hs').
    exists (es ++ es'). rewrite Hes', Hes, app_assoc. rewrite Hm in Hg', Hm'.
    split; [done|]. split; [by apply Forall_app|]. split; congruence.
  - by exists es.
Qed.

Lemma in_mode_call_net name x : in_mode (call_net name x).
Proof.
  intros w. unfold call_net, mbind, M_bind, bind, getattr.
  destruct (self w !! name) as [[| | | | | | | |m live]|];
    try (exists []; by rewrite app_nil_r).
  exists [Call name m (grad_enabled w) x]. cbn. by repeat constructor.
Qed.

Lemma in_mode_call_quantize h : in_mode (call_quantize h).
Proof.
  intros w. unfold call_quantize, mbind, M_bind, bind, getattr.
  destruct (self w !! "quantize") as [[| | | | | | | |m live]|];
    try (exists []; by rewrite app_nil_r).
  exists [Quantize m live (grad_enabled w) (length (calls w)) h]. cbn.
  by repeat constructor.
Qed.

Lemma in_mode_VQGAN_encode x : in_mode (VQGAN.encode x).
Proof.
  unfold VQGAN.encode.
  apply in_mode_bind; [apply in_mode_call_net|intros h1].
  apply in_mode_bind; [apply in_mode_call_net|intros h2].
  apply in_mode_bind; [apply in_mode_call_quantize|intros [[quant loss] info]].
  apply in_mode_ret.
Qed.

(** X13.  [VQGAN.get_codebook_indices], on every input and every state of the
    instance, also when it raises: every network and the quantizer are
    called with gradients disabled, the gradient mode is afterwards what
    it was before the call, and no attribute is assigned. *)
Theorem VQGAN_get_codebook_indices_without_gradients img w :
  let w' := (VQGAN.get_codebook_indices img w).1 in
  grad_enabled w' = grad_enabled w
  ∧ self w' = self w
  ∧ Forall (λ e, event_grad e = Some false) (calls_since w w').
Proof.
  intros w'. subst w'.
  unfold VQGAN.get_codebook_indices, no_grad.
  match goal with
  | |- context [let (_, _) := ?c (set_grad_enabled false w) in _] =>
      assert (Hc : in_mode c); [|destruct (Hc (set_grad_enabled false w))
                                  as (es & Hes & Hg & _ & Hs);
                                 destruct (c (set_grad_enabled false w)) as [w1 r]]
  end.
  { apply in_mode_bind; [destruct (shape img); [apply in_mode_raise|apply in_mode_ret]|].
    intros b. apply in_mode_bind; [apply in_mode_VQGAN_encode|].
    intros [[quant loss] [[pp enc] indices]].
    apply in_mode_bind; [destruct (shape indices); [apply in_mode_raise|apply in_mode_ret]|].
    intros l. apply in_mode_bind; [case_decide; [apply in_mode_raise|apply in_mode_ret]|].
    intros n. apply in_mode_bind; [apply in_mode_lift|intros; apply in_mode_ret]. }
  cbn [fst] in *. split; [done|]. split; [done|].
  by rewrite (calls_since_app w (set_grad_enabled (grad_enabled w) w1) es).
Qed.

(** X14.  [VQGAN.get_codebook_indices] on a batch of [b > 0] images whose
    quantizer yields [l] flat indices: it returns them as [b] rows of
    [l // b] when [b] divides [l], and raises the [RuntimeError] of [view]
    when it does not. *)
Theorem VQGAN_get_codebook_indices_rows N w img b rest l :
  has_nets N w → shape img = b :: rest → b ≠ 0 →
  let indices :=
    (encode_value N (quantizer_live w) (length (calls w) + 2) (rescale img)).2.2 in
  shape indices = [l] → length (data indices) = l →
  (VQGAN.get_codebook_indices img w).2 =
  if decide (l `mod` b = 0) then Ok (Tensor [b; l `div` b] (data indices))
  else Raise (RuntimeError "shape is invalid for input size").
Proof.
  intros HN Hshape Hb indices Hsh Hlen.
  unfold VQGAN.get_codebook_indices, no_grad, mbind, M_bind, bind.
  rewrite Hshape. cbn [mret M_ret ret].
  fold (rescale img).
  rewrite (VQGAN_encode_run N _ _ (has_nets_set_grad_enabled N false w HN)).
  cbv beta iota.
  replace (quantizer_live (set_grad_enabled false w)) with (quantizer_live w) by done.
  replace (calls (set_grad_enabled false w)) with (calls w) by done.
  subst indices.
  destruct (encode_value N (quantizer_live w) (length (calls w) + 2) (rescale img))
    as [[quant diff] [[pp enc] ind]].
  cbn [fst snd] in *. rewrite Hsh. cbn [mret M_ret ret].
  rewrite decide_False by done. cbn [mret M_ret ret lift].
  unfold view2. rewrite Hlen.
  pose proof (Nat.div_mod_eq l b) as Hdm.
  destruct (decide (l `mod` b = 0)) as [Hm|Hm].
  - by rewrite decide_True by lia.
  - by rewrite decide_False by lia.
Qed.

(** X15.  On an empty batch [VQGAN.get_codebook_indices] runs the encoder, the
    [quant_conv] and the quantizer and then raises [ZeroDivisionError]
    for [indices.shape[0] // b]. *)
Theorem VQGAN_get_codebook_indices_empty_batch N w img rest l sh :
  has_nets N w → shape img = 0 :: rest →
  let k := length (calls w) + 2 in
  shape (encode_value N (quantizer_live w) k (rescale img)).2.2 = l :: sh →
  VQGAN.get_codebook_indices img w =
  (add_calls (encode_calls N (quantizer_live w) false k (rescale img)) w,
   Raise ZeroDivisionError).
Proof.
  intros HN Hshape k Hsh.
  unfold VQGAN.get_codebook_indices, no_grad, mbind, M_bind, bind.
  rewrite Hshape. cbn [mret M_ret ret].
  fold (rescale img).
  rewrite (VQGAN_encode_run N _ _ (has_nets_set_grad_enabled N false w HN)).
  cbv beta iota.
  replace (quantizer_live (set_grad_enabled false w)) with (quantizer_live w) by done.
  replace (calls (set_grad_enabled false w)) with (calls w) by done.
  fold k.
  destruct (encode_value N (quantizer_live w) k (rescale img)) as [[quant diff] [[pp enc] ind]].
  cbn [fst snd] in *. rewrite Hsh. cbn [mret M_ret ret].
  rewrite decide_True by done.
  destruct w; reflexivity.
Qed.
End GradientMode.

Lemma Demo_vqgan_nets : has_nets Demo.nets_of_VQGAN Demo.vqgan.
Proof. split; eexists; reflexivity. Defined.

Lemma VQGAN_get_codebook_indices_rows_witness :
  has_nets Demo.nets_of_VQGAN Demo.vqgan
  ∧ shape (Tensor [2; 1; 1; 2] [0; 1; 0; 1]%R) = [2; 1; 1; 2]
  ∧ 2 ≠ 0
  ∧ (VQGAN.get_codebook_indices (H := Demo.toy) (Tensor [2; 1; 1; 2] [0; 1; 0; 1]%R)
       Demo.vqgan).2
    = Ok (Tensor [2; 2] [0; 0; 0; 0]).
Proof.
  split; [exact Demo_vqgan_nets|]. split; [reflexivity|]. split; [done|].
  exact (VQGAN_get_codebook_indices_rows (H := Demo.toy) Demo.nets_of_VQGAN Demo.vqgan
           (Tensor [2; 1; 1; 2] [0; 1; 0; 1]%R) 2 [1; 1; 2] 4
           Demo_vqgan_nets eq_refl ltac:(done) eq_refl eq_refl).
Defined.

Lemma VQGAN_get_codebook_indices_empty_batch_witness :
  has_nets Demo.nets_of_VQGAN Demo.vqgan
  ∧ shape (Tensor [0; 1; 2; 2] ([] : list R)) = [0; 1; 2; 2]
  ∧ (VQGAN.get_codebook_indices (H := Demo.toy) (Tensor [0; 1; 2; 2] []) Demo.vqgan).2
    = Raise ZeroDivisionError.
Proof.
  split; [exact Demo_vqgan_nets|]. split; [reflexivity|].
  exact (f_equal snd
           (VQGAN_get_codebook_indices_empty_batch (H := Demo.toy) Demo.nets_of_VQGAN
              Demo.vqgan (Tensor [0; 1; 2; 2] []) [1; 2; 2] 0 []
              Demo_vqgan_nets eq_refl eq_refl)).
Defined.

(** ** Decoding: tokens and grids *)

Section DecodeMore.
Context `{Collaborators}.

Lemma VQGAN_decode_grid_run N w z :
  has_nets N w →
  let quant := net_forward (the_post_quant_conv N) z in
  VQGAN.decode (Grid z) false w =
  (add_calls [Call "post_quant_conv" (the_post_quant_conv N) (grad_enabled w) z;
              Call "decoder" (the_decoder N) (grad_enabled w) quant] w,
   Ok (net_forward (the_decoder N) quant)).
Proof.
  intros [_ _ _ Hpqc Hd] quant.
  unfold VQGAN.decode, mbind, M_bind, bind. cbn [mret M_ret ret].
  erewrite (call_net_at _ _ _ _ _ Hpqc) by done. cbv beta iota.
  erewrite (call_net_at _ _ _ _ _ Hd) by done. cbv beta iota.
  autorewrite with world. reflexivity.
Qed.

(** X16.  Decoding [b] sequences of [k * k] tokens with [feed_seq=True] is
    decoding, with [feed_seq=False], the grid of their codebook rows: the
    same calls are made and the same image comes back. *)
Theorem VQGAN_decode_sequence_as_grid N w img_seq b k d rows :
  has_nets N w → embedding_dim (the_quantize N) = Some d →
  shape img_seq = [b; k * k] →
  embedding_rows (embedding_weight (the_quantize N)) (data img_seq) = Ok rows →
  VQGAN.decode (Tokens img_seq) true w
  = VQGAN.decode (Grid (token_grid b d k rows)) false w.
Proof.
  intros HN Hdim Hshape Hrows.
  rewrite (VQGAN_decode_square N w img_seq b k d rows HN Hdim Hshape Hrows).
  by rewrite (VQGAN_decode_grid_run N w _ HN).
Qed.

Lemma embedding_rows_out_of_range (table : list (list R)) (tok : nat) :
  table !! tok = None →
  ∀ idx, tok ∈ idx → embedding_rows table idx = Raise IndexError.
Proof.
  intros Htok idx. induction idx as [|i idx IH]; intros Hin.
  - by apply elem_of_nil in Hin.
  - cbn [embedding_rows]. destruct (table !! i) as [row|] eqn:Ei; [|done].
    apply elem_of_cons in Hin as [->|Hin]; [congruence|].
    by rewrite (IH Hin).
Qed.

(** X17.  A token that is not an index of the codebook makes [VQGAN.decode] with
    [feed_seq=True] raise [IndexError] in the embedding lookup, before any
    network is called. *)
Theorem VQGAN_decode_token_out_of_codebook N w (img_seq : tensor nat) d (tok : nat) :
  has_nets N w → embedding_dim (the_quantize N) = Some d →
  tok ∈ data img_seq → (length (embedding_weight (the_quantize N)) ≤ tok)%nat →
  VQGAN.decode (Tokens img_seq) true w = (w, Raise IndexError).
Proof.
  intros [_ _ [live Hq] _ _] Hdim Hin Hlen.
  unfold VQGAN.decode, VQGAN.quantize_embedding, mbind, M_bind, bind.
  rewrite (getattr_some _ _ _ Hq), Hdim. cbn [lift].
  unfold embedding_lookup.
  by rewrite (embedding_rows_out_of_range _ tok (lookup_ge_None_2 _ _ Hlen) _ Hin).
Qed.
End DecodeMore.

Lemma VQGAN_decode_sequence_as_grid_witness :
  let tokens := Tensor [1; 4] [0; 1; 2; 3] in
  let rows := [INR 0; INR 0; INR 1; INR 1; INR 2; INR 2; INR 3; INR 3] in
  has_nets Demo.nets_of_VQGAN Demo.vqgan
  ∧ shape tokens = [1; 2 * 2]
  ∧ VQGAN.decode (H := Demo.toy) (Tokens tokens) true Demo.vqgan
    = VQGAN.decode (H := Demo.toy) (Grid (token_grid 1 2 2 rows)) false Demo.vqgan.
Proof.
  intros tokens rows.
  split; [exact Demo_vqgan_nets|]. split; [reflexivity|].
  exact (VQGAN_decode_sequence_as_grid (H := Demo.toy) Demo.nets_of_VQGAN Demo.vqgan
           tokens 1 2 2 rows Demo_vqgan_nets eq_refl eq_refl eq_refl).
Defined.

Lemma VQGAN_decode_token_out_of_codebook_witness :
  has_nets Demo.nets_of_VQGAN Demo.vqgan
  ∧ 7 ∈ [0; 7; 1; 2]
  ∧ (length (@embedding_weight Demo.toy (the_quantize Demo.nets_of_VQGAN)) ≤ 7)%nat
  ∧ VQGAN.decode (H := Demo.toy) (Tokens (Tensor [1; 4] [0; 7; 1; 2])) true Demo.vqgan
    = (Demo.vqgan, Raise IndexError).
Proof.
  assert (Hin : 7 ∈ [0; 7; 1; 2]) by (apply elem_of_cons; right; apply elem_of_cons; by left).
  assert (Hlen : (length (@embedding_weight Demo.toy (the_quantize Demo.nets_of_VQGAN))
                  ≤ 7)%nat) by (cbn; lia).
  split; [exact Demo_vqgan_nets|]. split; [exact Hin|]. split; [exact Hlen|].
  exact (VQGAN_decode_token_out_of_codebook (H := Demo.toy) Demo.nets_of_VQGAN Demo.vqgan
           (Tensor [1; 4] [0; 7; 1; 2]) 2 7 Demo_vqgan_nets eq_refl Hin Hlen).
Defined.

(** ** The optimizers of a [VQGAN] *)

Lemma under_loss_not_network k :
  is_under "loss" k = true →
  is_under "encoder" k = false ∧ is_under "decoder" k = false
  ∧ is_under "quantize" k = false ∧ is_under "quant_conv" k = false
  ∧ is_under "post_quant_conv" k = false.
Proof.
  cbv [is_under String.append]. destruct k as [|c k]; [done|]. cbn [String.prefix].
  destruct (ascii_dec "l" c) as [<-|]; [|done]. intros _. repeat split; reflexivity.
Qed.

Lemma under_discriminator_under_loss k :
  is_under "loss.discriminator" k = true → is_under "loss" k = true.
Proof.
  cbv [is_under String.append].
  do 5 (destruct k as [|? k]; [done|]; cbn [String.prefix]; case_match; [|done]).
  intros _. by destruct k.
Qed.

Lemma module_parameters_run w name path m :
  module_at w name m →
  module_parameters name path w = (w, Ok (parameters_under path w)).
Proof.
  intros [live Hm]. unfold module_parameters, mbind, M_bind, bind.
  by rewrite (getattr_some _ _ _ Hm).
Qed.

Lemma VQGAN_configure_optimizers_run N lm da cfg bs lr w :
  has_nets N w → has_loss lm da cfg w →
  self w !! "hparams" = Some (VHparams bs lr) →
  autoencoder_parameters w ≠ [] → parameters_under "loss.discriminator" w ≠ [] →
  let opt_ae := Adam_ (autoencoder_parameters w) lr (5 / 10, 9 / 10)%R in
  let opt_disc := Adam_ (parameters_under "loss.discriminator" w) lr (5 / 10, 9 / 10)%R in
  VQGAN.configure_optimizers w =
  (w, Ok ([opt_ae; opt_disc],
          if lr_decay cfg
          then [VQGAN.plateau opt_ae "val/total_loss"; VQGAN.plateau opt_disc "val/disc_loss"]
          else [])).
Proof.
  intros [He Hqc Hq Hpqc Hd] HL Hh Hae Hdisc opt_ae opt_disc.
  unfold VQGAN.configure_optimizers, hparams_learning_rate, mbind, M_bind, bind.
  rewrite (getattr_some _ _ _ Hh). cbv beta iota. cbn [mret M_ret ret].
  rewrite (module_parameters_run _ _ _ _ He). cbv beta iota.
  rewrite (module_parameters_run _ _ _ _ Hd). cbv beta iota.
  rewrite (module_parameters_run _ _ _ _ Hq). cbv beta iota.
  rewrite (module_parameters_run _ _ _ _ Hqc). cbv beta iota.
  rewrite (module_parameters_run _ _ _ _ Hpqc). cbv beta iota.
  fold (autoencoder_parameters w). subst opt_ae opt_disc.
  destruct (autoencoder_parameters w) as [|p ps] eqn:Eae; [done|].
  cbn [lift Adam].
  rewrite (module_parameters_run _ _ _ _ (at_loss _ _ _ _ HL)). cbv beta iota.
  destruct (parameters_under "loss.discriminator" w) as [|q qs] eqn:Edisc; [done|].
  cbn [lift Adam].
  rewrite (args_field_at _ _ _ _ (at_args _ _ _ _ HL)) by done.
  by destruct (lr_decay cfg).
Qed.

(** X18.  [VQGAN.configure_optimizers] returns two Adam optimizers with the
    learning rate of [hparams] and betas (0.5, 0.9), the first over the
    parameters of the encoder, the decoder, the quantizer and the two
    convolutions, the second over those of the discriminator; with
    [args.lr_decay] a plateau scheduler for each, watching
    [val/total_loss] and [val/disc_loss], and no scheduler without. *)
Theorem VQGAN_configure_optimizers_returns N lm da cfg bs lr w :
  has_nets N w → has_loss lm da cfg w →
  self w !! "hparams" = Some (VHparams bs lr) →
  autoencoder_parameters w ≠ [] → parameters_under "loss.discriminator" w ≠ [] →
  ∃ opt_ae opt_disc scheds,
    VQGAN.configure_optimizers w = (w, Ok ([opt_ae; opt_disc], scheds))
    ∧ opt_ae = Adam_ (autoencoder_parameters w) lr (5 / 10, 9 / 10)%R
    ∧ opt_disc = Adam_ (parameters_under "loss.discriminator" w) lr (5 / 10, 9 / 10)%R
    ∧ (lr_decay cfg = true →
       scheds = [ReduceLROnPlateau opt_ae (5 / 10) 10 10 (1 / 1000000) "val/total_loss";
                 ReduceLROnPlateau opt_disc (5 / 10) 10 10 (1 / 1000000) "val/disc_loss"])
    ∧ (lr_decay cfg = false → scheds = []).
Proof.
  intros HN HL Hh Hae Hdisc.
  rewrite (VQGAN_configure_optimizers_run N lm da cfg bs lr w HN HL Hh Hae Hdisc).
  do 3 eexists. split; [reflexivity|]. split; [reflexivity|]. split; [reflexivity|].
  by destruct (lr_decay cfg).
Qed.

(** X19.  The two optimizers of a [VQGAN] share no parameter: the first holds
    none of the loss module, the second only those of its discriminator.
    A parameter of the loss module outside the discriminator, as those of
    the perceptual network are, is given to neither. *)
Theorem VQGAN_optimizers_split_parameters N lm da cfg bs lr w :
  has_nets N w → has_loss lm da cfg w →
  self w !! "hparams" = Some (VHparams bs lr) →
  autoencoder_parameters w ≠ [] → parameters_under "loss.discriminator" w ≠ [] →
  ∃ opt_ae opt_disc scheds,
    (VQGAN.configure_optimizers w).2 = Ok ([opt_ae; opt_disc], scheds)
    ∧ (∀ kp, kp ∈ opt_params opt_ae → kp ∈ state_dict w ∧ is_under "loss" kp.1 = false)
    ∧ (∀ kp, (kp ∈ opt_params opt_disc) ↔
             (kp ∈ state_dict w ∧ is_under "loss.discriminator" kp.1 = true))
    ∧ (∀ kp, kp ∈ opt_params opt_ae → kp ∉ opt_params opt_disc)
    ∧ (∀ kp, is_under "loss" kp.1 = true → is_under "loss.discriminator" kp.1 = false →
             (kp ∉ opt_params opt_ae) ∧ (kp ∉ opt_params opt_disc)).
Proof.
  intros HN HL Hh Hae Hdisc.
  rewrite (VQGAN_configure_optimizers_run N lm da cfg bs lr w HN HL Hh Hae Hdisc).
  do 3 eexists. split; [reflexivity|]. cbn [opt_params].
  assert (Hin_ae : ∀ kp, kp ∈ autoencoder_parameters w →
            kp ∈ state_dict w ∧ is_under "loss" kp.1 = false).
  { intros kp. unfold autoencoder_parameters, parameters_under.
    rewrite !elem_of_app, !list_elem_of_filter.
    intros Hin. destruct (is_under "loss" kp.1) eqn:El; [|naive_solver].
    destruct (under_loss_not_network _ El) as (? & ? & ? & ? & ?).
    naive_solver congruence. }
  assert (Hin_disc : ∀ kp, (kp ∈ parameters_under "loss.discriminator" w) ↔
            (kp ∈ state_dict w ∧ is_under "loss.discriminator" kp.1 = true)).
  { intros kp. unfold parameters_under. rewrite list_elem_of_filter. naive_solver. }
  split; [exact Hin_ae|]. split; [exact Hin_disc|]. split.
  - intros kp [_ Hl]%Hin_ae [_ Hd]%Hin_disc.
    apply under_discriminator_under_loss in Hd. congruence.
  - intros kp Hl Hnd. split.
    + intros [_ ?]%Hin_ae. congruence.
    + intros [_ ?]%Hin_disc. congruence.
Qed.

Lemma DemoOptim_nets : has_nets Demo.nets_of_VQGAN DemoOptim.vqgan.
Proof. split; eexists; reflexivity. Defined.

Lemma DemoOptim_loss : has_loss Demo.loss_module Demo.args Demo.args DemoOptim.vqgan.
Proof. split; try eexists; reflexivity. Defined.

Lemma VQGAN_configure_optimizers_returns_witness :
  has_nets Demo.nets_of_VQGAN DemoOptim.vqgan
  ∧ has_loss Demo.loss_module Demo.args Demo.args DemoOptim.vqgan
  ∧ autoencoder_parameters DemoOptim.vqgan ≠ []
  ∧ parameters_under "loss.discriminator" DemoOptim.vqgan ≠ []
  ∧ ∃ opt_ae opt_disc scheds,
      VQGAN.configure_optimizers DemoOptim.vqgan
      = (DemoOptim.vqgan, Ok ([opt_ae; opt_disc], scheds))
      ∧ opt_ae = Adam_ (autoencoder_parameters DemoOptim.vqgan) (1 / 10000) (5 / 10, 9 / 10)%R
      ∧ opt_disc = Adam_ (parameters_under "loss.discriminator" DemoOptim.vqgan)
                     (1 / 10000) (5 / 10, 9 / 10)%R
      ∧ (lr_decay Demo.args = true →
         scheds = [ReduceLROnPlateau opt_ae (5 / 10) 10 10 (1 / 1000000) "val/total_loss";
                   ReduceLROnPlateau opt_disc (5 / 10) 10 10 (1 / 1000000) "val/disc_loss"])
      ∧ (lr_decay Demo.args = false → scheds = []).
Proof.
  assert (Hae : autoencoder_parameters DemoOptim.vqgan ≠ []) by (vm_compute; discriminate).
  assert (Hd : parameters_under "loss.discriminator" DemoOptim.vqgan ≠ [])
    by (vm_compute; discriminate).
  split; [exact DemoOptim_nets|]. split; [exact DemoOptim_loss|].
  split; [exact Hae|]. split; [exact Hd|].
  exact (VQGAN_configure_optimizers_returns _ _ _ _ 4 (1 / 10000)
           DemoOptim.vqgan DemoOptim_nets DemoOptim_loss eq_refl Hae Hd).
Defined.

Lemma VQGAN_optimizers_split_parameters_witness :
  ∃ opt_ae opt_disc scheds,
    (VQGAN.configure_optimizers DemoOptim.vqgan).2
    = Ok ([opt_ae; opt_disc], scheds)
    ∧ (∀ kp, kp ∈ opt_params opt_ae →
             kp ∈ state_dict DemoOptim.vqgan ∧ is_under "loss" kp.1 = false)
    ∧ (∀ kp, (kp ∈ opt_params opt_disc) ↔
             (kp ∈ state_dict DemoOptim.vqgan
              ∧ is_under "loss.discriminator" kp.1 = true))
    ∧ (∀ kp, kp ∈ opt_params opt_ae → kp ∉ opt_params opt_disc)
    ∧ (∀ kp, is_under "loss" kp.1 = true → is_under "loss.discriminator" kp.1 = false →
             (kp ∉ opt_params opt_ae) ∧ (kp ∉ opt_params opt_disc)).
Proof.
  apply (VQGAN_optimizers_split_parameters _ _ _ _ 4 (1 / 10000)
           DemoOptim.vqgan DemoOptim_nets DemoOptim_loss eq_refl).
  - vm_compute; discriminate.
  - vm_compute; discriminate.
Defined.

(** ** Construction and steps of a [VQVAE] *)

Section VQVAESteps.
Context `{Collaborators}.

Lemma VQVAE_init_nets args bs lr ik mon remap sis norm w :
  has_nets (VQVAE_nets args remap sis)
    (VQVAE.__init__ args bs lr ik mon remap sis norm w).1.
Proof. destruct mon; split; eexists; simpl; lookup_attr. Qed.

Lemma VQVAE_init_smooth args bs lr ik mon remap sis norm w :
  self (VQVAE.__init__ args bs lr ik mon remap sis norm w).1 !! "smooth_l1_loss"
  = Some (VBool (smooth_l1_loss args)).
Proof. destruct mon; simpl; rewrite !lookup_insert_ne by done; apply lookup_insert_eq. Qed.

Lemma reconstruction_loss_run w smooth x xrec :
  self w !! "smooth_l1_loss" = Some (VBool smooth) →
  VQVAE.reconstruction_loss x xrec w
  = (w, Ok (reconstruction_value smooth x xrec (global_step w))).
Proof.
  intros Hsm. unfold VQVAE.reconstruction_loss, mbind, M_bind, bind.
  rewrite (getattr_some _ _ _ Hsm). cbn [as_bool mret M_ret ret gets].
  by destruct smooth.
Qed.

Lemma VQVAE_training_step_run N w x y i smooth :
  has_nets N w → self w !! "smooth_l1_loss" = Some (VBool smooth) →
  let k := length (calls w) + 2 in
  let xrec := (forward_value N (quantizer_live w) k x).1 in
  let qloss := (forward_value N (quantizer_live w) k x).2 in
  let aeloss := reconstruction_value smooth x xrec (global_step w) in
  VQVAE.training_step [x; y] i w =
  (add_logs [("train/rec_loss", aeloss); ("train/embed_loss", qloss)]
     (add_calls (forward_calls N (quantizer_live w) (grad_enabled w) k x) w),
   Ok (aeloss + qloss)%R).
Proof.
  intros HN Hsm k xrec qloss aeloss. subst aeloss xrec qloss.
  unfold VQVAE.training_step, mbind, M_bind, bind. cbn [unpack_pair mret M_ret ret].
  rewrite (VQVAE_forward_run N w x HN). cbv beta iota. fold k.
  destruct (forward_value N (quantizer_live w) k x) as [xr ql].
  rewrite (reconstruction_loss_run _ smooth) by done. cbv beta iota.
  cbn [log modify mret M_ret ret fst snd]. by autorewrite with world.
Qed.

Lemma VQVAE_validation_step_run N w x y i smooth :
  has_nets N w → self w !! "smooth_l1_loss" = Some (VBool smooth) →
  let k := length (calls w) + 2 in
  let xrec := (forward_value N (quantizer_live w) k x).1 in
  let qloss := (forward_value N (quantizer_live w) k x).2 in
  let aeloss := reconstruction_value smooth x xrec (global_step w) in
  VQVAE.validation_step [x; y] i w =
  (add_logs [("val/rec_loss", aeloss); ("val/embed_loss", qloss)]
     (add_calls (forward_calls N (quantizer_live w) (grad_enabled w) k x) w),
   Ok (aeloss + qloss)%R).
Proof.
  intros HN Hsm k xrec qloss aeloss. subst aeloss xrec qloss.
  unfold VQVAE.validation_step, mbind, M_bind, bind. cbn [unpack_pair mret M_ret ret].
  rewrite (VQVAE_forward_run N w x HN). cbv beta iota. fold k.
  destruct (forward_value N (quantizer_live w) k x) as [xr ql].
  rewrite (reconstruction_loss_run _ smooth) by done. cbv beta iota.
  cbn [log modify mret M_ret ret fst snd]. by autorewrite with world.
Qed.

(** X20.  [VQVAE.__init__] returns on every input and leaves the five networks
    of the autoencoder, a [VectorQuantizer] with [beta = 0.25] among them,
    the flag [smooth_l1_loss] of [args], the normalization it was given,
    and [monitor] only when one was given. *)
Theorem VQVAE_init_establishes args bs lr ik mon remap sis norm w :
  let w' := (VQVAE.__init__ args bs lr ik mon remap sis norm w).1 in
  (VQVAE.__init__ args bs lr ik mon remap sis norm w).2 = Ok tt
  ∧ has_nets (VQVAE_nets args remap sis) w'
  ∧ self w' !! "smooth_l1_loss" = Some (VBool (smooth_l1_loss args))
  ∧ self w' !! "normalization" = Some (VPair norm.1 norm.2)
  ∧ self w' !! "monitor" = match mon with
                           | Some m => Some (VStr m)
                           | None => self w !! "monitor"
                           end.
Proof.
  intros w'. subst w'.
  split; [apply VQVAE_init_returns|]. split; [apply VQVAE_init_nets|].
  split; [apply VQVAE_init_smooth|].
  split.
  - destruct mon; simpl; rewrite !lookup_insert_ne by done; apply lookup_insert_eq.
  - destruct mon; simpl; [apply lookup_insert_eq|].
    by rewrite !lookup_insert_ne by done.
Qed.

(** X21.  A training step of a [VQVAE] as [__init__] has made it, on a batch
    [(x, y)]: it runs one forward pass through the five networks and
    returns the reconstruction loss plus the quantization loss; the
    reconstruction loss is the smooth L1 loss when [args.smooth_l1_loss]
    is set and the mean squared error otherwise, of the input and the
    reconstruction in this order, with the step counter as its third
    argument. *)
Theorem VQVAE_constructed_training_step args bs lr ik mon remap sis norm w x y i :
  let w' := (VQVAE.__init__ args bs lr ik mon remap sis norm w).1 in
  let N := VQVAE_nets args remap sis in
  let forwarded := forward_value N (quantizer_live w') (length (calls w') + 2) x in
  let aeloss :=
    if smooth_l1_loss args then smooth_l1 x forwarded.1 (global_step w')
    else mse_loss x forwarded.1 (global_step w') in
  VQVAE.training_step [x; y] i w' =
  (add_logs [("train/rec_loss", aeloss); ("train/embed_loss", forwarded.2)]
     (add_calls (forward_calls N (quantizer_live w') (grad_enabled w')
                   (length (calls w') + 2) x) w'),
   Ok (aeloss + forwarded.2)%R).
Proof.
  intros w' N forwarded aeloss.
  exact (VQVAE_training_step_run N w' x y i (smooth_l1_loss args)
           (VQVAE_init_nets args bs lr ik mon remap sis norm w)
           (VQVAE_init_smooth args bs lr ik mon remap sis norm w)).
Qed.

(** X22.  A validation step of [VQVAE] returns the loss a training step returns
    in the same state and makes the same calls; the two differ in the
    names they log under. *)
Theorem VQVAE_validation_step_as_training N w x y i smooth :
  has_nets N w → self w !! "smooth_l1_loss" = Some (VBool smooth) →
  let t := VQVAE.training_step [x; y] i w in
  let v := VQVAE.validation_step [x; y] i w in
  (∃ loss, t.2 = Ok loss ∧ v.2 = Ok loss)
  ∧ calls v.1 = calls t.1
  ∧ forward_passes (calls_since w v.1) = 1
  ∧ snd <$> logged v.1 = snd <$> logged t.1
  ∧ fst <$> drop (length (logged w)) (logged t.1) = ["train/rec_loss"; "train/embed_loss"]
  ∧ fst <$> drop (length (logged w)) (logged v.1) = ["val/rec_loss"; "val/embed_loss"].
Proof.
  intros HN Hsm t v. subst t v.
  rewrite (VQVAE_training_step_run N w x y i smooth HN Hsm).
  rewrite (VQVAE_validation_step_run N w x y i smooth HN Hsm).
  cbn [fst snd]. autorewrite with world.
  split; [by eexists|]. split; [done|]. split.
  { rewrite (calls_since_app w _
               (forward_calls N (quantizer_live w) (grad_enabled w)
                  (length (calls w) + 2) x)) by (by autorewrite with world).
    rewrite <- (app_nil_r (forward_calls _ _ _ _ _)).
    by rewrite forward_passes_forward_calls. }
  split; [by rewrite !fmap_app|].
  by rewrite !drop_app_length.
Qed.

(** X23.  The steps of the two [VQVAE] classes unpack the batch as a pair: on a
    batch that does not hold two items they raise [ValueError] before any
    network is called and before the temperature is touched. *)
Theorem VQVAE_steps_unpack_a_pair (batch : list (tensor R)) i idx w :
  length batch ≠ 2 →
  VQVAE.training_step batch i w = (w, Raise (ValueError "unpack"))
  ∧ VQVAE.validation_step batch i w = (w, Raise (ValueError "unpack"))
  ∧ GumbelVQVAE.training_step batch i idx w = (w, Raise (ValueError "unpack"))
  ∧ GumbelVQVAE.validation_step batch i w = (w, Raise (ValueError "unpack")).
Proof.
  intros Hlen.
  unfold VQVAE.training_step, VQVAE.validation_step, GumbelVQVAE.training_step,
    GumbelVQVAE.validation_step, mbind, M_bind, bind.
  by destruct batch as [|x [|y [|z rest]]].
Qed.

(** X24.  [GumbelVQVAE.encode_to_prequant] calls the encoder and [quant_conv]
    and not the quantizer; what it returns is what [encode] gives the
    quantizer. *)
Theorem GumbelVQVAE_encode_to_prequant_run N w x :
  has_nets N w →
  let h := net_forward (the_quant_conv N) (net_forward (the_encoder N) x) in
  let g := grad_enabled w in
  let prequant_calls :=
    [Call "encoder" (the_encoder N) g x;
     Call "quant_conv" (the_quant_conv N) g (net_forward (the_encoder N) x)] in
  GumbelVQVAE.encode_to_prequant x w = (add_calls prequant_calls w, Ok h)
  ∧ calls (VQVAE.encode x w).1
    = calls w ++ prequant_calls
      ++ [Quantize (the_quantize N) (quantizer_live w) g (length (calls w) + 2) h].
Proof.
  intros HN h g prequant_calls. destruct HN as [He Hqc [live Hq] Hpqc Hd].
  split.
  - unfold GumbelVQVAE.encode_to_prequant, mbind, M_bind, bind.
    erewrite (call_net_at _ _ _ _ _ He) by done. cbv beta iota.
    erewrite (call_net_at _ _ _ _ _ Hqc) by done. cbv beta iota.
    by autorewrite with world.
  - rewrite (quantizer_live_at _ _ _ Hq).
    unfold VQVAE.encode, mbind, M_bind, bind.
    erewrite (call_net_at _ _ _ _ _ He) by done. cbv beta iota.
    erewrite (call_net_at _ _ _ _ _ Hqc) by done. cbv beta iota.
    erewrite (call_quantize_run (add_calls _ (add_calls _ w)) _ live _ Hq). cbv beta iota.
    autorewrite with world. cbn [length app].
    replace (length (calls w) + (1 + 1)) with (length (calls w) + 2) by lia.
    destruct (quantizer_forward _ _ _ _) as [[quant diff] inf].
    cbn [mret M_ret ret fst]. by autorewrite with world.
Qed.

(** X25.  [GumbelVQVAE.log_images] on a batch [(x, y)] makes the calls of a
    forward pass in the state it finds, quantizer temperature included,
    and returns [x] as [inputs] and the reconstruction of that pass as
    [reconstructions]; it logs nothing. *)
Theorem GumbelVQVAE_log_images_as_forward N w x y :
  has_nets N w →
  let forwarded := VQVAE.forward x w in
  ∃ xrec qloss,
    forwarded.2 = Ok (xrec, qloss)
    ∧ GumbelVQVAE_logging.log_images [x; y] w = (forwarded.1, Ok (Images x xrec))
    ∧ logged forwarded.1 = logged w.
Proof.
  intros HN forwarded. subst forwarded.
  rewrite (VQVAE_forward_run N w x HN). cbn [fst snd].
  destruct HN as [He Hqc [live Hq] Hpqc Hd].
  rewrite (quantizer_live_at _ _ _ Hq).
  unfold GumbelVQVAE_logging.log_images, VQVAE.decode, mbind, M_bind, bind.
  cbn [unpack_pair mret M_ret ret].
  erewrite (call_net_at _ _ _ _ _ He) by done. cbv beta iota.
  erewrite (call_net_at _ _ _ _ _ Hqc) by done. cbv beta iota.
  erewrite (call_quantize_run (add_calls _ (add_calls _ w)) _ live _ Hq). cbv beta iota.
  autorewrite with world. cbn [length app].
  replace (length (calls w) + (1 + 1)) with (length (calls w) + 2) by lia.
  unfold forward_value, forward_calls.
  destruct (quantizer_forward _ _ _ _) as [[quant diff] inf].
  cbn [mret M_ret ret fst].
  erewrite (call_net_at _ _ _ _ _ Hpqc) by done. cbv beta iota.
  erewrite (call_net_at _ _ _ _ _ Hd) by done. cbv beta iota.
  autorewrite with world. by do 2 eexists.
Qed.
End VQVAESteps.

Lemma DemoVQVAE_nets : has_nets (VQVAE_nets Demo.args None false) DemoVQVAE.vqvae.
Proof. split; eexists; reflexivity. Defined.

Lemma DemoVQVAE_smooth : self DemoVQVAE.vqvae !! "smooth_l1_loss" = Some (VBool false).
Proof. reflexivity. Defined.

Lemma VQVAE_validation_step_as_training_witness :
  has_nets (VQVAE_nets Demo.args None false) DemoVQVAE.vqvae
  ∧ self DemoVQVAE.vqvae !! "smooth_l1_loss" = Some (VBool false)
  ∧ ∃ loss,
      (VQVAE.training_step (H := Demo.toy) [Demo.image; DemoVAE.label] 0 DemoVQVAE.vqvae).2
      = Ok loss
      ∧ (VQVAE.validation_step (H := Demo.toy) [Demo.image; DemoVAE.label] 0
           DemoVQVAE.vqvae).2 = Ok loss.
Proof.
  split; [exact DemoVQVAE_nets|]. split; [exact DemoVQVAE_smooth|].
  exact (proj1 (VQVAE_validation_step_as_training (H := Demo.toy) _ DemoVQVAE.vqvae
                  Demo.image DemoVAE.label 0 false DemoVQVAE_nets DemoVQVAE_smooth)).
Defined.

Lemma VQVAE_steps_unpack_a_pair_witness :
  length [Demo.image] ≠ 2
  ∧ VQVAE.training_step (H := Demo.toy) [Demo.image] 0 DemoVQVAE.vqvae
    = (DemoVQVAE.vqvae, Raise (ValueError "unpack")).
Proof.
  assert (Hlen : length [Demo.image] ≠ 2) by (cbn; lia).
  split; [exact Hlen|].
  exact (proj1 (VQVAE_steps_unpack_a_pair (H := Demo.toy) [Demo.image] 0 0
                  DemoVQVAE.vqvae Hlen)).
Defined.

Lemma GumbelVQVAE_encode_to_prequant_run_witness :
  has_nets DemoVAE.nets_of_GumbelVQVAE DemoVAE.gumbel_vqvae
  ∧ (GumbelVQVAE.encode_to_prequant (H := Demo.toy) Demo.image DemoVAE.gumbel_vqvae).2
    = Ok Demo.image.
Proof.
  assert (HN : has_nets DemoVAE.nets_of_GumbelVQVAE DemoVAE.gumbel_vqvae)
    by (split; eexists; reflexivity).
  split; [exact HN|].
  exact (f_equal snd
           (proj1 (GumbelVQVAE_encode_to_prequant_run (H := Demo.toy) _
                     DemoVAE.gumbel_vqvae Demo.image HN))).
Defined.

Lemma GumbelVQVAE_log_images_as_forward_witness :
  has_nets DemoVAE.nets_of_GumbelVQVAE DemoVAE.gumbel_vqvae
  ∧ ∃ xrec qloss,
      (VQVAE.forward (H := Demo.toy) Demo.image DemoVAE.gumbel_vqvae).2 = Ok (xrec, qloss)
      ∧ GumbelVQVAE_logging.log_images (H := Demo.toy) [Demo.image; DemoVAE.label]
          DemoVAE.gumbel_vqvae
        = ((VQVAE.forward (H := Demo.toy) Demo.image DemoVAE.gumbel_vqvae).1,
           Ok (Images Demo.image xrec))
      ∧ logged (VQVAE.forward (H := Demo.toy) Demo.image DemoVAE.gumbel_vqvae).1
        = logged DemoVAE.gumbel_vqvae.
Proof.
  assert (HN : has_nets DemoVAE.nets_of_GumbelVQVAE DemoVAE.gumbel_vqvae)
    by (split; eexists; reflexivity).
  split; [exact HN|].
  exact (GumbelVQVAE_log_images_as_forward (H := Demo.toy) _ DemoVAE.gumbel_vqvae
           Demo.image DemoVAE.label HN).
Defined.

(** ** [log_images] of a [VQVAE] *)

Section VQVAELogImages.
Context `{Collaborators}.

Lemma VQVAE_init_no_to_rgb args bs lr ik mon remap sis norm w :
  self (VQVAE.__init__ args bs lr ik mon remap sis norm (new_instance w)).1 !! "to_rgb"
  = None.
Proof.
  apply not_elem_of_dom. rewrite VQVAE_init_dom.
  cbn [new_instance self set_self set_state_dict]. destruct mon; set_solver.
Qed.

Lemma VQVAE_log_images_run N w (x y : tensor R) (b c : nat) rest :
  has_nets N w → shape x = b :: c :: rest →
  let forwarded := forward_value N (quantizer_live w) (length (calls w) + 2) x in
  let w' := add_calls (forward_calls N (quantizer_live w) (grad_enabled w)
                         (length (calls w) + 2) x) w in
  VQVAE_logging.log_images [x; y] w =
  if decide (3 < c)%nat then
    match channels forwarded.1 with
    | Raise e => (w', Raised e)
    | Ok c' =>
        if decide (3 < c')%nat then
          finish (x ← call_net "to_rgb" x;
                  xrec ← call_net "to_rgb" forwarded.1;
                  mret (Images x xrec)) w'
        else (w', AssertionError)
    end
  else (w', Returned (Images x forwarded.1)).
Proof.
  intros HN Hshape forwarded w'. subst forwarded w'.
  unfold VQVAE_logging.log_images, mbind, M_bind, bind.
  cbn [unpack_pair mret M_ret ret].
  rewrite (VQVAE_forward_run N w x HN). cbv beta iota.
  destruct (forward_value N (quantizer_live w) (length (calls w) + 2) x) as [xrec qloss].
  unfold channels at 1. rewrite Hshape. cbn [lift fst]. reflexivity.
Qed.

(** X26.  [VQVAE.log_images] on a batch [(x, y)] whose images have at most three
    channels runs one forward pass and returns [x] itself as [inputs] and
    the reconstruction of the pass as [reconstructions]. *)
Theorem VQVAE_log_images_returns N w (x y : tensor R) (b c : nat) rest :
  has_nets N w → shape x = b :: c :: rest → (c ≤ 3)%nat →
  VQVAE_logging.log_images [x; y] w =
  ((VQVAE.forward x w).1,
   Returned (Images x (forward_value N (quantizer_live w) (length (calls w) + 2) x).1)).
Proof.
  intros HN Hshape Hc.
  rewrite (VQVAE_log_images_run N w x y b c rest HN Hshape).
  rewrite decide_False by lia.
  by rewrite (VQVAE_forward_run N w x HN).
Qed.

(** X27.  On images with more than three channels [log_images] of a [VQVAE] as
    [__init__] has made it does not return: it fails its [assert] when
    the reconstruction has at most three channels, and otherwise raises
    [AttributeError] for [to_rgb], which no constructor assigns. *)
Theorem VQVAE_log_images_many_channels args bs lr ik mon remap sis norm w0
    (x y : tensor R) (b c : nat) rest :
  shape x = b :: c :: rest → (3 < c)%nat →
  let w := (VQVAE.__init__ args bs lr ik mon remap sis norm (new_instance w0)).1 in
  let xrec := (forward_value (VQVAE_nets args remap sis) (quantizer_live w)
                 (length (calls w) + 2) x).1 in
  (VQVAE_logging.log_images [x; y] w).2 =
  match channels xrec with
  | Raise e => Raised e
  | Ok c' => if decide (3 < c')%nat then Raised (AttributeError "to_rgb") else AssertionError
  end.
Proof.
  intros Hshape Hc w xrec.
  rewrite (VQVAE_log_images_run (VQVAE_nets args remap sis) w x y b c rest
             (VQVAE_init_nets args bs lr ik mon remap sis norm (new_instance w0)) Hshape).
  rewrite decide_True by done. cbv zeta. fold xrec.
  destruct (channels xrec) as [c'|e]; [|done].
  destruct (decide (3 < c')); [|done].
  unfold finish, call_net, mbind, M_bind, bind.
  rewrite getattr_none; [done|].
  autorewrite with world. apply VQVAE_init_no_to_rgb.
Qed.
End VQVAELogImages.

Lemma VQVAE_log_images_returns_witness :
  has_nets (VQVAE_nets Demo.args None false) DemoVQVAE.vqvae
  ∧ shape Demo.image = [1; 1; 2; 2] ∧ (1 ≤ 3)%nat
  ∧ (VQVAE_logging.log_images (H := Demo.toy) [Demo.image; DemoVAE.label]
       DemoVQVAE.vqvae).2
    = Returned (Images Demo.image Demo.image).
Proof.
  assert (Hc : (1 ≤ 3)%nat) by lia.
  split; [exact DemoVQVAE_nets|]. split; [reflexivity|]. split; [exact Hc|].
  exact (f_equal snd
           (VQVAE_log_images_returns (H := Demo.toy) _ DemoVQVAE.vqvae Demo.image
              DemoVAE.label 1 1 [2; 2] DemoVQVAE_nets eq_refl Hc)).
Defined.

Lemma VQVAE_log_images_many_channels_witness :
  let x := Tensor [1; 4; 1; 1] [0; 0; 0; 0]%R in
  shape x = [1; 4; 1; 1] ∧ (3 < 4)%nat
  ∧ (VQVAE_logging.log_images (H := Demo.toy) [x; DemoVAE.label] DemoVQVAE.vqvae).2
    = Raised (AttributeError "to_rgb").
Proof.
  intros x. assert (Hc : (3 < 4)%nat) by lia.
  split; [reflexivity|]. split; [exact Hc|].
  exact (VQVAE_log_images_many_channels (H := Demo.toy) Demo.args 4 (1 / 10000) [] None
           None false VQVAE.default_normalization Demo.blank x DemoVAE.label 1 4 [1; 1]
           eq_refl Hc).
Defined.

(** ** Codebook indices of a [GumbelVQVAE] *)

(** X28.  [GumbelVQVAE.get_codebook_indices] encodes through [self.model] as
    the method it overrides does: on an instance without an attribute
    [model], as the constructors leave it, it raises [AttributeError] for
    every image batch, with no network called and the gradient mode as
    before. *)
Theorem GumbelVQVAE_get_codebook_indices_no_model w (img : tensor R) (b : nat) rest :
  shape img = b :: rest → self w !! "model" = None →
  GumbelVQVAE.get_codebook_indices img w = (w, Raise (AttributeError "model")).
Proof.
  intros Hshape Hm.
  unfold GumbelVQVAE.get_codebook_indices, no_grad, mbind, M_bind, bind.
  rewrite Hshape. cbn [mret M_ret ret].
  rewrite (getattr_none (set_grad_enabled false w) "model" Hm).
  destruct w; reflexivity.
Qed.

Lemma GumbelVQVAE_get_codebook_indices_no_model_witness :
  shape Demo.image = [1; 1; 2; 2]
  ∧ self DemoVAE.gumbel_vqvae !! "model" = None
  ∧ GumbelVQVAE.get_codebook_indices Demo.image DemoVAE.gumbel_vqvae
    = (DemoVAE.gumbel_vqvae, Raise (AttributeError "model")).
Proof.
  split; [reflexivity|]. split; [reflexivity|].
  exact (GumbelVQVAE_get_codebook_indices_no_model DemoVAE.gumbel_vqvae
           Demo.image 1 [1; 2; 2] eq_refl eq_refl).
Defined.
